(** * CH341 compatibility layer for CH347: model and verified properties

    A shallow embedding of [ch341_compat.c].  The C file keeps its state in
    file-level globals (the loaded-module handle, the readiness flag, one
    function pointer per CH347 entry point, and one fixed-size array per
    per-device attribute) and every exported function is a short sequence of
    guards followed by at most a few calls through those function pointers.

    The embedding threads one [State] record through a small state monad.
    The CH347 driver is external: each of its entry points is a function
    over an abstract driver state [D], reached only through the function
    pointers stored in the binding.  Every call through a function pointer
    is also appended to a ghost [trace], so that statements of the form
    "exactly one call" or "no call" can be written down. *)

From Stdlib Require Import DecimalString.
From stdpp Require Import base numbers list strings.

Local Open Scope N_scope.

(** ** Machine types *)

(** [ULONG] and [UCHAR] are unsigned; they are modelled in [N] with the
    narrowing conversions written out where the C code performs them. *)
Definition ULONG := N.
Definition UCHAR := N.
Definition LONG := Z.
Definition BOOL := bool.

Definition to_uchar (v : N) : UCHAR := N.land v 0xFF.
Definition to_ulong (v : N) : ULONG := v mod 2 ^ 32.

(** A [HANDLE] is pointer sized; [INVALID_HANDLE_VALUE] is [(HANDLE)-1]. *)
Definition HANDLE := Z.
Definition NULL : HANDLE := 0%Z.
Definition INVALID_HANDLE_VALUE : HANDLE := (-1)%Z.

(** Caller-supplied callbacks are code addresses; address 0 is the null
    function pointer. *)
Definition mPCH341_INT_ROUTINE := N.
Definition mPCH341_NOTIFY_ROUTINE := N.

(** An input buffer pointer is [None] when null and otherwise carries the
    bytes it points to.  An output buffer pointer is only tested for null by
    this layer, so it is a flag; what the driver stores through it is part of
    the driver function's result.  A [PULONG] in/out length is [None] when
    null and otherwise carries the value it points to. *)
Definition PVOID_in := option (list UCHAR).
Definition PVOID_out := bool.
Definition PULONG := option ULONG.
Definition PCHAR := option string.

Definition mCH341_MAX_NUMBER : N := 16.
Definition IC_VER_CH341A : ULONG := 0x20.
Definition IC_VER_CH341A3 : ULONG := 0x30.

Inductive EEPROM_TYPE :=
| ID_24C01 | ID_24C02 | ID_24C04 | ID_24C08 | ID_24C16 | ID_24C32 | ID_24C64
| ID_24C128 | ID_24C256 | ID_24C512 | ID_24C1024 | ID_24C2048 | ID_24C4096.

(** The packed SPI configuration structure local to [InitSPIForCH341]. *)
Record SpiCfgS := {
  iMode : UCHAR;
  iClock : UCHAR;
  iByteOrder : UCHAR;
  iSpiWriteReadInterval : N;
  iSpiOutDefaultData : UCHAR;
  iChipSelect : ULONG;
  CS1Polarity : UCHAR;
  CS2Polarity : UCHAR;
  iIsAutoDeativeCS : N;
  iActiveDelay : N;
  iDelayDeactive : ULONG
}.

(** ** Calls into the CH347 driver (ghost trace events) *)

Inductive Call :=
| CH347OpenDevice (DevI : ULONG)
| CH347CloseDevice (iIndex : ULONG)
| CH347GetVersion (iIndex : ULONG)
| CH347GetChipType (iIndex : ULONG)
| CH347SetTimeout (iIndex iWriteTimeout iReadTimeout : ULONG)
| CH347SetDeviceNotify (iIndex : ULONG) (iDeviceID : PCHAR) (wrapper : bool)
| CH347ReadData (iIndex : ULONG) (oBuffer : PVOID_out) (ioLength : PULONG)
| CH347WriteData (iIndex : ULONG) (iBuffer : PVOID_in) (ioLength : PULONG)
| CH347I2C_Set (iIndex iMode : ULONG)
| CH347I2C_SetDelaymS (iIndex iDelay : ULONG)
| CH347StreamI2C (iIndex iWriteLength : ULONG) (iWriteBuffer : PVOID_in)
                 (iReadLength : ULONG) (oReadBuffer : PVOID_out)
| CH347ReadEEPROM (iIndex : ULONG) (iEepromID : EEPROM_TYPE)
                  (iAddr iLength : ULONG) (oBuffer : PVOID_out)
| CH347WriteEEPROM (iIndex : ULONG) (iEepromID : EEPROM_TYPE)
                   (iAddr iLength : ULONG) (iBuffer : PVOID_in)
| CH347SPI_Init (iIndex : ULONG) (SpiCfg : SpiCfgS)
| CH347SPI_WriteRead (iIndex iChipSelect iLength : ULONG) (ioBuffer : PVOID_in)
| CH347StreamSPI4 (iIndex iChipSelect iLength : ULONG) (ioBuffer : PVOID_in)
| CH347GPIO_Get (iIndex : ULONG)
| CH347GPIO_Set (iIndex : ULONG) (iEnable iSetDirOut iSetDataOut : UCHAR)
| CH347SetIntRoutine (iIndex : ULONG)
                     (Int0PinN Int0TripMode Int1PinN Int1TripMode : UCHAR)
                     (wrapper : bool)
| CH347ReadInter (iIndex : ULONG)
| CH347AbortInter (iIndex : ULONG).

Definition is_SPI_Init (c : Call) : bool :=
  match c with CH347SPI_Init _ _ => true | _ => false end.

Definition is_SPI_data (c : Call) : bool :=
  match c with
  | CH347StreamSPI4 _ _ _ _ | CH347SPI_WriteRead _ _ _ _ => true
  | _ => false
  end.

Section Shim.

(** The driver's own state; nothing in this layer inspects it. *)
Context {D : Type}.

(** ** CH347 DLL function pointer types *)

Definition pCH347OpenDevice := ULONG -> D -> HANDLE * D.
Definition pCH347CloseDevice := ULONG -> D -> BOOL * D.
Definition pCH347GetVersion :=
  ULONG -> D -> (BOOL * (UCHAR * UCHAR * UCHAR * UCHAR)) * D.
Definition pCH347GetChipType := ULONG -> D -> UCHAR * D.
Definition pCH347SetTimeout := ULONG -> ULONG -> ULONG -> D -> BOOL * D.
Definition pCH347GetDeviceInfor := ULONG -> D -> BOOL * D.
Definition pCH347SetDeviceNotify := ULONG -> PCHAR -> bool -> D -> BOOL * D.
Definition pCH347ReadData :=
  ULONG -> PVOID_out -> PULONG -> D -> (BOOL * list UCHAR * ULONG) * D.
Definition pCH347WriteData :=
  ULONG -> PVOID_in -> PULONG -> D -> (BOOL * ULONG) * D.
Definition pCH347I2C_Set := ULONG -> ULONG -> D -> BOOL * D.
Definition pCH347I2C_SetDelaymS := ULONG -> ULONG -> D -> BOOL * D.
Definition pCH347StreamI2C :=
  ULONG -> ULONG -> PVOID_in -> ULONG -> PVOID_out -> D ->
  (BOOL * list UCHAR) * D.
Definition pCH347ReadEEPROM :=
  ULONG -> EEPROM_TYPE -> ULONG -> ULONG -> PVOID_out -> D ->
  (BOOL * list UCHAR) * D.
Definition pCH347WriteEEPROM :=
  ULONG -> EEPROM_TYPE -> ULONG -> ULONG -> PVOID_in -> D -> BOOL * D.
Definition pCH347SPI_Init := ULONG -> SpiCfgS -> D -> BOOL * D.
Definition pCH347SPI_SetFrequency := ULONG -> ULONG -> D -> BOOL * D.
Definition pCH347SPI_GetCfg := ULONG -> D -> BOOL * D.
Definition pCH347SPI_WriteRead :=
  ULONG -> ULONG -> ULONG -> PVOID_in -> D -> (BOOL * list UCHAR) * D.
Definition pCH347StreamSPI4 :=
  ULONG -> ULONG -> ULONG -> PVOID_in -> D -> (BOOL * list UCHAR) * D.
Definition pCH347GPIO_Get := ULONG -> D -> (BOOL * UCHAR * UCHAR) * D.
Definition pCH347GPIO_Set := ULONG -> UCHAR -> UCHAR -> UCHAR -> D -> BOOL * D.
Definition pCH347SetIntRoutine :=
  ULONG -> UCHAR -> UCHAR -> UCHAR -> UCHAR -> bool -> D -> BOOL * D.
Definition pCH347ReadInter := ULONG -> D -> (BOOL * list UCHAR) * D.
Definition pCH347AbortInter := ULONG -> D -> BOOL * D.

(** ** Global state *)

(** The function pointer globals; [None] is the null pointer. *)
Record Binding := {
  fp_CH347OpenDevice : option pCH347OpenDevice;
  fp_CH347CloseDevice : option pCH347CloseDevice;
  fp_CH347GetVersion : option pCH347GetVersion;
  fp_CH347GetChipType : option pCH347GetChipType;
  fp_CH347SetTimeout : option pCH347SetTimeout;
  fp_CH347GetDeviceInfor : option pCH347GetDeviceInfor;
  fp_CH347SetDeviceNotify : option pCH347SetDeviceNotify;
  fp_CH347ReadData : option pCH347ReadData;
  fp_CH347WriteData : option pCH347WriteData;
  fp_CH347I2C_Set : option pCH347I2C_Set;
  fp_CH347I2C_SetDelaymS : option pCH347I2C_SetDelaymS;
  fp_CH347StreamI2C : option pCH347StreamI2C;
  fp_CH347ReadEEPROM : option pCH347ReadEEPROM;
  fp_CH347WriteEEPROM : option pCH347WriteEEPROM;
  fp_CH347SPI_Init : option pCH347SPI_Init;
  fp_CH347SPI_SetFrequency : option pCH347SPI_SetFrequency;
  fp_CH347SPI_GetCfg : option pCH347SPI_GetCfg;
  fp_CH347SPI_WriteRead : option pCH347SPI_WriteRead;
  fp_CH347StreamSPI4 : option pCH347StreamSPI4;
  fp_CH347GPIO_Get : option pCH347GPIO_Get;
  fp_CH347GPIO_Set : option pCH347GPIO_Set;
  fp_CH347SetIntRoutine : option pCH347SetIntRoutine;
  fp_CH347ReadInter : option pCH347ReadInter;
  fp_CH347AbortInter : option pCH347AbortInter
}.

Definition no_binding : Binding :=
  Build_Binding None None None None None None None None None None None None
                None None None None None None None None None None None None.

(** A loaded module is identified with its export table: [GetProcAddress]
    on it is the projection of the symbol asked for. *)
Definition HMODULE := Binding.

(** The per-device arrays, each of [mCH341_MAX_NUMBER] elements. *)
Record DeviceTable := {
  g_DeviceHandles : list HANDLE;
  g_DeviceNames : list string;
  g_StreamMode : list ULONG;
  g_SPIInitialized : list BOOL;
  g_IntRoutines : list mPCH341_INT_ROUTINE;
  g_BufUploadEnabled : list BOOL;
  g_BufDownloadEnabled : list BOOL;
  g_NotifyRoutines : list mPCH341_NOTIFY_ROUTINE
}.

Record State := {
  g_hCH347DLL : option HMODULE;
  g_bInitialized : BOOL;
  fp : Binding;
  tab : DeviceTable;
  drv : D;
  trace : list Call
}.

Definition set_hCH347DLL (h : option HMODULE) (s : State) : State :=
  {| g_hCH347DLL := h; g_bInitialized := g_bInitialized s; fp := fp s;
     tab := tab s; drv := drv s; trace := trace s |}.
Definition set_bInitialized (b : BOOL) (s : State) : State :=
  {| g_hCH347DLL := g_hCH347DLL s; g_bInitialized := b; fp := fp s;
     tab := tab s; drv := drv s; trace := trace s |}.
Definition set_fp (b : Binding) (s : State) : State :=
  {| g_hCH347DLL := g_hCH347DLL s; g_bInitialized := g_bInitialized s; fp := b;
     tab := tab s; drv := drv s; trace := trace s |}.
Definition set_tab (t : DeviceTable) (s : State) : State :=
  {| g_hCH347DLL := g_hCH347DLL s; g_bInitialized := g_bInitialized s;
     fp := fp s; tab := t; drv := drv s; trace := trace s |}.
Definition set_drv_log (d : D) (c : Call) (s : State) : State :=
  {| g_hCH347DLL := g_hCH347DLL s; g_bInitialized := g_bInitialized s;
     fp := fp s; tab := tab s; drv := d; trace := trace s ++ [c] |}.

Definition set_DeviceHandles (f : list HANDLE -> list HANDLE) (t : DeviceTable) :=
  {| g_DeviceHandles := f (g_DeviceHandles t); g_DeviceNames := g_DeviceNames t;
     g_StreamMode := g_StreamMode t; g_SPIInitialized := g_SPIInitialized t;
     g_IntRoutines := g_IntRoutines t;
     g_BufUploadEnabled := g_BufUploadEnabled t;
     g_BufDownloadEnabled := g_BufDownloadEnabled t;
     g_NotifyRoutines := g_NotifyRoutines t |}.
Definition set_DeviceNames (f : list string -> list string) (t : DeviceTable) :=
  {| g_DeviceHandles := g_DeviceHandles t; g_DeviceNames := f (g_DeviceNames t);
     g_StreamMode := g_StreamMode t; g_SPIInitialized := g_SPIInitialized t;
     g_IntRoutines := g_IntRoutines t;
     g_BufUploadEnabled := g_BufUploadEnabled t;
     g_BufDownloadEnabled := g_BufDownloadEnabled t;
     g_NotifyRoutines := g_NotifyRoutines t |}.
Definition set_StreamMode (f : list ULONG -> list ULONG) (t : DeviceTable) :=
  {| g_DeviceHandles := g_DeviceHandles t; g_DeviceNames := g_DeviceNames t;
     g_StreamMode := f (g_StreamMode t); g_SPIInitialized := g_SPIInitialized t;
     g_IntRoutines := g_IntRoutines t;
     g_BufUploadEnabled := g_BufUploadEnabled t;
     g_BufDownloadEnabled := g_BufDownloadEnabled t;
     g_NotifyRoutines := g_NotifyRoutines t |}.
Definition set_SPIInitialized (f : list BOOL -> list BOOL) (t : DeviceTable) :=
  {| g_DeviceHandles := g_DeviceHandles t; g_DeviceNames := g_DeviceNames t;
     g_StreamMode := g_StreamMode t; g_SPIInitialized := f (g_SPIInitialized t);
     g_IntRoutines := g_IntRoutines t;
     g_BufUploadEnabled := g_BufUploadEnabled t;
     g_BufDownloadEnabled := g_BufDownloadEnabled t;
     g_NotifyRoutines := g_NotifyRoutines t |}.
Definition set_IntRoutines (f : list N -> list N) (t : DeviceTable) :=
  {| g_DeviceHandles := g_DeviceHandles t; g_DeviceNames := g_DeviceNames t;
     g_StreamMode := g_StreamMode t; g_SPIInitialized := g_SPIInitialized t;
     g_IntRoutines := f (g_IntRoutines t);
     g_BufUploadEnabled := g_BufUploadEnabled t;
     g_BufDownloadEnabled := g_BufDownloadEnabled t;
     g_NotifyRoutines := g_NotifyRoutines t |}.
Definition set_BufUploadEnabled (f : list BOOL -> list BOOL) (t : DeviceTable) :=
  {| g_DeviceHandles := g_DeviceHandles t; g_DeviceNames := g_DeviceNames t;
     g_StreamMode := g_StreamMode t; g_SPIInitialized := g_SPIInitialized t;
     g_IntRoutines := g_IntRoutines t;
     g_BufUploadEnabled := f (g_BufUploadEnabled t);
     g_BufDownloadEnabled := g_BufDownloadEnabled t;
     g_NotifyRoutines := g_NotifyRoutines t |}.
Definition set_BufDownloadEnabled (f : list BOOL -> list BOOL) (t : DeviceTable) :=
  {| g_DeviceHandles := g_DeviceHandles t; g_DeviceNames := g_DeviceNames t;
     g_StreamMode := g_StreamMode t; g_SPIInitialized := g_SPIInitialized t;
     g_IntRoutines := g_IntRoutines t;
     g_BufUploadEnabled := g_BufUploadEnabled t;
     g_BufDownloadEnabled := f (g_BufDownloadEnabled t);
     g_NotifyRoutines := g_NotifyRoutines t |}.
Definition set_NotifyRoutines (f : list N -> list N) (t : DeviceTable) :=
  {| g_DeviceHandles := g_DeviceHandles t; g_DeviceNames := g_DeviceNames t;
     g_StreamMode := g_StreamMode t; g_SPIInitialized := g_SPIInitialized t;
     g_IntRoutines := g_IntRoutines t;
     g_BufUploadEnabled := g_BufUploadEnabled t;
     g_BufDownloadEnabled := g_BufDownloadEnabled t;
     g_NotifyRoutines := f (g_NotifyRoutines t) |}.

(** Static initialisation: every array element zero, every pointer null. *)
Definition initial_table : DeviceTable :=
  let n := N.to_nat mCH341_MAX_NUMBER in
  {| g_DeviceHandles := replicate n NULL;
     g_DeviceNames := replicate n EmptyString;
     g_StreamMode := replicate n 0;
     g_SPIInitialized := replicate n false;
     g_IntRoutines := replicate n 0;
     g_BufUploadEnabled := replicate n false;
     g_BufDownloadEnabled := replicate n false;
     g_NotifyRoutines := replicate n 0 |}.

Definition initial_state (d : D) : State :=
  {| g_hCH347DLL := None; g_bInitialized := false; fp := no_binding;
     tab := initial_table; drv := d; trace := [] |}.

(** ** The state monad of the exported functions *)

Definition M (A : Type) : Type := State -> A * State.

Definition ret {A} (a : A) : M A := fun s => (a, s).
Definition bind {A B} (c : M A) (k : A -> M B) : M B :=
  fun s => let '(a, s1) := c s in k a s1.
Definition gets {A} (f : State -> A) : M A := fun s => (f s, s).
Definition modify (f : State -> State) : M unit := fun s => (tt, f s).
Definition modify_tab (f : DeviceTable -> DeviceTable) : M unit :=
  modify (fun s => set_tab (f (tab s)) s).

Definition when (b : bool) (c : M unit) : M unit := if b then c else ret tt.

(** A call through a function pointer: run the driver and log the call. *)
Definition invoke {A} (c : Call) (f : D -> A * D) : M A :=
  fun s => let '(a, d) := f (drv s) in (a, set_drv_log d c s).

Notation "'let*' x := c 'in' k" := (bind c (fun x => k))
  (at level 10, x name, c at level 100, k at level 200, only parsing).

(** Array element access for an index already checked against
    [mCH341_MAX_NUMBER]. *)
Definition at_index {A} (l : list A) (i : ULONG) (dflt : A) : A :=
  default dflt (l !! N.to_nat i).

(** ** Internal functions *)

(** The operating system loader: which module, if any, a file name loads. *)
Variable LoadLibraryA : string -> option HMODULE.

Definition LoadCH347DLL : M BOOL :=
  let* ini := gets g_bInitialized in
  if ini then ret true else
  let* _ := modify (set_hCH347DLL (LoadLibraryA "CH347DLL.DLL")) in
  let* h := gets g_hCH347DLL in
  let* _ := when (negb (bool_decide (is_Some h)))
              (modify (set_hCH347DLL (LoadLibraryA "CH347DLLA64.DLL"))) in
  let* h := gets g_hCH347DLL in
  match h with
  | None => ret false
  | Some lib =>
      let* _ := modify (set_fp lib) in
      let* fps := gets fp in
      if negb (bool_decide (is_Some (fp_CH347OpenDevice fps)))
         || negb (bool_decide (is_Some (fp_CH347CloseDevice fps)))
      then let* _ := modify (set_hCH347DLL None) in ret false
      else let* _ := modify (set_bInitialized true) in ret true
  end.

(** The configuration [InitSPIForCH341] fills in: mode 0, clock code 1,
    MSB first, idle output 0xFF, both chip selects active low, automatic
    chip-select deactivation, no delays. *)
Definition CH341_SpiCfg (iChipSelect : ULONG) : SpiCfgS :=
  {| iMode := 0; iClock := 1; iByteOrder := 1;
     iSpiWriteReadInterval := 0; iSpiOutDefaultData := 0xFF;
     iChipSelect := iChipSelect;
     CS1Polarity := 0; CS2Polarity := 0;
     iIsAutoDeativeCS := 1; iActiveDelay := 0;
     iDelayDeactive := 0 |}.

Definition InitSPIForCH341 (iIndex iChipSelect : ULONG) : M BOOL :=
  let* fps := gets fp in
  match fp_CH347SPI_Init fps with
  | None => ret false
  | Some f =>
      let cfg := CH341_SpiCfg iChipSelect in
      invoke (CH347SPI_Init iIndex cfg) (f iIndex cfg)
  end.

(** ** Device management functions *)

Definition device_name (iIndex : ULONG) : string :=
  "CH347_" +:+ NilEmpty.string_of_uint (N.to_uint iIndex).

Definition CH341OpenDevice (iIndex : ULONG) : M HANDLE :=
  let* ok := LoadCH347DLL in
  if negb ok then ret INVALID_HANDLE_VALUE else
  if mCH341_MAX_NUMBER <=? iIndex then ret INVALID_HANDLE_VALUE else
  let* fps := gets fp in
  match fp_CH347OpenDevice fps with
  | None => ret INVALID_HANDLE_VALUE
  | Some f =>
      let* h := invoke (CH347OpenDevice iIndex) (f iIndex) in
      let* _ := when (negb (h =? INVALID_HANDLE_VALUE)%Z && negb (h =? NULL)%Z)
          (let* _ := modify_tab (set_DeviceHandles <[N.to_nat iIndex := h]>) in
           modify_tab
             (set_DeviceNames <[N.to_nat iIndex := device_name iIndex]>)) in
      ret h
  end.

Definition CH341CloseDevice (iIndex : ULONG) : M unit :=
  if mCH341_MAX_NUMBER <=? iIndex then ret tt else
  let* fps := gets fp in
  match fp_CH347CloseDevice fps with
  | None => ret tt
  | Some f =>
      let* _ := invoke (CH347CloseDevice iIndex) (f iIndex) in
      let* _ := modify_tab (set_DeviceHandles <[N.to_nat iIndex := NULL]>) in
      modify_tab (set_SPIInitialized <[N.to_nat iIndex := false]>)
  end.

Definition CH341GetVersion : M ULONG := ret 0x0210.

Definition CH341GetDrvVersion : M ULONG :=
  let* ok := LoadCH347DLL in
  if negb ok then ret 0 else
  let* fps := gets fp in
  match fp_CH347GetVersion fps with
  | None => ret 0
  | Some f =>
      let* r := invoke (CH347GetVersion 0) (f 0) in
      let '(ok, (driverVer, dllVer, bcdDevice, chipType)) := r in
      if ok then ret (to_uchar driverVer) else ret 0x0350
  end.

Definition CH341ResetDevice (iIndex : ULONG) : M BOOL :=
  if mCH341_MAX_NUMBER <=? iIndex then ret false else
  let* _ := CH341CloseDevice iIndex in
  let* h := CH341OpenDevice iIndex in
  ret (negb (h =? INVALID_HANDLE_VALUE)%Z).

(** The two descriptor queries store a fixed byte sequence and its length
    through the caller's pointers; the stored pair is the second component
    of the result, [None] when nothing is stored. *)
Definition device_descr : list UCHAR :=
  [18; 0x01; 0x00; 0x02; 0xFF; 0x00; 0x00; 0x40; 0x86; 0x1A; 0x55; 0x55;
   0x00; 0x03; 0x01; 0x02; 0x00; 0x01].

Definition config_descr : list UCHAR :=
  [9; 0x02; 32; 0; 0x01; 0x01; 0x00; 0x80; 250].

Definition CH341GetDeviceDescr (iIndex : ULONG) (oBuffer : PVOID_out)
    (ioLength : PULONG) : M (BOOL * option (list UCHAR * ULONG)) :=
  match oBuffer, ioLength with
  | true, Some len =>
      if len <? 18 then ret (false, None)
      else ret (true, Some (device_descr, 18))
  | _, _ => ret (false, None)
  end.

Definition CH341GetConfigDescr (iIndex : ULONG) (oBuffer : PVOID_out)
    (ioLength : PULONG) : M (BOOL * option (list UCHAR * ULONG)) :=
  match oBuffer, ioLength with
  | true, Some len =>
      if len <? 9 then ret (false, None)
      else ret (true, Some (config_descr, 9))
  | _, _ => ret (false, None)
  end.

(** The result is the address of the name array element, [None] for null. *)
Definition CH341GetDeviceName (iIndex : ULONG) : M (option string) :=
  if mCH341_MAX_NUMBER <=? iIndex then ret None else
  let* t := gets tab in
  if (at_index (g_DeviceHandles t) iIndex NULL =? NULL)%Z then ret None
  else ret (Some (at_index (g_DeviceNames t) iIndex EmptyString)).

Definition CH341GetVerIC (iIndex : ULONG) : M ULONG :=
  let* ok := LoadCH347DLL in
  if negb ok then ret 0 else
  let* fps := gets fp in
  match fp_CH347GetChipType fps with
  | None => ret IC_VER_CH341A
  | Some f =>
      let* c := invoke (CH347GetChipType iIndex) (f iIndex) in
      let chipType := to_uchar c in
      match chipType with
      | 0 => ret IC_VER_CH341A
      | 1 => ret IC_VER_CH341A3
      | 2 => ret IC_VER_CH341A3
      | 3 => ret IC_VER_CH341A3
      | _ => ret IC_VER_CH341A
      end
  end.

Definition CH341SetExclusive (iIndex iExclusive : ULONG) : M BOOL := ret true.

Definition CH341SetTimeout (iIndex iWriteTimeout iReadTimeout : ULONG)
    : M BOOL :=
  let* ok := LoadCH347DLL in
  if negb ok then ret false else
  let* fps := gets fp in
  match fp_CH347SetTimeout fps with
  | None => ret false
  | Some f =>
      invoke (CH347SetTimeout iIndex iWriteTimeout iReadTimeout)
             (f iIndex iWriteTimeout iReadTimeout)
  end.

Definition CH341FlushBuffer (iIndex : ULONG) : M BOOL :=
  let* ok := LoadCH347DLL in
  if negb ok then ret false else
  let* fps := gets fp in
  match fp_CH347ReadData fps with
  | None => ret true
  | Some f =>
      let len : ULONG := 512 in
      let* _ := invoke (CH347ReadData iIndex true (Some len))
                       (f iIndex true (Some len)) in
      ret true
  end.

Definition CH341DriverCommand (iIndex : ULONG) (ioCommand : PVOID_in)
    : M ULONG := ret 0.

(** ** I2C functions *)

Definition CH341SetStream (iIndex iMode : ULONG) : M BOOL :=
  let* ok := LoadCH347DLL in
  if negb ok then ret false else
  if mCH341_MAX_NUMBER <=? iIndex then ret false else
  let* _ := modify_tab (set_StreamMode <[N.to_nat iIndex := iMode]>) in
  let i2cSpeed := N.land iMode 0x03 in
  let* fps := gets fp in
  match fp_CH347I2C_Set fps with
  | Some f => invoke (CH347I2C_Set iIndex i2cSpeed) (f iIndex i2cSpeed)
  | None => ret true
  end.

Definition CH341SetDelaymS (iIndex iDelay : ULONG) : M BOOL :=
  let* ok := LoadCH347DLL in
  if negb ok then ret false else
  let* fps := gets fp in
  match fp_CH347I2C_SetDelaymS fps with
  | None => ret false
  | Some f => invoke (CH347I2C_SetDelaymS iIndex iDelay) (f iIndex iDelay)
  end.

(** For the transfer functions the second component of the result is what
    the driver stored through the output pointer, empty when the driver was
    not called. *)
Definition CH341StreamI2C (iIndex iWriteLength : ULONG)
    (iWriteBuffer : PVOID_in) (iReadLength : ULONG) (oReadBuffer : PVOID_out)
    : M (BOOL * list UCHAR) :=
  let* ok := LoadCH347DLL in
  if negb ok then ret (false, []) else
  let* fps := gets fp in
  match fp_CH347StreamI2C fps with
  | None => ret (false, [])
  | Some f =>
      invoke
        (CH347StreamI2C iIndex iWriteLength iWriteBuffer iReadLength oReadBuffer)
        (f iIndex iWriteLength iWriteBuffer iReadLength oReadBuffer)
  end.

Definition CH341ReadI2C (iIndex : ULONG) (iDevice iAddr : UCHAR)
    (oByte : PVOID_out) : M (BOOL * list UCHAR) :=
  let* ok := LoadCH347DLL in
  if negb ok then ret (false, []) else
  let* fps := gets fp in
  match fp_CH347StreamI2C fps with
  | None => ret (false, [])
  | Some f =>
      if negb oByte then ret (false, []) else
      let writeBuf := [to_uchar (N.shiftl iDevice 1); iAddr] in
      invoke (CH347StreamI2C iIndex 2 (Some writeBuf) 1 oByte)
             (f iIndex 2 (Some writeBuf) 1 oByte)
  end.

Definition CH341WriteI2C (iIndex : ULONG) (iDevice iAddr iByte : UCHAR)
    : M BOOL :=
  let* ok := LoadCH347DLL in
  if negb ok then ret false else
  let* fps := gets fp in
  match fp_CH347StreamI2C fps with
  | None => ret false
  | Some f =>
      let writeBuf := [to_uchar (N.shiftl iDevice 1); iAddr; iByte] in
      let* r := invoke (CH347StreamI2C iIndex 3 (Some writeBuf) 0 false)
                       (f iIndex 3 (Some writeBuf) 0 false) in
      ret (fst r)
  end.

(** ** EEPROM functions *)

Definition CH341ReadEEPROM (iIndex : ULONG) (iEepromID : EEPROM_TYPE)
    (iAddr iLength : ULONG) (oBuffer : PVOID_out) : M (BOOL * list UCHAR) :=
  let* ok := LoadCH347DLL in
  if negb ok then ret (false, []) else
  let* fps := gets fp in
  match fp_CH347ReadEEPROM fps with
  | None => ret (false, [])
  | Some f =>
      invoke (CH347ReadEEPROM iIndex iEepromID iAddr iLength oBuffer)
             (f iIndex iEepromID iAddr iLength oBuffer)
  end.

Definition CH341WriteEEPROM (iIndex : ULONG) (iEepromID : EEPROM_TYPE)
    (iAddr iLength : ULONG) (iBuffer : PVOID_in) : M BOOL :=
  let* ok := LoadCH347DLL in
  if negb ok then ret false else
  let* fps := gets fp in
  match fp_CH347WriteEEPROM fps with
  | None => ret false
  | Some f =>
      invoke (CH347WriteEEPROM iIndex iEepromID iAddr iLength iBuffer)
             (f iIndex iEepromID iAddr iLength iBuffer)
  end.

(** ** SPI functions *)

Definition CH341StreamSPI4 (iIndex iChipSelect iLength : ULONG)
    (ioBuffer : PVOID_in) : M (BOOL * list UCHAR) :=
  let* ok := LoadCH347DLL in
  if negb ok then ret (false, []) else
  if mCH341_MAX_NUMBER <=? iIndex then ret (false, []) else
  let* t := gets tab in
  let* inited :=
    (if negb (at_index (g_SPIInitialized t) iIndex false) then
       let* ok := InitSPIForCH341 iIndex iChipSelect in
       if negb ok then ret false else
       let* _ := modify_tab
                   (set_SPIInitialized <[N.to_nat iIndex := true]>) in
       ret true
     else ret true) in
  if negb inited then ret (false, []) else
  let* fps := gets fp in
  match fp_CH347StreamSPI4 fps, fp_CH347SPI_WriteRead fps with
  | Some f, _ =>
      invoke (CH347StreamSPI4 iIndex iChipSelect iLength ioBuffer)
             (f iIndex iChipSelect iLength ioBuffer)
  | None, Some f =>
      invoke (CH347SPI_WriteRead iIndex iChipSelect iLength ioBuffer)
             (f iIndex iChipSelect iLength ioBuffer)
  | None, None => ret (false, [])
  end.

Definition CH341StreamSPI5 (iIndex iChipSelect iLength : ULONG)
    (ioBuffer ioBuffer2 : PVOID_in) : M (BOOL * list UCHAR) :=
  CH341StreamSPI4 iIndex iChipSelect iLength ioBuffer.

Definition CH341BitStreamSPI (iIndex iLength : ULONG) (ioBuffer : PVOID_in)
    : M BOOL := ret false.

Definition CH341StreamSPI3 (iIndex iChipSelect iLength : ULONG)
    (ioBuffer : PVOID_in) : M (BOOL * list UCHAR) :=
  CH341StreamSPI4 iIndex iChipSelect iLength ioBuffer.

(** ** GPIO functions *)

(** The second component is the value stored in [*iStatus], if any. *)
Definition CH341GetInput (iIndex : ULONG) (iStatus : PVOID_out)
    : M (BOOL * option ULONG) :=
  let* ok := LoadCH347DLL in
  if negb ok then ret (false, None) else
  let* fps := gets fp in
  match fp_CH347GPIO_Get fps with
  | None => ret (false, None)
  | Some f =>
      if negb iStatus then ret (false, None) else
      let* r := invoke (CH347GPIO_Get iIndex) (f iIndex) in
      let '(ok, dir, data) := r in
      let data : UCHAR := to_uchar data in
      if negb ok then ret (false, None)
      else ret (true, Some data)
  end.

Definition CH341GetStatus (iIndex : ULONG) (iStatus : PVOID_out)
    : M (BOOL * option ULONG) :=
  CH341GetInput iIndex iStatus.

Definition CH341SetOutput (iIndex iEnable iSetDirOut iSetDataOut : ULONG)
    : M BOOL :=
  let* ok := LoadCH347DLL in
  if negb ok then ret false else
  let* fps := gets fp in
  match fp_CH347GPIO_Set fps with
  | None => ret false
  | Some f =>
      let enable : UCHAR := 0xFF in
      let dataOut : UCHAR :=
        if negb (N.land iEnable 0x04 =? 0)
        then to_uchar (N.land iSetDataOut 0xFF) else 0 in
      let dirOut : UCHAR :=
        if negb (N.land iEnable 0x08 =? 0)
        then to_uchar (N.land iSetDirOut 0xFF) else 0 in
      invoke (CH347GPIO_Set iIndex enable dirOut dataOut)
             (f iIndex enable dirOut dataOut)
  end.

Definition CH341Set_D5_D0 (iIndex iSetDirOut iSetDataOut : ULONG) : M BOOL :=
  let* ok := LoadCH347DLL in
  if negb ok then ret false else
  let* fps := gets fp in
  match fp_CH347GPIO_Set fps with
  | None => ret false
  | Some f =>
      let enable : UCHAR := 0x3F in
      let dirOut : UCHAR := to_uchar (N.land iSetDirOut 0x3F) in
      let dataOut : UCHAR := to_uchar (N.land iSetDataOut 0x3F) in
      invoke (CH347GPIO_Set iIndex enable dirOut dataOut)
             (f iIndex enable dirOut dataOut)
  end.

(** ** Data transfer functions *)

(** The result carries what the driver stored: the bytes written to
    [oBuffer] and the new value of [*ioLength]. *)
Definition CH341ReadData (iIndex : ULONG) (oBuffer : PVOID_out)
    (ioLength : PULONG) : M (BOOL * option (list UCHAR * ULONG)) :=
  let* ok := LoadCH347DLL in
  if negb ok then ret (false, None) else
  let* fps := gets fp in
  match fp_CH347ReadData fps with
  | None => ret (false, None)
  | Some f =>
      let* r := invoke (CH347ReadData iIndex oBuffer ioLength)
                       (f iIndex oBuffer ioLength) in
      let '(ok, data, len) := r in
      ret (ok, Some (data, to_ulong len))
  end.

Definition CH341WriteData (iIndex : ULONG) (iBuffer : PVOID_in)
    (ioLength : PULONG) : M (BOOL * option ULONG) :=
  let* ok := LoadCH347DLL in
  if negb ok then ret (false, None) else
  let* fps := gets fp in
  match fp_CH347WriteData fps with
  | None => ret (false, None)
  | Some f =>
      let* r := invoke (CH347WriteData iIndex iBuffer ioLength)
                       (f iIndex iBuffer ioLength) in
      let '(ok, len) := r in
      ret (ok, Some (to_ulong len))
  end.

Definition CH341ReadData0 := CH341ReadData.
Definition CH341ReadData1 := CH341ReadData.
Definition CH341WriteData0 := CH341WriteData.
Definition CH341WriteData1 := CH341WriteData.

(** The read loop of [CH341WriteRead], by recursion on the iterations left.
    [pBuf] is the offset of the write cursor into the caller's buffer and
    [mem] records, for every read issued, the offset it was given and the
    bytes the driver stored there.  A failing read ends the loop. *)
Fixpoint read_loop (f : pCH347ReadData) (iIndex iReadStep : ULONG)
    (times : nat) (pBuf : N) (totalRead : ULONG) (mem : list (N * list UCHAR))
    : M (ULONG * list (N * list UCHAR)) :=
  match times with
  | O => ret (totalRead, mem)
  | S times' =>
      let* r := invoke (CH347ReadData iIndex true (Some iReadStep))
                       (f iIndex true (Some iReadStep)) in
      let '(ok, data, len) := r in
      let readLen := to_ulong len in
      let mem := mem ++ [(pBuf, data)] in
      if negb ok then ret (totalRead, mem)
      else read_loop f iIndex iReadStep times' (pBuf + readLen)
                     (to_ulong (totalRead + readLen)) mem
  end.

(** The result is the return value, the value stored in [*oReadLength] (if
    any) and the stores made into [oReadBuffer]. *)
Definition CH341WriteRead (iIndex iWriteLength : ULONG)
    (iWriteBuffer : PVOID_in) (iReadStep iReadTimes : ULONG)
    (oReadLength oReadBuffer : PVOID_out)
    : M (BOOL * option ULONG * list (N * list UCHAR)) :=
  let* ok := LoadCH347DLL in
  if negb ok then ret (false, None, []) else
  let* fps := gets fp in
  match fp_CH347WriteData fps, fp_CH347ReadData fps with
  | Some fw, Some fr =>
      let* wrote :=
        (if 0 <? iWriteLength then
           let* r := invoke
                       (CH347WriteData iIndex iWriteBuffer (Some iWriteLength))
                       (fw iIndex iWriteBuffer (Some iWriteLength)) in
           ret (fst r)
         else ret true) in
      if negb wrote then ret (false, None, []) else
      if oReadLength && oReadBuffer && (0 <? iReadStep) && (0 <? iReadTimes)
      then
        let* r := read_loop fr iIndex iReadStep (N.to_nat iReadTimes) 0 0 [] in
        ret (true, Some (fst r), snd r)
      else ret (true, None, [])
  | _, _ => ret (false, None, [])
  end.

(** ** Parallel port functions (not supported by the CH347) *)

Definition CH341SetParaMode (iIndex iMode : ULONG) : M BOOL := ret false.
Definition CH341InitParallel (iIndex iMode : ULONG) : M BOOL := ret false.
Definition CH341EppReadData (iIndex : ULONG) (oBuffer : PVOID_out)
    (ioLength : PULONG) : M BOOL := ret false.
Definition CH341EppReadAddr (iIndex : ULONG) (oBuffer : PVOID_out)
    (ioLength : PULONG) : M BOOL := ret false.
Definition CH341EppWriteData (iIndex : ULONG) (iBuffer : PVOID_in)
    (ioLength : PULONG) : M BOOL := ret false.
Definition CH341EppWriteAddr (iIndex : ULONG) (iBuffer : PVOID_in)
    (ioLength : PULONG) : M BOOL := ret false.
Definition CH341EppSetAddr (iIndex : ULONG) (iAddr : UCHAR) : M BOOL :=
  ret false.
Definition CH341MemReadAddr0 (iIndex : ULONG) (oBuffer : PVOID_out)
    (ioLength : PULONG) : M BOOL := ret false.
Definition CH341MemReadAddr1 (iIndex : ULONG) (oBuffer : PVOID_out)
    (ioLength : PULONG) : M BOOL := ret false.
Definition CH341MemWriteAddr0 (iIndex : ULONG) (iBuffer : PVOID_in)
    (ioLength : PULONG) : M BOOL := ret false.
Definition CH341MemWriteAddr1 (iIndex : ULONG) (iBuffer : PVOID_in)
    (ioLength : PULONG) : M BOOL := ret false.

(** ** Interrupt functions *)

(** The trampoline handed to the driver: the user callbacks it invokes, in
    order, each with the status word it is given. *)
Definition CH347IntWrapper (iStatus : PVOID_in) (t : DeviceTable)
    : list (mPCH341_INT_ROUTINE * ULONG) :=
  let status : ULONG :=
    match iStatus with
    | Some bytes => to_uchar (default 0 (head bytes))
    | None => 0
    end in
  omap (fun r => if negb (r =? 0) then Some (r, status) else None)
       (take (N.to_nat mCH341_MAX_NUMBER) (g_IntRoutines t)).

Definition CH341SetIntRoutine (iIndex : ULONG)
    (iIntRoutine : mPCH341_INT_ROUTINE) : M BOOL :=
  if mCH341_MAX_NUMBER <=? iIndex then ret false else
  let* ok := LoadCH347DLL in
  if negb ok then ret false else
  let* _ := modify_tab
              (set_IntRoutines <[N.to_nat iIndex := iIntRoutine]>) in
  let* fps := gets fp in
  match fp_CH347SetIntRoutine fps with
  | None => ret false
  | Some f =>
      if negb (iIntRoutine =? 0) then
        invoke (CH347SetIntRoutine iIndex 0 0 255 0 true)
               (f iIndex 0 0 255 0 true)
      else
        invoke (CH347SetIntRoutine iIndex 255 0 255 0 false)
               (f iIndex 255 0 255 0 false)
  end.

Definition CH341ReadInter (iIndex : ULONG) (iStatus : PVOID_out)
    : M (BOOL * option ULONG) :=
  let* ok := LoadCH347DLL in
  if negb ok then ret (false, None) else
  let* fps := gets fp in
  match fp_CH347ReadInter fps with
  | None => ret (false, None)
  | Some f =>
      if negb iStatus then ret (false, None) else
      let* r := invoke (CH347ReadInter iIndex) (f iIndex) in
      let '(ok, status) := r in
      if negb ok then ret (false, None)
      else ret (true, Some (to_uchar (default 0 (head status))))
  end.

Definition CH341AbortInter (iIndex : ULONG) : M BOOL :=
  let* ok := LoadCH347DLL in
  if negb ok then ret false else
  let* fps := gets fp in
  match fp_CH347AbortInter fps with
  | None => ret false
  | Some f => invoke (CH347AbortInter iIndex) (f iIndex)
  end.

Definition CH341ResetInter (iIndex : ULONG) : M BOOL :=
  if mCH341_MAX_NUMBER <=? iIndex then ret false else
  let* _ := CH341AbortInter iIndex in
  let* t := gets tab in
  let routine := at_index (g_IntRoutines t) iIndex 0 in
  if negb (routine =? 0) then CH341SetIntRoutine iIndex routine
  else ret true.

(** ** Abort and reset functions *)

Definition CH341AbortRead (iIndex : ULONG) : M BOOL := ret true.
Definition CH341AbortWrite (iIndex : ULONG) : M BOOL := ret true.
Definition CH341ResetRead (iIndex : ULONG) : M BOOL := CH341AbortRead iIndex.
Definition CH341ResetWrite (iIndex : ULONG) : M BOOL := CH341AbortWrite iIndex.

(** ** Buffer upload and download bookkeeping *)

Definition CH341SetBufUpload (iIndex iEnableOrClear : ULONG) : M BOOL :=
  if mCH341_MAX_NUMBER <=? iIndex then ret false else
  let* _ := modify_tab
              (set_BufUploadEnabled
                 <[N.to_nat iIndex := negb (iEnableOrClear =? 0)]>) in
  ret true.

Definition CH341QueryBufUpload (iIndex : ULONG) : M LONG :=
  if mCH341_MAX_NUMBER <=? iIndex then ret (-1)%Z else
  let* t := gets tab in
  if negb (at_index (g_BufUploadEnabled t) iIndex false) then ret (-1)%Z
  else ret 0%Z.

Definition CH341SetBufDownload (iIndex iEnableOrClear : ULONG) : M BOOL :=
  if mCH341_MAX_NUMBER <=? iIndex then ret false else
  let* _ := modify_tab
              (set_BufDownloadEnabled
                 <[N.to_nat iIndex := negb (iEnableOrClear =? 0)]>) in
  ret true.

Definition CH341QueryBufDownload (iIndex : ULONG) : M LONG :=
  if mCH341_MAX_NUMBER <=? iIndex then ret (-1)%Z else
  let* t := gets tab in
  if negb (at_index (g_BufDownloadEnabled t) iIndex false) then ret (-1)%Z
  else ret 0%Z.

(** ** Device notification *)

Definition CH347NotifyWrapper (iEventStatus : ULONG) (t : DeviceTable)
    : list (mPCH341_NOTIFY_ROUTINE * ULONG) :=
  omap (fun r => if negb (r =? 0) then Some (r, iEventStatus) else None)
       (take (N.to_nat mCH341_MAX_NUMBER) (g_NotifyRoutines t)).

Definition CH341SetDeviceNotify (iIndex : ULONG) (iDeviceID : PCHAR)
    (iNotifyRoutine : mPCH341_NOTIFY_ROUTINE) : M BOOL :=
  if mCH341_MAX_NUMBER <=? iIndex then ret false else
  let* ok := LoadCH347DLL in
  if negb ok then ret false else
  let* _ := modify_tab
              (set_NotifyRoutines <[N.to_nat iIndex := iNotifyRoutine]>) in
  let* fps := gets fp in
  match fp_CH347SetDeviceNotify fps with
  | None => ret false
  | Some f =>
      let wrapper := negb (iNotifyRoutine =? 0) in
      invoke (CH347SetDeviceNotify iIndex iDeviceID wrapper)
             (f iIndex iDeviceID wrapper)
  end.

(** ** Extended functions and serial setup *)

Definition CH341OpenDeviceEx := CH341OpenDevice.
Definition CH341CloseDeviceEx := CH341CloseDevice.
Definition CH341GetDeviceNameEx := CH341GetDeviceName.
Definition CH341SetDeviceNotifyEx := CH341SetDeviceNotify.

Definition CH341SetupSerial (iIndex iParityMode iBaudRate : ULONG) : M BOOL :=
  ret false.

(** ** The exported interface as a whole *)

(** One constructor per exported function, carrying its arguments. *)
Inductive Op :=
| OpOpenDevice (iIndex : ULONG)
| OpCloseDevice (iIndex : ULONG)
| OpGetVersion
| OpGetDrvVersion
| OpResetDevice (iIndex : ULONG)
| OpGetDeviceDescr (iIndex : ULONG) (oBuffer : PVOID_out) (ioLength : PULONG)
| OpGetConfigDescr (iIndex : ULONG) (oBuffer : PVOID_out) (ioLength : PULONG)
| OpGetDeviceName (iIndex : ULONG)
| OpGetVerIC (iIndex : ULONG)
| OpSetExclusive (iIndex iExclusive : ULONG)
| OpSetTimeout (iIndex iWriteTimeout iReadTimeout : ULONG)
| OpFlushBuffer (iIndex : ULONG)
| OpDriverCommand (iIndex : ULONG) (ioCommand : PVOID_in)
| OpSetStream (iIndex iMode : ULONG)
| OpSetDelaymS (iIndex iDelay : ULONG)
| OpStreamI2C (iIndex iWriteLength : ULONG) (iWriteBuffer : PVOID_in)
              (iReadLength : ULONG) (oReadBuffer : PVOID_out)
| OpReadI2C (iIndex : ULONG) (iDevice iAddr : UCHAR) (oByte : PVOID_out)
| OpWriteI2C (iIndex : ULONG) (iDevice iAddr iByte : UCHAR)
| OpReadEEPROM (iIndex : ULONG) (iEepromID : EEPROM_TYPE)
               (iAddr iLength : ULONG) (oBuffer : PVOID_out)
| OpWriteEEPROM (iIndex : ULONG) (iEepromID : EEPROM_TYPE)
                (iAddr iLength : ULONG) (iBuffer : PVOID_in)
| OpStreamSPI4 (iIndex iChipSelect iLength : ULONG) (ioBuffer : PVOID_in)
| OpStreamSPI5 (iIndex iChipSelect iLength : ULONG)
               (ioBuffer ioBuffer2 : PVOID_in)
| OpBitStreamSPI (iIndex iLength : ULONG) (ioBuffer : PVOID_in)
| OpStreamSPI3 (iIndex iChipSelect iLength : ULONG) (ioBuffer : PVOID_in)
| OpGetInput (iIndex : ULONG) (iStatus : PVOID_out)
| OpGetStatus (iIndex : ULONG) (iStatus : PVOID_out)
| OpSetOutput (iIndex iEnable iSetDirOut iSetDataOut : ULONG)
| OpSet_D5_D0 (iIndex iSetDirOut iSetDataOut : ULONG)
| OpReadData (iIndex : ULONG) (oBuffer : PVOID_out) (ioLength : PULONG)
| OpWriteData (iIndex : ULONG) (iBuffer : PVOID_in) (ioLength : PULONG)
| OpReadData0 (iIndex : ULONG) (oBuffer : PVOID_out) (ioLength : PULONG)
| OpReadData1 (iIndex : ULONG) (oBuffer : PVOID_out) (ioLength : PULONG)
| OpWriteData0 (iIndex : ULONG) (iBuffer : PVOID_in) (ioLength : PULONG)
| OpWriteData1 (iIndex : ULONG) (iBuffer : PVOID_in) (ioLength : PULONG)
| OpWriteRead (iIndex iWriteLength : ULONG) (iWriteBuffer : PVOID_in)
              (iReadStep iReadTimes : ULONG)
              (oReadLength oReadBuffer : PVOID_out)
| OpSetParaMode (iIndex iMode : ULONG)
| OpInitParallel (iIndex iMode : ULONG)
| OpEppReadData (iIndex : ULONG) (oBuffer : PVOID_out) (ioLength : PULONG)
| OpEppReadAddr (iIndex : ULONG) (oBuffer : PVOID_out) (ioLength : PULONG)
| OpEppWriteData (iIndex : ULONG) (iBuffer : PVOID_in) (ioLength : PULONG)
| OpEppWriteAddr (iIndex : ULONG) (iBuffer : PVOID_in) (ioLength : PULONG)
| OpEppSetAddr (iIndex : ULONG) (iAddr : UCHAR)
| OpMemReadAddr0 (iIndex : ULONG) (oBuffer : PVOID_out) (ioLength : PULONG)
| OpMemReadAddr1 (iIndex : ULONG) (oBuffer : PVOID_out) (ioLength : PULONG)
| OpMemWriteAddr0 (iIndex : ULONG) (iBuffer : PVOID_in) (ioLength : PULONG)
| OpMemWriteAddr1 (iIndex : ULONG) (iBuffer : PVOID_in) (ioLength : PULONG)
| OpSetIntRoutine (iIndex : ULONG) (iIntRoutine : mPCH341_INT_ROUTINE)
| OpReadInter (iIndex : ULONG) (iStatus : PVOID_out)
| OpAbortInter (iIndex : ULONG)
| OpResetInter (iIndex : ULONG)
| OpAbortRead (iIndex : ULONG)
| OpAbortWrite (iIndex : ULONG)
| OpResetRead (iIndex : ULONG)
| OpResetWrite (iIndex : ULONG)
| OpSetBufUpload (iIndex iEnableOrClear : ULONG)
| OpQueryBufUpload (iIndex : ULONG)
| OpSetBufDownload (iIndex iEnableOrClear : ULONG)
| OpQueryBufDownload (iIndex : ULONG)
| OpSetDeviceNotify (iIndex : ULONG) (iDeviceID : PCHAR)
                    (iNotifyRoutine : mPCH341_NOTIFY_ROUTINE)
| OpOpenDeviceEx (iIndex : ULONG)
| OpCloseDeviceEx (iIndex : ULONG)
| OpGetDeviceNameEx (iIndex : ULONG)
| OpSetDeviceNotifyEx (iIndex : ULONG) (iDeviceID : PCHAR)
                      (iNotifyRoutine : mPCH341_NOTIFY_ROUTINE)
| OpSetupSerial (iIndex iParityMode iBaudRate : ULONG).

(** The C return value of an exported function. *)
Inductive Ret :=
| RetVOID
| RetBOOL (b : BOOL)
| RetHANDLE (h : HANDLE)
| RetULONG (v : ULONG)
| RetLONG (v : LONG)
| RetPVOID (p : option string).

Definition returning {A} (f : A -> Ret) (c : M A) : M Ret :=
  let* a := c in ret (f a).

Definition bool1 {A} (r : BOOL * A) : Ret := RetBOOL (fst r).
Definition bool2 {A B} (r : BOOL * A * B) : Ret := RetBOOL (fst (fst r)).

Definition exec (op : Op) : M Ret :=
  match op with
  | OpOpenDevice i => returning RetHANDLE (CH341OpenDevice i)
  | OpCloseDevice i => returning (fun _ => RetVOID) (CH341CloseDevice i)
  | OpGetVersion => returning RetULONG CH341GetVersion
  | OpGetDrvVersion => returning RetULONG CH341GetDrvVersion
  | OpResetDevice i => returning RetBOOL (CH341ResetDevice i)
  | OpGetDeviceDescr i b l => returning bool1 (CH341GetDeviceDescr i b l)
  | OpGetConfigDescr i b l => returning bool1 (CH341GetConfigDescr i b l)
  | OpGetDeviceName i => returning RetPVOID (CH341GetDeviceName i)
  | OpGetVerIC i => returning RetULONG (CH341GetVerIC i)
  | OpSetExclusive i e => returning RetBOOL (CH341SetExclusive i e)
  | OpSetTimeout i w r => returning RetBOOL (CH341SetTimeout i w r)
  | OpFlushBuffer i => returning RetBOOL (CH341FlushBuffer i)
  | OpDriverCommand i c => returning RetULONG (CH341DriverCommand i c)
  | OpSetStream i m => returning RetBOOL (CH341SetStream i m)
  | OpSetDelaymS i d => returning RetBOOL (CH341SetDelaymS i d)
  | OpStreamI2C i wl wb rl rb => returning bool1 (CH341StreamI2C i wl wb rl rb)
  | OpReadI2C i d a o => returning bool1 (CH341ReadI2C i d a o)
  | OpWriteI2C i d a b => returning RetBOOL (CH341WriteI2C i d a b)
  | OpReadEEPROM i e a l b => returning bool1 (CH341ReadEEPROM i e a l b)
  | OpWriteEEPROM i e a l b => returning RetBOOL (CH341WriteEEPROM i e a l b)
  | OpStreamSPI4 i c l b => returning bool1 (CH341StreamSPI4 i c l b)
  | OpStreamSPI5 i c l b b2 => returning bool1 (CH341StreamSPI5 i c l b b2)
  | OpBitStreamSPI i l b => returning RetBOOL (CH341BitStreamSPI i l b)
  | OpStreamSPI3 i c l b => returning bool1 (CH341StreamSPI3 i c l b)
  | OpGetInput i p => returning bool1 (CH341GetInput i p)
  | OpGetStatus i p => returning bool1 (CH341GetStatus i p)
  | OpSetOutput i e d v => returning RetBOOL (CH341SetOutput i e d v)
  | OpSet_D5_D0 i d v => returning RetBOOL (CH341Set_D5_D0 i d v)
  | OpReadData i b l => returning bool1 (CH341ReadData i b l)
  | OpWriteData i b l => returning bool1 (CH341WriteData i b l)
  | OpReadData0 i b l => returning bool1 (CH341ReadData0 i b l)
  | OpReadData1 i b l => returning bool1 (CH341ReadData1 i b l)
  | OpWriteData0 i b l => returning bool1 (CH341WriteData0 i b l)
  | OpWriteData1 i b l => returning bool1 (CH341WriteData1 i b l)
  | OpWriteRead i wl wb rs rt ol ob =>
      returning bool2 (CH341WriteRead i wl wb rs rt ol ob)
  | OpSetParaMode i m => returning RetBOOL (CH341SetParaMode i m)
  | OpInitParallel i m => returning RetBOOL (CH341InitParallel i m)
  | OpEppReadData i b l => returning RetBOOL (CH341EppReadData i b l)
  | OpEppReadAddr i b l => returning RetBOOL (CH341EppReadAddr i b l)
  | OpEppWriteData i b l => returning RetBOOL (CH341EppWriteData i b l)
  | OpEppWriteAddr i b l => returning RetBOOL (CH341EppWriteAddr i b l)
  | OpEppSetAddr i a => returning RetBOOL (CH341EppSetAddr i a)
  | OpMemReadAddr0 i b l => returning RetBOOL (CH341MemReadAddr0 i b l)
  | OpMemReadAddr1 i b l => returning RetBOOL (CH341MemReadAddr1 i b l)
  | OpMemWriteAddr0 i b l => returning RetBOOL (CH341MemWriteAddr0 i b l)
  | OpMemWriteAddr1 i b l => returning RetBOOL (CH341MemWriteAddr1 i b l)
  | OpSetIntRoutine i r => returning RetBOOL (CH341SetIntRoutine i r)
  | OpReadInter i p => returning bool1 (CH341ReadInter i p)
  | OpAbortInter i => returning RetBOOL (CH341AbortInter i)
  | OpResetInter i => returning RetBOOL (CH341ResetInter i)
  | OpAbortRead i => returning RetBOOL (CH341AbortRead i)
  | OpAbortWrite i => returning RetBOOL (CH341AbortWrite i)
  | OpResetRead i => returning RetBOOL (CH341ResetRead i)
  | OpResetWrite i => returning RetBOOL (CH341ResetWrite i)
  | OpSetBufUpload i e => returning RetBOOL (CH341SetBufUpload i e)
  | OpQueryBufUpload i => returning RetLONG (CH341QueryBufUpload i)
  | OpSetBufDownload i e => returning RetBOOL (CH341SetBufDownload i e)
  | OpQueryBufDownload i => returning RetLONG (CH341QueryBufDownload i)
  | OpSetDeviceNotify i d r => returning RetBOOL (CH341SetDeviceNotify i d r)
  | OpOpenDeviceEx i => returning RetHANDLE (CH341OpenDeviceEx i)
  | OpCloseDeviceEx i => returning (fun _ => RetVOID) (CH341CloseDeviceEx i)
  | OpGetDeviceNameEx i => returning RetPVOID (CH341GetDeviceNameEx i)
  | OpSetDeviceNotifyEx i d r =>
      returning RetBOOL (CH341SetDeviceNotifyEx i d r)
  | OpSetupSerial i p b => returning RetBOOL (CH341SetupSerial i p b)
  end.

(** The device index argument of an operation, when it has one. *)
Definition op_index (op : Op) : option ULONG :=
  match op with
  | OpGetVersion | OpGetDrvVersion => None
  | OpOpenDevice i | OpCloseDevice i | OpResetDevice i
  | OpGetDeviceDescr i _ _ | OpGetConfigDescr i _ _ | OpGetDeviceName i
  | OpGetVerIC i | OpSetExclusive i _ | OpSetTimeout i _ _ | OpFlushBuffer i
  | OpDriverCommand i _ | OpSetStream i _ | OpSetDelaymS i _
  | OpStreamI2C i _ _ _ _ | OpReadI2C i _ _ _ | OpWriteI2C i _ _ _
  | OpReadEEPROM i _ _ _ _ | OpWriteEEPROM i _ _ _ _
  | OpStreamSPI4 i _ _ _ | OpStreamSPI5 i _ _ _ _ | OpBitStreamSPI i _ _
  | OpStreamSPI3 i _ _ _ | OpGetInput i _ | OpGetStatus i _
  | OpSetOutput i _ _ _ | OpSet_D5_D0 i _ _
  | OpReadData i _ _ | OpWriteData i _ _ | OpReadData0 i _ _
  | OpReadData1 i _ _ | OpWriteData0 i _ _ | OpWriteData1 i _ _
  | OpWriteRead i _ _ _ _ _ _ | OpSetParaMode i _ | OpInitParallel i _
  | OpEppReadData i _ _ | OpEppReadAddr i _ _ | OpEppWriteData i _ _
  | OpEppWriteAddr i _ _ | OpEppSetAddr i _ | OpMemReadAddr0 i _ _
  | OpMemReadAddr1 i _ _ | OpMemWriteAddr0 i _ _ | OpMemWriteAddr1 i _ _
  | OpSetIntRoutine i _ | OpReadInter i _ | OpAbortInter i | OpResetInter i
  | OpAbortRead i | OpAbortWrite i | OpResetRead i | OpResetWrite i
  | OpSetBufUpload i _ | OpQueryBufUpload i | OpSetBufDownload i _
  | OpQueryBufDownload i | OpSetDeviceNotify i _ _ | OpOpenDeviceEx i
  | OpCloseDeviceEx i | OpGetDeviceNameEx i | OpSetDeviceNotifyEx i _ _
  | OpSetupSerial i _ _ => Some i
  end.

(** The value an operation returns to report failure, by C return type:
    [FALSE], [INVALID_HANDLE_VALUE], a null pointer, [-1] or [0]; a [VOID]
    function has none. *)
Definition failure_sentinel (op : Op) : Ret :=
  match op with
  | OpOpenDevice _ | OpOpenDeviceEx _ => RetHANDLE INVALID_HANDLE_VALUE
  | OpCloseDevice _ | OpCloseDeviceEx _ => RetVOID
  | OpGetVersion | OpGetDrvVersion | OpGetVerIC _ | OpDriverCommand _ _ =>
      RetULONG 0
  | OpGetDeviceName _ | OpGetDeviceNameEx _ => RetPVOID None
  | OpQueryBufUpload _ | OpQueryBufDownload _ => RetLONG (-1)%Z
  | _ => RetBOOL false
  end.

(** The operations whose body compares [iIndex] with [mCH341_MAX_NUMBER]:
    exactly those that index one of the per-device arrays. *)
Definition checks_index (op : Op) : bool :=
  match op with
  | OpOpenDevice _ | OpCloseDevice _ | OpResetDevice _ | OpGetDeviceName _
  | OpSetStream _ _ | OpStreamSPI4 _ _ _ _ | OpStreamSPI5 _ _ _ _ _
  | OpStreamSPI3 _ _ _ _ | OpSetIntRoutine _ _ | OpResetInter _
  | OpSetBufUpload _ _ | OpQueryBufUpload _ | OpSetBufDownload _ _
  | OpQueryBufDownload _ | OpSetDeviceNotify _ _ _ | OpOpenDeviceEx _
  | OpCloseDeviceEx _ | OpGetDeviceNameEx _ | OpSetDeviceNotifyEx _ _ _ => true
  | _ => false
  end.

End Shim.

(** ** Concrete drivers on which the model is evaluated *)

(** A driver that resolves every symbol and succeeds at everything, except
    that [CH347ReadData] delivers four bytes on each of its first two calls
    and fails from the third on.  Its state counts the reads served.  The
    handle returned by [CH347OpenDevice] is a parameter. *)
Definition stub_exports (open_result : ULONG -> HANDLE) : @Binding nat :=
  {| fp_CH347OpenDevice := Some (fun i d => (open_result i, d));
     fp_CH347CloseDevice := Some (fun _ d => (true, d));
     fp_CH347GetVersion := Some (fun _ d => ((true, (0x35, 0x10, 0, 1)), d));
     fp_CH347GetChipType := Some (fun _ d => (1, d));
     fp_CH347SetTimeout := Some (fun _ _ _ d => (true, d));
     fp_CH347GetDeviceInfor := Some (fun _ d => (true, d));
     fp_CH347SetDeviceNotify := Some (fun _ _ _ d => (true, d));
     fp_CH347ReadData :=
       Some (fun _ _ _ d =>
               if (d <? 2)%nat then ((true, [0xDE; 0xAD; 0xBE; 0xEF], 4), S d)
               else ((false, [], 0), S d));
     fp_CH347WriteData := Some (fun _ _ len d => ((true, default 0 len), d));
     fp_CH347I2C_Set := Some (fun _ _ d => (true, d));
     fp_CH347I2C_SetDelaymS := Some (fun _ _ d => (true, d));
     fp_CH347StreamI2C := Some (fun _ _ _ _ _ d => ((true, [0x5A]), d));
     fp_CH347ReadEEPROM := Some (fun _ _ _ _ _ d => ((true, []), d));
     fp_CH347WriteEEPROM := Some (fun _ _ _ _ _ d => (true, d));
     fp_CH347SPI_Init := Some (fun _ _ d => (true, d));
     fp_CH347SPI_SetFrequency := Some (fun _ _ d => (true, d));
     fp_CH347SPI_GetCfg := Some (fun _ d => (true, d));
     fp_CH347SPI_WriteRead :=
       Some (fun _ _ _ buf d => ((true, default [] buf), d));
     fp_CH347StreamSPI4 :=
       Some (fun _ _ _ buf d => ((true, default [] buf), d));
     fp_CH347GPIO_Get := Some (fun _ d => ((true, 0x0F, 0xA5), d));
     fp_CH347GPIO_Set := Some (fun _ _ _ _ d => (true, d));
     fp_CH347SetIntRoutine := Some (fun _ _ _ _ _ _ d => (true, d));
     fp_CH347ReadInter := Some (fun _ d => ((true, [0x01]), d));
     fp_CH347AbortInter := Some (fun _ d => (true, d)) |}.

(** The loader finds the primary DLL, exporting [lib]. *)
Definition loader_of (lib : @HMODULE nat) (name : string)
    : option (@HMODULE nat) :=
  if String.eqb name "CH347DLL.DLL" then Some lib else None.

(** The usual stub: [CH347OpenDevice] returns a valid handle. *)
Definition stub_loader : string -> option (@HMODULE nat) :=
  loader_of (stub_exports (fun i => 0x1000 + Z.of_N i)%Z).

(** A driver whose [CH347OpenDevice] returns a null handle. *)
Definition null_open_loader : string -> option (@HMODULE nat) :=
  loader_of (stub_exports (fun _ => NULL)).

(** A degraded driver: [CH347I2C_Set] is not exported and SPI
    initialisation always fails. *)
Definition degraded_loader : string -> option (@HMODULE nat) :=
  loader_of
    (let b := stub_exports (fun i => 0x1000 + Z.of_N i)%Z in
     {| fp_CH347OpenDevice := fp_CH347OpenDevice b;
        fp_CH347CloseDevice := fp_CH347CloseDevice b;
        fp_CH347GetVersion := fp_CH347GetVersion b;
        fp_CH347GetChipType := fp_CH347GetChipType b;
        fp_CH347SetTimeout := fp_CH347SetTimeout b;
        fp_CH347GetDeviceInfor := fp_CH347GetDeviceInfor b;
        fp_CH347SetDeviceNotify := fp_CH347SetDeviceNotify b;
        fp_CH347ReadData := fp_CH347ReadData b;
        fp_CH347WriteData := fp_CH347WriteData b;
        fp_CH347I2C_Set := None;
        fp_CH347I2C_SetDelaymS := fp_CH347I2C_SetDelaymS b;
        fp_CH347StreamI2C := fp_CH347StreamI2C b;
        fp_CH347ReadEEPROM := fp_CH347ReadEEPROM b;
        fp_CH347WriteEEPROM := fp_CH347WriteEEPROM b;
        fp_CH347SPI_Init := Some (fun _ _ d => (false, d));
        fp_CH347SPI_SetFrequency := fp_CH347SPI_SetFrequency b;
        fp_CH347SPI_GetCfg := fp_CH347SPI_GetCfg b;
        fp_CH347SPI_WriteRead := fp_CH347SPI_WriteRead b;
        fp_CH347StreamSPI4 := fp_CH347StreamSPI4 b;
        fp_CH347GPIO_Get := fp_CH347GPIO_Get b;
        fp_CH347GPIO_Set := fp_CH347GPIO_Set b;
        fp_CH347SetIntRoutine := fp_CH347SetIntRoutine b;
        fp_CH347ReadInter := fp_CH347ReadInter b;
        fp_CH347AbortInter := fp_CH347AbortInter b |}).

(** No CH347 DLL is installed. *)
Definition no_loader : string -> option (@HMODULE nat) := fun _ => None.

(** A DLL that exports everything the stub does except [CH347OpenDevice]. *)
Definition no_open_loader : string -> option (@HMODULE nat) :=
  loader_of
    (let b := stub_exports (fun i => 0x1000 + Z.of_N i)%Z in
     {| fp_CH347OpenDevice := None;
        fp_CH347CloseDevice := fp_CH347CloseDevice b;
        fp_CH347GetVersion := fp_CH347GetVersion b;
        fp_CH347GetChipType := fp_CH347GetChipType b;
        fp_CH347SetTimeout := fp_CH347SetTimeout b;
        fp_CH347GetDeviceInfor := fp_CH347GetDeviceInfor b;
        fp_CH347SetDeviceNotify := fp_CH347SetDeviceNotify b;
        fp_CH347ReadData := fp_CH347ReadData b;
        fp_CH347WriteData := fp_CH347WriteData b;
        fp_CH347I2C_Set := fp_CH347I2C_Set b;
        fp_CH347I2C_SetDelaymS := fp_CH347I2C_SetDelaymS b;
        fp_CH347StreamI2C := fp_CH347StreamI2C b;
        fp_CH347ReadEEPROM := fp_CH347ReadEEPROM b;
        fp_CH347WriteEEPROM := fp_CH347WriteEEPROM b;
        fp_CH347SPI_Init := fp_CH347SPI_Init b;
        fp_CH347SPI_SetFrequency := fp_CH347SPI_SetFrequency b;
        fp_CH347SPI_GetCfg := fp_CH347SPI_GetCfg b;
        fp_CH347SPI_WriteRead := fp_CH347SPI_WriteRead b;
        fp_CH347StreamSPI4 := fp_CH347StreamSPI4 b;
        fp_CH347GPIO_Get := fp_CH347GPIO_Get b;
        fp_CH347GPIO_Set := fp_CH347GPIO_Set b;
        fp_CH347SetIntRoutine := fp_CH347SetIntRoutine b;
        fp_CH347ReadInter := fp_CH347ReadInter b;
        fp_CH347AbortInter := fp_CH347AbortInter b |}).

(** ** Vocabulary of the statements *)

Section Vocabulary.
Context {D : Type}.

(** Each per-device array has exactly [mCH341_MAX_NUMBER] elements. *)
Definition table_wf (t : DeviceTable) : Prop :=
  let n := N.to_nat mCH341_MAX_NUMBER in
  length (g_DeviceHandles t) = n /\ length (g_DeviceNames t) = n /\
  length (g_StreamMode t) = n /\ length (g_SPIInitialized t) = n /\
  length (g_IntRoutines t) = n /\ length (g_BufUploadEnabled t) = n /\
  length (g_BufDownloadEnabled t) = n /\ length (g_NotifyRoutines t) = n.

(** The states the process can be in: the statically initialised one, and
    any state an exported function leaves behind, whatever the loader finds
    at the time of the call.  [DllMain] is not a step: its detach branch
    runs when the module, and these globals with it, is being unmapped. *)
Inductive reachable : @State D -> Prop :=
| reach_init d : reachable (initial_state d)
| reach_step ld op s : reachable s -> reachable (snd (exec ld op s)).

(** Slot [i] is closed: no handle and SPI not initialised. *)
Definition slot_closed (s : @State D) (i : ULONG) : Prop :=
  g_DeviceHandles (tab s) !! N.to_nat i = Some NULL /\
  g_SPIInitialized (tab s) !! N.to_nat i = Some false.

(** While the binding is not ready no slot has ever been opened or had its
    SPI peripheral configured; once it is ready both essential symbols are
    resolved. *)
Definition binding_inv (s : @State D) : Prop :=
  table_wf (tab s) /\
  (g_bInitialized s = true ->
   is_Some (fp_CH347OpenDevice (fp s)) /\
   is_Some (fp_CH347CloseDevice (fp s))) /\
  (g_bInitialized s = false ->
   g_DeviceHandles (tab s) = replicate (N.to_nat mCH341_MAX_NUMBER) NULL /\
   g_SPIInitialized (tab s) = replicate (N.to_nat mCH341_MAX_NUMBER) false).

(** Command [c] preserves the state predicate [P]. *)
Definition preserves {A} (P : @State D -> Prop) (c : M A) : Prop :=
  forall s, P s -> P (snd (c s)).

(** The SPI-initialised flag of slot [i]. *)
Definition spi_flag (s : @State D) (i : ULONG) : option BOOL :=
  g_SPIInitialized (tab s) !! N.to_nat i.

(** Operation [op] closes slot [i] (a reset begins with a close). *)
Definition closes_slot (op : Op) (i : ULONG) : bool :=
  match op with
  | OpCloseDevice j | OpCloseDeviceEx j | OpResetDevice j => j =? i
  | _ => false
  end.

(** The vocabulary of the write-then-read description: what the driver
    answers to [n] successive reads of [step] bytes from driver state [d];
    the answers that precede the first failing one; and the byte count they
    add up to, in [ULONG] arithmetic. *)
Fixpoint read_answers (fr : @pCH347ReadData D) (i step : ULONG) (n : nat)
    (d : D) : list (BOOL * list UCHAR * ULONG) :=
  match n with
  | O => []
  | S n' =>
      let '(a, d') := fr i true (Some step) d in
      a :: read_answers fr i step n' d'
  end.

Fixpoint successful_prefix (l : list (BOOL * list UCHAR * ULONG))
    : list (BOOL * list UCHAR * ULONG) :=
  match l with
  | [] => []
  | a :: l' => if fst (fst a) then a :: successful_prefix l' else []
  end.

(** Where the bytes of successive reads land in the caller's buffer: each
    read stores at the offset reached by the lengths reported before it. *)
Fixpoint stores_at (pBuf : N) (l : list (BOOL * list UCHAR * ULONG))
    : list (N * list UCHAR) :=
  match l with
  | [] => []
  | a :: l' => (pBuf, snd (fst a)) :: stores_at (pBuf + to_ulong (snd a)) l'
  end.

Definition bytes_from (start : ULONG) (l : list (BOOL * list UCHAR * ULONG))
    : ULONG :=
  fold_left (fun acc a => to_ulong (acc + to_ulong (snd a))) l start.

(** The calls appended to the trace between state [s] and state [s']. *)
Definition calls_since (s s' : @State D) : list Call :=
  drop (length (trace s)) (trace s').

(** Everything the table holds for slot [k]. *)
Definition slot_view (t : DeviceTable) (k : nat) :=
  (g_DeviceHandles t !! k, g_DeviceNames t !! k, g_StreamMode t !! k,
   g_SPIInitialized t !! k, g_IntRoutines t !! k, g_BufUploadEnabled t !! k,
   g_BufDownloadEnabled t !! k, g_NotifyRoutines t !! k).

(** No slot holds [INVALID_HANDLE_VALUE], and a slot holding a handle holds
    the name generated for its index. *)
Definition names_inv (s : @State D) : Prop :=
  forall k h,
    g_DeviceHandles (tab s) !! k = Some h ->
    h <> INVALID_HANDLE_VALUE /\
    (h <> NULL ->
     g_DeviceNames (tab s) !! k = Some (device_name (N.of_nat k))).

(** The operations that can reach the driver or the device table only after
    [LoadCH347DLL] has returned TRUE. *)
Definition requires_binding (op : Op) : bool :=
  match op with
  | OpOpenDevice _ | OpOpenDeviceEx _ | OpGetDrvVersion | OpGetVerIC _
  | OpSetTimeout _ _ _ | OpFlushBuffer _ | OpSetStream _ _ | OpSetDelaymS _ _
  | OpStreamI2C _ _ _ _ _ | OpReadI2C _ _ _ _ | OpWriteI2C _ _ _ _
  | OpReadEEPROM _ _ _ _ _ | OpWriteEEPROM _ _ _ _ _
  | OpStreamSPI4 _ _ _ _ | OpStreamSPI5 _ _ _ _ _ | OpStreamSPI3 _ _ _ _
  | OpGetInput _ _ | OpGetStatus _ _ | OpSetOutput _ _ _ _
  | OpSet_D5_D0 _ _ _ | OpReadData _ _ _ | OpWriteData _ _ _
  | OpReadData0 _ _ _ | OpReadData1 _ _ _ | OpWriteData0 _ _ _
  | OpWriteData1 _ _ _ | OpWriteRead _ _ _ _ _ _ _ | OpSetIntRoutine _ _
  | OpReadInter _ _ | OpAbortInter _ | OpSetDeviceNotify _ _ _
  | OpSetDeviceNotifyEx _ _ _ => true
  | _ => false
  end.

(** The operations whose body assigns to a per-device array. *)
Definition writes_table (op : Op) : bool :=
  match op with
  | OpOpenDevice _ | OpOpenDeviceEx _ | OpCloseDevice _ | OpCloseDeviceEx _
  | OpResetDevice _ | OpSetStream _ _ | OpStreamSPI4 _ _ _ _
  | OpStreamSPI5 _ _ _ _ _ | OpStreamSPI3 _ _ _ _ | OpSetIntRoutine _ _
  | OpResetInter _ | OpSetBufUpload _ _ | OpSetBufDownload _ _
  | OpSetDeviceNotify _ _ _ | OpSetDeviceNotifyEx _ _ _ => true
  | _ => false
  end.

(** A slot whose SPI flag is set was configured through a resolved
    [CH347SPI_Init]. *)
Definition spi_inv (s : @State D) : Prop :=
  forall k, g_SPIInitialized (tab s) !! k = Some true ->
            is_Some (fp_CH347SPI_Init (fp s)).

End Vocabulary.

(** ** Properties of the binding resolver *)

Section Properties.
Context {D : Type}.

Implicit Types (ld : string -> option (@HMODULE D)) (s : @State D) (i : ULONG).

#[local] Arguments LoadCH347DLL : simpl never.

Ltac unfold_m :=
  cbv beta iota delta
    [bind ret gets modify_tab modify invoke when returning bool1 bool2] in *.

(** What one run of the resolver can do: it never touches the device table,
    the driver or the trace; once ready it is a no-op; it reports success
    exactly when it leaves the readiness flag set, and a fresh success has
    resolved both essential symbols. *)
Lemma LoadCH347DLL_cases ld s ok s' :
  LoadCH347DLL ld s = (ok, s') ->
  tab s' = tab s /\ drv s' = drv s /\ trace s' = trace s /\
  g_bInitialized s' = ok /\
  (g_bInitialized s = true -> s' = s) /\
  (g_bInitialized s = false -> ok = true ->
   is_Some (fp_CH347OpenDevice (fp s')) /\
   is_Some (fp_CH347CloseDevice (fp s'))).
Proof.
  unfold LoadCH347DLL. unfold_m.
  destruct (g_bInitialized s) eqn:Hini.
  - intros [= <- <-]. rewrite Hini. repeat split; auto; discriminate.
  - cbn.
    destruct (ld "CH347DLL.DLL") as [lib|]; cbn;
      [|destruct (ld "CH347DLLA64.DLL") as [lib|]; cbn].
    3: { intros [= <- <-]. cbn. repeat split; auto; discriminate. }
    all: repeat case_bool_decide; cbn; intros [= <- <-]; cbn;
      repeat split; auto; try discriminate.
Qed.


Lemma LoadCH347DLL_binding_inv ld s ok s' :
  binding_inv s -> LoadCH347DLL ld s = (ok, s') ->
  binding_inv s' /\ g_bInitialized s' = ok /\
  tab s' = tab s /\ drv s' = drv s /\ trace s' = trace s.
Proof.
  intros Hinv HL.
  apply LoadCH347DLL_cases in HL as (Ht & Hd & Htr & Hok & Hsame & Hnew).
  split; [|auto].
  destruct (g_bInitialized s) eqn:Hs.
  - rewrite (Hsame eq_refl). exact Hinv.
  - destruct Hinv as (Hwf & Hrdy & Hnot).
    split; [rewrite Ht; exact Hwf|]. split.
    + intros Hi. apply Hnew; congruence.
    + intros _. rewrite Ht. auto.
Qed.

(** Moving to a state with the same binding keeps the invariant when the
    arrays keep their size and, while the binding is not ready, the handle
    and SPI arrays stay all clear. *)
Lemma binding_inv_frame s s' :
  binding_inv s ->
  g_bInitialized s' = g_bInitialized s -> fp s' = fp s ->
  table_wf (tab s') ->
  (g_bInitialized s = false ->
   g_DeviceHandles (tab s') = replicate (N.to_nat mCH341_MAX_NUMBER) NULL /\
   g_SPIInitialized (tab s') = replicate (N.to_nat mCH341_MAX_NUMBER) false) ->
  binding_inv s'.
Proof.
  intros (Hwf & Hrdy & Hnot) Hi Hf Hwf' Hclr.
  split; [exact Hwf'|]. rewrite Hi, Hf. split; auto.
Qed.

Ltac load_step :=
  match goal with
  | Hinv : binding_inv ?s |- context [LoadCH347DLL ?ld ?s] =>
      let ok := fresh "ok" in let s1 := fresh "s" in let H := fresh "HL" in
      destruct (LoadCH347DLL ld s) as [ok s1] eqn:H;
      apply (LoadCH347DLL_binding_inv _ _ _ _ Hinv) in H;
      destruct H as (?&?&?&?&?); destruct ok
  end.

Ltac case_step :=
  match goal with
  | |- context [match ?x with _ => _ end] =>
      lazymatch x with
      | context [match _ with _ => _ end] => fail
      | _ => destruct x eqn:?
      end
  end.

Ltac wf_solve :=
  match goal with
  | H : binding_inv ?s |- table_wf _ =>
      let Hwf := fresh in
      destruct H as (Hwf & _); unfold table_wf in *; cbn;
      rewrite ?length_insert; exact Hwf
  end.

Ltac clear_solve :=
  match goal with
  | H : binding_inv ?s |- g_bInitialized ?s = false -> _ =>
      let Hi := fresh in
      intros Hi; cbn; first
        [ exfalso; congruence
        | destruct H as (_ & _ & H); destruct (H Hi) as [-> ->];
          rewrite ?insert_replicate; split; reflexivity
        | destruct H as (_ & _ & H); apply H, Hi ]
  end.

Ltac inv_solve :=
  cbn; try assumption;
  match goal with
  | H : binding_inv ?s |- binding_inv _ =>
      apply (binding_inv_frame s);
      [exact H | reflexivity | reflexivity | wf_solve | clear_solve]
  end.

Lemma preserves_bind {A B} (P : @State D -> Prop) (c : @M D A)
    (k : A -> @M D B) :
  preserves P c -> (forall a, preserves P (k a)) -> preserves P (bind c k).
Proof.
  intros Hc Hk s Hs. unfold bind. specialize (Hc s Hs).
  destruct (c s) as [a s1]. apply Hk, Hc.
Qed.

Lemma preserves_ret {A} (P : @State D -> Prop) (a : A) : preserves P (ret a).
Proof. intros s Hs. exact Hs. Qed.

Lemma preserves_returning {A} (P : @State D -> Prop) (f : A -> Ret)
    (c : @M D A) :
  preserves P c -> preserves P (returning f c).
Proof. intros Hc. apply preserves_bind; [exact Hc | intros; apply preserves_ret]. Qed.

Ltac unfold_ops :=
  unfold CH341OpenDeviceEx, CH341CloseDeviceEx, CH341GetDeviceNameEx,
    CH341SetDeviceNotifyEx, CH341ReadData0, CH341ReadData1, CH341WriteData0,
    CH341WriteData1, CH341StreamSPI5, CH341StreamSPI3, CH341GetStatus,
    CH341ResetRead, CH341ResetWrite;
  unfold CH341OpenDevice, CH341CloseDevice, CH341GetVersion,
    CH341GetDrvVersion, CH341GetDeviceDescr, CH341GetConfigDescr,
    CH341GetDeviceName, CH341GetVerIC, CH341SetExclusive, CH341SetTimeout,
    CH341FlushBuffer, CH341DriverCommand, CH341SetStream, CH341SetDelaymS,
    CH341StreamI2C, CH341ReadI2C, CH341WriteI2C, CH341ReadEEPROM,
    CH341WriteEEPROM, CH341StreamSPI4, InitSPIForCH341, CH341BitStreamSPI,
    CH341GetInput, CH341SetOutput, CH341Set_D5_D0, CH341ReadData,
    CH341WriteData, CH341SetParaMode, CH341InitParallel, CH341EppReadData,
    CH341EppReadAddr, CH341EppWriteData, CH341EppWriteAddr, CH341EppSetAddr,
    CH341MemReadAddr0, CH341MemReadAddr1, CH341MemWriteAddr0,
    CH341MemWriteAddr1, CH341SetIntRoutine, CH341ReadInter, CH341AbortInter,
    CH341AbortRead, CH341AbortWrite, CH341SetBufUpload, CH341QueryBufUpload,
    CH341SetBufDownload, CH341QueryBufDownload, CH341SetDeviceNotify,
    CH341SetupSerial.

Ltac basic_inv :=
  let s := fresh "s" in let Hinv := fresh "Hinv" in
  intros s Hinv; unfold_ops; unfold_m; cbn;
  repeat (first [load_step | case_step]; cbn); inv_solve.

Lemma read_loop_frame f i step n : forall pBuf tot mem s r s',
  read_loop f i step n pBuf tot mem s = (r, s') ->
  g_bInitialized s' = g_bInitialized s /\ fp s' = fp s /\ tab s' = tab s.
Proof.
  induction n as [|n IH]; intros pBuf tot mem s r s'; cbn [read_loop]; unfold_m.
  - intros [= <- <-]. auto.
  - destruct (f i true (Some step) (drv s)) as [[[ok data] len] d].
    destruct ok; cbn.
    + intros H. apply IH in H. cbn in H. exact H.
    + intros [= <- <-]. cbn. auto.
Qed.

Lemma WriteRead_binding_inv ld i wl wb rs rt ol ob :
  preserves binding_inv (CH341WriteRead ld i wl wb rs rt ol ob).
Proof.
  intros s Hinv. unfold CH341WriteRead; unfold_m. load_step; cbn; [|inv_solve].
  repeat (case_step; cbn); try inv_solve.
  all: match goal with
       | H : read_loop _ _ _ _ _ _ _ _ = _ |- _ =>
           apply read_loop_frame in H; cbn in H; destruct H as (Hb & Hf & Ht)
       end.
  all: match goal with
       | H : binding_inv ?s |- binding_inv ?s' =>
           apply (binding_inv_frame s);
           [exact H|congruence|congruence|rewrite Ht; apply H|congruence]
       end.
Qed.

Lemma OpenDevice_binding_inv ld i : preserves binding_inv (CH341OpenDevice ld i).
Proof. basic_inv. Qed.

Lemma CloseDevice_binding_inv i :
  preserves binding_inv (@CH341CloseDevice D i).
Proof. basic_inv. Qed.

Lemma AbortInter_binding_inv ld i : preserves binding_inv (CH341AbortInter ld i).
Proof. basic_inv. Qed.

Lemma SetIntRoutine_binding_inv ld i r :
  preserves binding_inv (CH341SetIntRoutine ld i r).
Proof. basic_inv. Qed.

(** Every exported function preserves the invariant. *)
Lemma exec_binding_inv ld op : preserves binding_inv (exec ld op).
Proof.
  destruct op; cbn [exec]; apply preserves_returning; try basic_inv.
  - unfold CH341ResetDevice. destruct (_ <=? _); [apply preserves_ret|].
    apply preserves_bind; [apply CloseDevice_binding_inv|intros _].
    apply preserves_bind; [apply OpenDevice_binding_inv|intros h].
    apply preserves_ret.
  - apply WriteRead_binding_inv.
  - unfold CH341ResetInter. destruct (_ <=? _); [apply preserves_ret|].
    apply preserves_bind; [apply AbortInter_binding_inv|intros _].
    intros s Hs. unfold bind, gets. cbn.
    destruct (negb _); [apply SetIntRoutine_binding_inv, Hs | exact Hs].
Qed.

Lemma initial_state_binding_inv (d : D) : binding_inv (initial_state d).
Proof.
  unfold binding_inv, table_wf. cbn. rewrite !length_replicate.
  repeat split; (reflexivity || discriminate).
Qed.

Lemma reachable_binding_inv s : reachable s -> binding_inv s.
Proof.
  induction 1 as [d | ld op s _ IH].
  - apply initial_state_binding_inv.
  - apply exec_binding_inv, IH.
Qed.

(** ** Narrowing to a byte *)

Lemma to_uchar_mod v : to_uchar v = v mod 256.
Proof. unfold to_uchar. change 0xFF with (N.ones 8). apply N.land_ones. Qed.

Lemma to_uchar_lt v : to_uchar v < 256.
Proof. rewrite to_uchar_mod. apply N.mod_lt. discriminate. Qed.

Lemma to_uchar_small v : v < 256 -> to_uchar v = v.
Proof. intros Hv. rewrite to_uchar_mod. apply N.mod_small, Hv. Qed.

Lemma to_uchar_high_bits v n : 8 <= n -> N.testbit (to_uchar v) n = false.
Proof.
  intros Hn. unfold to_uchar. rewrite N.land_spec.
  change 0xFF with (N.ones 8). rewrite N.ones_spec_high by exact Hn.
  apply andb_false_r.
Qed.

Lemma to_uchar_shiftr v : N.shiftr (to_uchar v) 8 = 0.
Proof.
  rewrite N.shiftr_div_pow2. apply N.div_small. apply to_uchar_lt.
Qed.

(** ** The chip version query *)

(** C3 (as amended).  [CH341GetVerIC] returns 0 when the binding cannot be
    loaded.  With the binding loaded it returns [IC_VER_CH341A] when the
    chip-type symbol is unresolved; otherwise it returns one of the two
    legacy codes: [IC_VER_CH341A3] for chip types 1, 2 and 3, and
    [IC_VER_CH341A] for chip type 0 and for every other chip type. *)
Theorem GetVerIC_mapping ld i s :
  let '(ok, s1) := LoadCH347DLL ld s in
  let r := fst (CH341GetVerIC ld i s) in
  if ok then
    match fp_CH347GetChipType (fp s1) with
    | None => r = IC_VER_CH341A
    | Some f =>
        let chipType := to_uchar (fst (f i (drv s1))) in
        (r = IC_VER_CH341A \/ r = IC_VER_CH341A3) /\
        (chipType = 1 \/ chipType = 2 \/ chipType = 3 ->
         r = IC_VER_CH341A3) /\
        (chipType <> 1 /\ chipType <> 2 /\ chipType <> 3 ->
         r = IC_VER_CH341A)
    end
  else r = 0.
Proof.
  unfold CH341GetVerIC; unfold_m.
  destruct (LoadCH347DLL ld s) as [[|] s1]; cbn; [|reflexivity].
  destruct (fp_CH347GetChipType (fp s1)) as [f|]; cbn; [|reflexivity].
  destruct (f i (drv s1)) as [c d]; cbn.
  destruct (to_uchar c) as [|[[|[]|]|[|[]|]|]]; cbn;
    repeat split; auto; intros; intuition discriminate.
Qed.

(** ** Single-byte I2C helpers *)

(** C4.  With the binding loaded and the streaming primitive resolved,
    [CH341ReadI2C] (given a destination for the byte) makes exactly one
    driver call, a [CH347StreamI2C] with the two-byte write buffer
    [dev<<1, addr] and read length 1, and [CH341WriteI2C] makes exactly
    one driver call, a [CH347StreamI2C] with the three-byte write buffer
    [dev<<1, addr, val] and read length 0; each returns what that call
    returned.  The first byte is [dev<<1] as stored in a byte, which is
    [dev<<1] itself for every 7-bit device address. *)
Theorem I2C_byte_helpers_one_stream_call ld i iDevice iAddr iByte s s1 f :
  LoadCH347DLL ld s = (true, s1) ->
  fp_CH347StreamI2C (fp s1) = Some f ->
  (let writeBuf := [to_uchar (N.shiftl iDevice 1); iAddr] in
   let '(r, s') := CH341ReadI2C ld i iDevice iAddr true s in
   let call := f i 2 (Some writeBuf) 1 true (drv s1) in
   trace s' = trace s ++ [CH347StreamI2C i 2 (Some writeBuf) 1 true] /\
   N.of_nat (length writeBuf) = 2 /\
   r = fst call /\ drv s' = snd call /\ tab s' = tab s) /\
  (let writeBuf := [to_uchar (N.shiftl iDevice 1); iAddr; iByte] in
   let '(r, s') := CH341WriteI2C ld i iDevice iAddr iByte s in
   let call := f i 3 (Some writeBuf) 0 false (drv s1) in
   trace s' = trace s ++ [CH347StreamI2C i 3 (Some writeBuf) 0 false] /\
   N.of_nat (length writeBuf) = 3 /\
   r = fst (fst call) /\ drv s' = snd call /\ tab s' = tab s) /\
  (iDevice < 128 -> to_uchar (N.shiftl iDevice 1) = N.shiftl iDevice 1).
Proof.
  intros HL Hf.
  destruct (LoadCH347DLL_cases _ _ _ _ HL) as (Ht & Hd & Htr & _).
  split; [|split].
  - unfold CH341ReadI2C; unfold_m. rewrite HL; cbn. rewrite Hf; cbn.
    destruct (f i 2 _ 1 true (drv s1)) as [r d]; cbn.
    rewrite Htr, Ht. auto.
  - unfold CH341WriteI2C; unfold_m. rewrite HL; cbn. rewrite Hf; cbn.
    destruct (f i 3 _ 0 false (drv s1)) as [r d]; cbn.
    rewrite Htr, Ht. auto.
  - intros Hdev. apply to_uchar_small.
    rewrite N.shiftl_mul_pow2. change (2 ^ 1) with 2. lia.
Qed.

(** ** Interrupt callback registration *)

(** C5 (as amended).  For a valid index, when the binding loads,
    [CH341SetIntRoutine] stores the callback argument (null or not) in
    [g_IntRoutines[iIndex]] whatever the call then returns; when the binding
    cannot be loaded it returns FALSE and leaves the device table as it
    was. *)
Theorem SetIntRoutine_records_callback ld i iIntRoutine s ok s1 :
  i < mCH341_MAX_NUMBER -> table_wf (tab s) ->
  LoadCH347DLL ld s = (ok, s1) ->
  let '(r, s') := CH341SetIntRoutine ld i iIntRoutine s in
  if ok then g_IntRoutines (tab s') !! N.to_nat i = Some iIntRoutine
  else r = false /\ tab s' = tab s.
Proof.
  intros Hi Hwf HL.
  destruct (LoadCH347DLL_cases _ _ _ _ HL) as (Ht & Hd & Htr & _).
  assert (Hlen : (N.to_nat i < length (g_IntRoutines (tab s1)))%nat).
  { rewrite Ht. destruct Hwf as (_&_&_&_&->&_). unfold mCH341_MAX_NUMBER in *.
    lia. }
  unfold CH341SetIntRoutine; unfold_m.
  apply N.leb_gt in Hi. rewrite Hi, HL. destruct ok; cbn; [|auto].
  repeat (case_step; cbn); apply list_lookup_insert_eq, Hlen.
Qed.

(** ** GPIO input *)

(** C8.  Whenever [CH341GetInput] succeeds, the value it stores in
    [*iStatus] is the data byte reported by [CH347GPIO_Get], an 8-bit
    quantity: it is below 256 and every bit from bit 8 upwards is zero. *)
Theorem GetInput_status_high_bits_zero ld i iStatus s ok st s' :
  CH341GetInput ld i iStatus s = ((ok, st), s') -> ok = true ->
  exists v,
    st = Some v /\ v < 256 /\ N.shiftr v 8 = 0 /\
    (forall n, 8 <= n -> N.testbit v n = false) /\
    exists s1 f,
      LoadCH347DLL ld s = (true, s1) /\
      fp_CH347GPIO_Get (fp s1) = Some f /\
      let data := snd (fst (f i (drv s1))) in
      v = to_uchar data /\ (data < 256 -> v = data).
Proof.
  unfold CH341GetInput; unfold_m.
  destruct (LoadCH347DLL ld s) as [[|] s1] eqn:HL; cbn; [|congruence].
  destruct (fp_CH347GPIO_Get (fp s1)) as [f|] eqn:Hf; cbn; [|congruence].
  destruct iStatus; cbn; [|congruence].
  destruct (f i (drv s1)) as [[[r dir] data] d] eqn:Hcall; cbn.
  destruct r; cbn; [|congruence].
  intros [= <- <- <-] _. exists (to_uchar data).
  split; [reflexivity|]. split; [apply to_uchar_lt|].
  split; [apply to_uchar_shiftr|]. split; [intros; now apply to_uchar_high_bits|].
  exists s1, f. rewrite Hcall. cbn.
  repeat split; auto. intros Hd. now apply to_uchar_small.
Qed.

(** ** Stream mode *)

(** C10.  If the binding is loaded but [CH347I2C_Set] is unresolved,
    [CH341SetStream] on a valid index stores the whole mode word in
    [g_StreamMode[iIndex]] and returns TRUE without calling the driver. *)
Theorem SetStream_without_I2C_Set ld i iMode s s1 :
  i < mCH341_MAX_NUMBER -> table_wf (tab s) ->
  LoadCH347DLL ld s = (true, s1) ->
  fp_CH347I2C_Set (fp s1) = None ->
  let '(r, s') := CH341SetStream ld i iMode s in
  r = true /\
  g_StreamMode (tab s') !! N.to_nat i = Some iMode /\
  trace s' = trace s /\ drv s' = drv s.
Proof.
  intros Hi Hwf HL Hf.
  destruct (LoadCH347DLL_cases _ _ _ _ HL) as (Ht & Hd & Htr & _).
  unfold CH341SetStream; unfold_m.
  apply N.leb_gt in Hi. rewrite HL; cbn. rewrite Hi, Hf; cbn.
  repeat split; auto.
  apply list_lookup_insert_eq. rewrite Ht.
  destruct Hwf as (_&_&->&_). apply N.leb_gt in Hi.
  unfold mCH341_MAX_NUMBER in *. lia.
Qed.

(** ** Write then read *)

Lemma read_loop_partial fr i step n : forall pBuf tot mem s,
  let answers := read_answers fr i step n (drv s) in
  let good := successful_prefix answers in
  let issued := Nat.min n (S (length good)) in
  let '((total, mem'), s') := read_loop fr i step n pBuf tot mem s in
  total = bytes_from tot good /\
  trace s' = trace s ++ replicate issued (CH347ReadData i true (Some step)) /\
  mem' = mem ++ stores_at pBuf (take issued answers) /\
  tab s' = tab s.
Proof.
  induction n as [|n IH]; intros pBuf tot mem s; cbn [read_loop read_answers];
    unfold_m.
  - cbn. rewrite !app_nil_r. auto.
  - destruct (fr i true (Some step) (drv s)) as [[[ok data] len] d]; cbn.
    destruct ok; cbn.
    + specialize (IH (pBuf + to_ulong len) (to_ulong (tot + to_ulong len))
                     (mem ++ [(pBuf, data)])
                     (set_drv_log d (CH347ReadData i true (Some step)) s)).
      cbn in IH. destruct (read_loop _ _ _ _ _ _ _ _) as [[total mem'] s'].
      destruct IH as (-> & -> & -> & ->). rewrite <- !app_assoc. auto.
    + rewrite Nat.min_comm. cbn. auto.
Qed.

(** C6.  With the binding loaded, both transfer symbols resolved and a write
    phase that does not fail, [CH341WriteRead] with an output buffer issues
    the write (one [CH347WriteData] call when [iWriteLength > 0]) and then
    reads of [iReadStep] bytes, at most [iReadTimes] of them, stopping after
    the first one that fails; each read stores into the output buffer just
    past the bytes of the reads before it.  It returns TRUE and stores in
    [*oReadLength] the bytes delivered by the reads before that failure.  Against a driver
    that delivers 4 bytes per read and fails on the third, a call with
    [iReadStep = 4] and [iReadTimes = 3] reports 8 bytes and TRUE. *)
Theorem WriteRead_partial_total ld i iWriteLength iWriteBuffer iReadStep
    iReadTimes s s1 fw fr :
  LoadCH347DLL ld s = (true, s1) ->
  fp_CH347WriteData (fp s1) = Some fw ->
  fp_CH347ReadData (fp s1) = Some fr ->
  (0 < iWriteLength ->
   fst (fst (fw i iWriteBuffer (Some iWriteLength) (drv s1))) = true) ->
  0 < iReadStep -> 0 < iReadTimes ->
  let write_calls :=
    if 0 <? iWriteLength
    then [CH347WriteData i iWriteBuffer (Some iWriteLength)] else [] in
  let d1 :=
    if 0 <? iWriteLength
    then snd (fw i iWriteBuffer (Some iWriteLength) (drv s1)) else drv s1 in
  let answers := read_answers fr i iReadStep (N.to_nat iReadTimes) d1 in
  let good := successful_prefix answers in
  let issued := Nat.min (N.to_nat iReadTimes) (S (length good)) in
  let '((r, total, mem), s') :=
    CH341WriteRead ld i iWriteLength iWriteBuffer iReadStep iReadTimes
                   true true s in
  r = true /\ total = Some (bytes_from 0 good) /\
  trace s' =
    trace s ++ write_calls ++
    replicate issued (CH347ReadData i true (Some iReadStep)) /\
  mem = stores_at 0 (take issued answers) /\
  (length good <= N.to_nat iReadTimes)%nat.
Proof.
  intros HL Hfw Hfr Hw Hstep Htimes.
  destruct (LoadCH347DLL_cases _ _ _ _ HL) as (Ht & Hd & Htr & _).
  assert (Hlen : forall n d,
    (length (successful_prefix (read_answers fr i iReadStep n d)) <= n)%nat).
  { induction n as [|n IH]; intros d; cbn; [lia|].
    destruct (fr _ _ _ d) as [[[ok data] len] d']; cbn.
    destruct ok; cbn; [specialize (IH d')|]; lia. }
  unfold CH341WriteRead; unfold_m. rewrite HL; cbn. rewrite Hfw, Hfr; cbn.
  unfold PULONG, PVOID_in, PVOID_out, ULONG, UCHAR, BOOL in *.
  apply N.ltb_lt in Hstep, Htimes. rewrite Hstep, Htimes; cbn.
  destruct (0 <? iWriteLength) eqn:Hwl; cbn.
  - apply N.ltb_lt in Hwl. specialize (Hw Hwl).
    destruct (fw i iWriteBuffer (Some iWriteLength) (drv s1)) as [[w wlen] d].
    cbn in Hw. subst w. cbn.
    pose proof (read_loop_partial fr i iReadStep (N.to_nat iReadTimes) 0 0 []
      (set_drv_log d (CH347WriteData i iWriteBuffer (Some iWriteLength)) s1))
      as Hloop.
    cbn in Hloop. destruct (read_loop _ _ _ _ _ _ _ _) as [[total mem] s'].
    destruct Hloop as (-> & -> & -> & _). cbn. rewrite Htr, <- app_assoc.
    repeat split; auto.
  - pose proof (read_loop_partial fr i iReadStep (N.to_nat iReadTimes) 0 0 []
      s1) as Hloop.
    cbn in Hloop. destruct (read_loop _ _ _ _ _ _ _ _) as [[total mem] s'].
    destruct Hloop as (-> & -> & -> & _). cbn. rewrite Htr.
    repeat split; auto.
Qed.

(** ** Index validation *)

(** C1 (as amended).  For a device index of [mCH341_MAX_NUMBER] or more,
    every operation that indexes a per-device array (open, close, reset,
    name query, stream mode, the SPI transfers, interrupt registration and
    reset, the buffer bookkeeping, notification registration, and the
    extended aliases) returns its failure value (nothing, for the [VOID]
    close) without calling the driver and without changing the device
    table. *)
Theorem out_of_range_index_fails_closed ld op i s :
  op_index op = Some i -> mCH341_MAX_NUMBER <= i -> checks_index op = true ->
  let '(r, s') := exec ld op s in
  r = failure_sentinel op /\
  tab s' = tab s /\ trace s' = trace s /\ drv s' = drv s.
Proof.
  intros Hop Hi Hchk. apply N.leb_le in Hi.
  destruct op; try discriminate Hchk; injection Hop as ->;
    cbn [exec failure_sentinel];
    unfold CH341ResetDevice, CH341ResetInter; unfold_ops; unfold_m;
    rewrite ?Hi; cbn; auto;
    destruct (LoadCH347DLL ld s) as [[|] s1] eqn:HL;
    apply LoadCH347DLL_cases in HL as (?&?&?&_); cbn; rewrite ?Hi; cbn; auto.
Qed.

(** ** Close *)

Lemma CloseDevice_closes s i :
  binding_inv s -> i < mCH341_MAX_NUMBER ->
  slot_closed (snd (CH341CloseDevice i s)) i.
Proof.
  intros (Hwf & Hrdy & Hnot) Hi.
  assert (Hn : (N.to_nat i < N.to_nat mCH341_MAX_NUMBER)%nat) by lia.
  destruct Hwf as (Hh & _ & _ & Hs & _).
  apply N.leb_gt in Hi.
  unfold CH341CloseDevice, slot_closed; unfold_m. rewrite Hi.
  destruct (fp_CH347CloseDevice (fp s)) as [f|] eqn:Hf; cbn.
  - destruct (f i (drv s)) as [r d]; cbn.
    split; apply list_lookup_insert_eq; unfold HANDLE, BOOL in *; lia.
  - destruct (g_bInitialized s).
    + destruct (Hrdy eq_refl) as [_ [? ?]]. congruence.
    + destruct (Hnot eq_refl) as [-> ->].
      split; apply lookup_replicate_2, Hn.
Qed.

Lemma CloseDevice_twice_same_table s i :
  tab (snd (CH341CloseDevice i (snd (CH341CloseDevice i s)))) =
  tab (snd (CH341CloseDevice i s)).
Proof.
  unfold CH341CloseDevice; unfold_m.
  destruct (mCH341_MAX_NUMBER <=? i) eqn:Hi; cbn; [reflexivity|].
  destruct (fp_CH347CloseDevice (fp s)) as [f|] eqn:Hf; cbn.
  - destruct (f i (drv s)) as [r d]; cbn. rewrite Hf; cbn.
    destruct (f i d) as [r' d']; cbn.
    unfold set_SPIInitialized, set_DeviceHandles; cbn.
    rewrite !list_insert_insert_eq. reflexivity.
  - rewrite Hf. reflexivity.
Qed.

(** C9.  In every reachable state, closing a device twice in a row leaves
    the device table after the second close exactly as it was after the
    first, and for a valid index the slot is closed (null handle, SPI not
    initialised) after each of the two calls.  [CH341CloseDevice] returns
    nothing, so neither call can report a failure. *)
Theorem CloseDevice_idempotent s i :
  reachable s ->
  let s1 := snd (CH341CloseDevice i s) in
  let s2 := snd (CH341CloseDevice i s1) in
  tab s2 = tab s1 /\
  (i < mCH341_MAX_NUMBER -> slot_closed s1 i /\ slot_closed s2 i).
Proof.
  intros Hr. cbn zeta. split; [apply CloseDevice_twice_same_table|].
  intros Hi. apply reachable_binding_inv in Hr.
  pose proof (CloseDevice_closes s i Hr Hi) as H1.
  split; [exact H1|].
  unfold slot_closed. rewrite CloseDevice_twice_same_table. exact H1.
Qed.

(** ** Lazy SPI initialisation *)

Ltac load_plain :=
  match goal with
  | |- context [LoadCH347DLL ?ld ?s] =>
      let ok := fresh "ok" in let s1 := fresh "s" in let H := fresh "HL" in
      destruct (LoadCH347DLL ld s) as [ok s1] eqn:H;
      apply LoadCH347DLL_cases in H;
      destruct H as (?&?&?&_); destruct ok
  end.

Ltac flag_solve :=
  unfold spi_flag in *; cbn;
  repeat match goal with H : tab _ = tab _ |- _ => rewrite H; clear H end;
  try assumption;
  match goal with
  | |- <[N.to_nat ?j := ?b]> ?l !! N.to_nat ?i = Some true =>
      destruct (N.eq_dec j i) as [->|Hne];
      [ first [ apply list_lookup_insert_eq; eapply lookup_lt_Some; eassumption
              | exfalso;
                match goal with
                | H : (?i =? ?i) = false |- _ =>
                    rewrite N.eqb_refl in H; discriminate H
                end ]
      | rewrite list_lookup_insert_ne
          by (intros E; apply N2Nat.inj in E; congruence);
        assumption ]
  end.

Ltac basic_flag :=
  let s := fresh "s" in let Hs := fresh "Hs" in
  intros s Hs; unfold_ops; unfold_m; cbn;
  repeat (first [load_plain | case_step]; cbn); flag_solve.

Lemma OpenDevice_keeps_spi_flag ld i j :
  preserves (fun s => spi_flag s i = Some true) (CH341OpenDevice ld j).
Proof. basic_flag. Qed.

Lemma CloseDevice_keeps_spi_flag i j :
  (j =? i) = false ->
  preserves (fun s : @State D => spi_flag s i = Some true) (CH341CloseDevice j).
Proof. intros Hj. basic_flag. Qed.

Lemma AbortInter_keeps_spi_flag ld i j :
  preserves (fun s => spi_flag s i = Some true) (CH341AbortInter ld j).
Proof. basic_flag. Qed.

Lemma SetIntRoutine_keeps_spi_flag ld i j r :
  preserves (fun s => spi_flag s i = Some true) (CH341SetIntRoutine ld j r).
Proof. basic_flag. Qed.

Lemma WriteRead_keeps_spi_flag ld i j wl wb rs rt ol ob :
  preserves (fun s => spi_flag s i = Some true)
            (CH341WriteRead ld j wl wb rs rt ol ob).
Proof.
  intros s Hs. unfold CH341WriteRead; unfold_m. load_plain; cbn; [|flag_solve].
  repeat (case_step; cbn); try flag_solve.
  all: match goal with
       | H : read_loop _ _ _ _ _ _ _ _ = _ |- _ =>
           apply read_loop_frame in H; cbn in H; destruct H as (_ & _ & Ht)
       end; flag_solve.
Qed.

(** Once set, the SPI flag of a slot survives every exported function
    except a close (or reset) of that slot. *)
Lemma exec_keeps_spi_flag ld op i :
  closes_slot op i = false ->
  preserves (fun s => spi_flag s i = Some true) (exec ld op).
Proof.
  intros Hc.
  destruct op; cbn [exec closes_slot] in *; apply preserves_returning;
    try basic_flag.
  - unfold CH341ResetDevice. destruct (_ <=? _); [apply preserves_ret|].
    apply preserves_bind; [now apply CloseDevice_keeps_spi_flag|intros _].
    apply preserves_bind; [apply OpenDevice_keeps_spi_flag|intros h].
    apply preserves_ret.
  - apply WriteRead_keeps_spi_flag.
  - unfold CH341ResetInter. destruct (_ <=? _); [apply preserves_ret|].
    apply preserves_bind; [apply AbortInter_keeps_spi_flag|intros _].
    intros s Hs. unfold bind, gets. cbn.
    destruct (negb _); [apply SetIntRoutine_keeps_spi_flag, Hs | exact Hs].
Qed.

Lemma calls_since_app s s' l : trace s' = trace s ++ l -> calls_since s s' = l.
Proof. intros H. unfold calls_since. rewrite H. apply drop_app_length. Qed.

Lemma calls_since_same s s' : trace s' = trace s -> calls_since s s' = [].
Proof.
  intros H. apply calls_since_app. rewrite app_nil_r. exact H.
Qed.

(** C2 (as amended).  In a reachable state, for a valid index and with the
    binding loaded:
    - a [CH341StreamSPI4] on a slot whose SPI flag is clear makes exactly
      one [CH347SPI_Init] call, as its first driver call; if that call
      succeeds the flag is set and at most one call follows, the data
      transfer; if it fails the transfer returns FALSE with no further call
      and the flag stays clear, so the next transfer tries again; if the
      initialisation symbol is unresolved the transfer returns FALSE without
      any call;
    - a [CH341StreamSPI4] on a slot whose flag is set makes no
      [CH347SPI_Init] call and leaves the flag set;
    - the flag, once set, survives every exported function other than a
      close or reset of that slot, and is clear after a close of the slot
      (as it is at process start). *)
Theorem StreamSPI4_lazy_initialisation ld i iChipSelect iLength ioBuffer s s1 :
  reachable s -> i < mCH341_MAX_NUMBER ->
  LoadCH347DLL ld s = (true, s1) ->
  let cfg := CH341_SpiCfg iChipSelect in
  (let '((r, out), s') :=
     CH341StreamSPI4 ld i iChipSelect iLength ioBuffer s in
   let calls := calls_since s s' in
   match spi_flag s i with
   | Some true => filter is_SPI_Init calls = [] /\ spi_flag s' i = Some true
   | _ =>
       match fp_CH347SPI_Init (fp s1) with
       | None => r = false /\ calls = [] /\ spi_flag s' i = Some false
       | Some init =>
           if fst (init i cfg (drv s1)) then
             spi_flag s' i = Some true /\
             exists data,
               calls = CH347SPI_Init i cfg :: data /\
               forallb is_SPI_data data = true /\ (length data <= 1)%nat
           else
             r = false /\ calls = [CH347SPI_Init i cfg] /\
             spi_flag s' i = Some false
       end
   end) /\
  (forall ld' op,
     closes_slot op i = false -> spi_flag s i = Some true ->
     spi_flag (snd (exec ld' op s)) i = Some true) /\
  spi_flag (snd (CH341CloseDevice i s)) i = Some false /\
  (forall d : D, spi_flag (initial_state d) i = Some false).
Proof.
  intros Hr Hi HL cfg. apply reachable_binding_inv in Hr.
  destruct (LoadCH347DLL_cases _ _ _ _ HL) as (Ht & Hd & Htr & _).
  assert (Hn : (N.to_nat i < N.to_nat mCH341_MAX_NUMBER)%nat) by lia.
  assert (Hlen : (N.to_nat i < length (g_SPIInitialized (tab s)))%nat).
  { destruct Hr as ((_&_&_&->&_)&_). exact Hn. }
  split; [|split; [|split]].
  - unfold CH341StreamSPI4, InitSPIForCH341, spi_flag, at_index; unfold_m.
    rewrite HL; cbn. apply N.leb_gt in Hi. rewrite Hi, Ht; cbn.
    destruct (lookup_lt_is_Some_2 _ _ Hlen) as [b Hb]. rewrite Hb; cbn.
    destruct b; cbn.
    + repeat (case_step; cbn); rewrite Ht, Hb; (split; [|reflexivity]);
        first [ erewrite calls_since_app by (cbn; rewrite Htr; reflexivity)
              | rewrite calls_since_same by (cbn; rewrite Htr; reflexivity) ];
        reflexivity.
    + fold cfg. destruct (fp_CH347SPI_Init (fp s1)) as [init|]; cbn.
      * destruct (init i cfg (drv s1)) as [ok d]; cbn. destruct ok; cbn.
        -- repeat (case_step; cbn);
             (split; [rewrite Ht; apply list_lookup_insert_eq, Hlen|]).
           ++ eexists [_].
              split; [apply calls_since_app; cbn; rewrite Htr, <- app_assoc;
                      reflexivity|].
              split; [reflexivity|cbn; lia].
           ++ eexists [_].
              split; [apply calls_since_app; cbn; rewrite Htr, <- app_assoc;
                      reflexivity|].
              split; [reflexivity|cbn; lia].
           ++ exists [].
              split; [apply calls_since_app; cbn; rewrite Htr; reflexivity|].
              split; [reflexivity|cbn; lia].
        -- rewrite Ht, Hb. repeat split.
           apply calls_since_app. cbn. rewrite Htr. reflexivity.
      * rewrite Ht, Hb. repeat split.
        apply calls_since_same. rewrite Htr. reflexivity.
  - intros ld' op Hc Hs. now apply (exec_keeps_spi_flag ld' op i Hc s).
  - apply (CloseDevice_closes s i Hr Hi).
  - intros d. unfold spi_flag. cbn. apply lookup_replicate_2, Hn.
Qed.

(** ** Reset *)

(** For a valid index a reset is a close followed by an open, and it
    reports whether the handle returned by the open differs from
    [INVALID_HANDLE_VALUE]. *)
Lemma ResetDevice_close_then_open ld i s :
  i < mCH341_MAX_NUMBER ->
  CH341ResetDevice ld i s =
  let '(h, s') := CH341OpenDevice ld i (snd (CH341CloseDevice i s)) in
  (negb (h =? INVALID_HANDLE_VALUE)%Z, s').
Proof.
  intros Hi. apply N.leb_gt in Hi. unfold CH341ResetDevice; unfold_m.
  rewrite Hi. destruct (CH341CloseDevice i s) as [[] s1]; cbn.
  destruct (CH341OpenDevice ld i s1) as [h s2]. reflexivity.
Qed.

(** ** Bit masks *)

Lemma land_pow2 (x n : N) :
  N.land x (2 ^ n) = if N.testbit x n then 2 ^ n else 0.
Proof.
  apply N.bits_inj. intros m. rewrite N.land_spec, N.pow2_bits_eqb.
  destruct (N.eqb_spec n m) as [<-|Hne].
  - destruct (N.testbit x n);
      rewrite ?N.pow2_bits_true, ?N.bits_0; reflexivity.
  - rewrite andb_false_r.
    destruct (N.testbit x n);
      rewrite ?N.bits_0, ?N.pow2_bits_false by exact Hne; reflexivity.
Qed.

Lemma land_bit_test (x n : N) :
  negb (N.land x (2 ^ n) =? 0) = N.testbit x n.
Proof.
  rewrite land_pow2. destruct (N.testbit x n); [|reflexivity].
  destruct (N.eqb_spec (2 ^ n) 0) as [H|H]; [|reflexivity].
  apply N.pow_nonzero in H; [contradiction | discriminate].
Qed.

Lemma to_uchar_low_byte (x : N) : to_uchar (N.land x 0xFF) = x mod 256.
Proof.
  change 0xFF with (N.ones 8). rewrite N.land_ones, to_uchar_mod.
  apply N.Div0.mod_mod.
Qed.

Lemma to_uchar_low_six (x : N) : to_uchar (N.land x 0x3F) = x mod 64.
Proof.
  change 0x3F with (N.ones 6). rewrite N.land_ones. apply to_uchar_small.
  change (2 ^ 6) with 64.
  pose proof (N.mod_lt x 64 ltac:(discriminate)). lia.
Qed.

(** ** GPIO output *)

(** X1.  With the binding loaded and [CH347GPIO_Set] resolved,
    [CH341SetOutput] makes exactly one driver call, with all eight pins
    enabled.  The data byte it forwards is the low byte of [iSetDataOut]
    when bit 2 of [iEnable] is set and 0 otherwise; the direction byte is
    the low byte of [iSetDirOut] when bit 3 of [iEnable] is set and 0
    otherwise.  No other bit of [iEnable], and no other bit of the two
    words, has any influence.  The call's result is returned and the device
    table is untouched, whatever the index. *)
Theorem SetOutput_gates_data_and_direction ld i iEnable iSetDirOut
    iSetDataOut s s1 f :
  LoadCH347DLL ld s = (true, s1) ->
  fp_CH347GPIO_Set (fp s1) = Some f ->
  let dataOut := if N.testbit iEnable 2 then iSetDataOut mod 256 else 0 in
  let dirOut := if N.testbit iEnable 3 then iSetDirOut mod 256 else 0 in
  let '(r, s') := CH341SetOutput ld i iEnable iSetDirOut iSetDataOut s in
  let call := f i 0xFF dirOut dataOut (drv s1) in
  trace s' = trace s ++ [CH347GPIO_Set i 0xFF dirOut dataOut] /\
  r = fst call /\ drv s' = snd call /\ tab s' = tab s.
Proof.
  intros HL Hf.
  destruct (LoadCH347DLL_cases _ _ _ _ HL) as (Ht & Hd & Htr & _).
  unfold CH341SetOutput; unfold_m. rewrite HL; cbn. rewrite Hf; cbn.
  change 4 with (2 ^ 2). change 8 with (2 ^ 3).
  rewrite !land_bit_test, !to_uchar_low_byte.
  destruct (N.testbit iEnable 2), (N.testbit iEnable 3); cbn;
    match goal with
    | |- context [f ?a ?b ?c ?d ?e] => destruct (f a b c d e) as [r d']
    end; cbn; rewrite Htr, Ht; auto.
Qed.

(** X2.  With the binding loaded and [CH347GPIO_Set] resolved,
    [CH341Set_D5_D0] makes exactly one driver call whose enable mask is
    0x3F and whose direction and data bytes are the arguments reduced to
    their low six bits, so pins 6 and 7 are never enabled, driven or
    redirected.  The call's result is returned. *)
Theorem Set_D5_D0_masks_to_six_pins ld i iSetDirOut iSetDataOut s s1 f :
  LoadCH347DLL ld s = (true, s1) ->
  fp_CH347GPIO_Set (fp s1) = Some f ->
  let dirOut := iSetDirOut mod 64 in
  let dataOut := iSetDataOut mod 64 in
  let '(r, s') := CH341Set_D5_D0 ld i iSetDirOut iSetDataOut s in
  let call := f i 0x3F dirOut dataOut (drv s1) in
  trace s' = trace s ++ [CH347GPIO_Set i 0x3F dirOut dataOut] /\
  r = fst call /\ drv s' = snd call /\ tab s' = tab s /\
  N.testbit dirOut 6 = false /\ N.testbit dirOut 7 = false /\
  N.testbit dataOut 6 = false /\ N.testbit dataOut 7 = false.
Proof.
  intros HL Hf.
  destruct (LoadCH347DLL_cases _ _ _ _ HL) as (Ht & Hd & Htr & _).
  assert (Hbits : forall x n, 6 <= n -> N.testbit (x mod 64) n = false).
  { intros x n Hn. change 64 with (2 ^ 6). apply N.mod_pow2_bits_high, Hn. }
  unfold CH341Set_D5_D0; unfold_m. rewrite HL; cbn. rewrite Hf; cbn.
  rewrite !to_uchar_low_six.
  destruct (f i 0x3F (iSetDirOut mod 64) (iSetDataOut mod 64) (drv s1))
    as [r d']; cbn.
  rewrite Htr, Ht. repeat split; auto; apply Hbits; lia.
Qed.

(** ** Stream mode with the speed symbol resolved *)

(** X3.  With the binding loaded and [CH347I2C_Set] resolved,
    [CH341SetStream] on a valid index stores the whole mode word in the
    slot and makes exactly one driver call, [CH347I2C_Set] with the mode's
    two low bits; it returns that call's result, and the mode stays stored
    even when the call fails. *)
Theorem SetStream_forwards_two_speed_bits ld i iMode s s1 f :
  i < mCH341_MAX_NUMBER -> table_wf (tab s) ->
  LoadCH347DLL ld s = (true, s1) ->
  fp_CH347I2C_Set (fp s1) = Some f ->
  let '(r, s') := CH341SetStream ld i iMode s in
  let call := f i (iMode mod 4) (drv s1) in
  trace s' = trace s ++ [CH347I2C_Set i (iMode mod 4)] /\
  r = fst call /\ iMode mod 4 < 4 /\
  g_StreamMode (tab s') !! N.to_nat i = Some iMode.
Proof.
  intros Hi Hwf HL Hf.
  destruct (LoadCH347DLL_cases _ _ _ _ HL) as (Ht & Hd & Htr & _).
  assert (Hlen : (N.to_nat i < length (g_StreamMode (tab s1)))%nat).
  { rewrite Ht. destruct Hwf as (_&_&->&_). unfold mCH341_MAX_NUMBER in *.
    lia. }
  unfold CH341SetStream; unfold_m.
  apply N.leb_gt in Hi. rewrite HL; cbn. rewrite Hi, Hf; cbn.
  change 3 with (N.ones 2). rewrite N.land_ones. change (2 ^ 2) with 4.
  destruct (f i (iMode mod 4) (drv s1)) as [r d']; cbn.
  rewrite Htr. repeat split; auto.
  - apply N.mod_lt. discriminate.
  - apply list_lookup_insert_eq, Hlen.
Qed.

(** ** Interrupt status read *)

(** X4.  Whenever [CH341ReadInter] succeeds it has made exactly one
    [CH347ReadInter] call and the value it stores in [*iStatus] is the first
    byte of the status bytes that call delivered, widened to [ULONG]: below
    256, the other seven bytes being dropped. *)
Theorem ReadInter_status_is_first_byte ld i iStatus s ok st s' :
  CH341ReadInter ld i iStatus s = ((ok, st), s') -> ok = true ->
  exists v s1 f,
    st = Some v /\ v < 256 /\
    LoadCH347DLL ld s = (true, s1) /\
    fp_CH347ReadInter (fp s1) = Some f /\
    v = to_uchar (default 0 (head (snd (fst (f i (drv s1)))))) /\
    trace s' = trace s ++ [CH347ReadInter i] /\ tab s' = tab s.
Proof.
  unfold CH341ReadInter; unfold_m.
  destruct (LoadCH347DLL ld s) as [[|] s1] eqn:HL; cbn; [|congruence].
  destruct (LoadCH347DLL_cases _ _ _ _ HL) as (Ht & Hd & Htr & _).
  destruct (fp_CH347ReadInter (fp s1)) as [f|] eqn:Hf; cbn; [|congruence].
  destruct iStatus; cbn; [|congruence].
  destruct (f i (drv s1)) as [[r bytes] d] eqn:Hcall; cbn.
  destruct r; cbn; [|congruence].
  intros [= <- <- <-] _. exists (to_uchar (default 0 (head bytes))), s1, f.
  rewrite Hcall; cbn. rewrite Htr, Ht.
  repeat split; auto. apply to_uchar_lt.
Qed.

(** ** Driver version *)

(** X5.  [CH341GetDrvVersion] always asks about device 0.  It returns 0
    without calling the driver when the binding cannot be loaded or
    [CH347GetVersion] is unresolved; otherwise it makes one call and returns
    the driver-version byte (below 256) when the call succeeds and the
    default 0x0350 when it fails.  The device table is never touched. *)
Theorem GetDrvVersion_values ld s :
  let '(ok, s1) := LoadCH347DLL ld s in
  let '(r, s') := CH341GetDrvVersion ld s in
  tab s' = tab s /\
  match ok, fp_CH347GetVersion (fp s1) with
  | true, Some f =>
      let '(okv, (driverVer, _, _, _)) := fst (f 0 (drv s1)) in
      trace s' = trace s ++ [CH347GetVersion 0] /\
      r = (if okv then to_uchar driverVer else 0x0350) /\
      (r < 256 \/ r = 0x0350)
  | _, _ => r = 0 /\ trace s' = trace s /\ drv s' = drv s
  end.
Proof.
  unfold CH341GetDrvVersion; unfold_m.
  destruct (LoadCH347DLL ld s) as [[|] s1] eqn:HL; cbn;
    destruct (LoadCH347DLL_cases _ _ _ _ HL) as (Ht & Hd & Htr & _); auto.
  destruct (fp_CH347GetVersion (fp s1)) as [f|]; cbn; auto.
  destruct (f 0 (drv s1)) as [[okv [[[dv dl] bd] ct]] d]; cbn.
  destruct okv; cbn; rewrite Htr; repeat split; auto.
  left. apply to_uchar_lt.
Qed.

(** ** Buffer flush *)

(** X6.  [CH341FlushBuffer] returns exactly what the binding resolver
    returns: TRUE whenever the binding loads, whether or not [CH347ReadData]
    is resolved and whatever the read reports.  When the symbol is resolved
    it drains with a single read of 512 bytes; it never touches the device
    table. *)
Theorem FlushBuffer_result_is_readiness ld i s :
  let '(ok, s1) := LoadCH347DLL ld s in
  let '(r, s') := CH341FlushBuffer ld i s in
  r = ok /\ tab s' = tab s /\
  calls_since s s' =
    (if ok && bool_decide (is_Some (fp_CH347ReadData (fp s1)))
     then [CH347ReadData i true (Some 512)] else []).
Proof.
  unfold CH341FlushBuffer; unfold_m.
  destruct (LoadCH347DLL ld s) as [[|] s1] eqn:HL; cbn;
    destruct (LoadCH347DLL_cases _ _ _ _ HL) as (Ht & Hd & Htr & _).
  - destruct (fp_CH347ReadData (fp s1)) as [f|]; cbn.
    + destruct (f _ _ _ _) as [a d]; cbn.
      repeat split; auto. apply calls_since_app. cbn. now rewrite Htr.
    + repeat split; auto. now apply calls_since_same.
  - repeat split; auto. now apply calls_since_same.
Qed.

(** ** Synthesised descriptors *)

(** X7.  The two descriptor queries neither read nor change any state and
    do not depend on the index.  Each succeeds exactly when both pointers
    are non-null and the caller's length is at least the descriptor size (18
    for the device descriptor, 9 for the configuration descriptor); on
    success it stores that many bytes, whose first byte is that size, and
    sets the length to it; on failure it stores nothing. *)
Theorem descriptor_queries_need_room (i : ULONG) oBuffer ioLength
    (s : @State D) :
  (let '((r, stored), s') := CH341GetDeviceDescr i oBuffer ioLength s in
   s' = s /\
   (r = true <-> oBuffer = true /\ exists len, ioLength = Some len /\ 18 <= len) /\
   (r = true ->
    exists bytes, stored = Some (bytes, 18) /\
                  N.of_nat (length bytes) = 18 /\ head bytes = Some 18) /\
   (r = false -> stored = None)) /\
  (let '((r, stored), s') := CH341GetConfigDescr i oBuffer ioLength s in
   s' = s /\
   (r = true <-> oBuffer = true /\ exists len, ioLength = Some len /\ 9 <= len) /\
   (r = true ->
    exists bytes, stored = Some (bytes, 9) /\
                  N.of_nat (length bytes) = 9 /\ head bytes = Some 9) /\
   (r = false -> stored = None)).
Proof.
  unfold CH341GetDeviceDescr, CH341GetConfigDescr; unfold_m.
  split;
    (destruct oBuffer, ioLength as [len|]; cbn;
     [match goal with
      | |- context [?a <? ?b] => destruct (N.ltb_spec a b) as [Hlt|Hge]; cbn
      end | | | ]);
    (split; [reflexivity|]);
    (split;
     [split;
      [intros Hr;
       first [discriminate Hr
             | split; [reflexivity
                      | eexists; split; [reflexivity | assumption]]]
      |intros (Hb & len' & Hl & Hle);
       first [reflexivity | discriminate Hb | discriminate Hl
             | injection Hl as <-; lia]]
     |split;
      [intros Hr;
       first [discriminate Hr | eexists; repeat split; reflexivity]
      |intros Hr; first [reflexivity | discriminate Hr]]]).
Qed.

(** ** Buffer bookkeeping *)

(** X8.  For a valid index the upload and download flags are independent
    one-bit stores: after [CH341SetBufUpload] with argument [e], the upload
    query answers 0 when [e] is non-zero and -1 when it is zero, while the
    download query answers as before; symmetrically for
    [CH341SetBufDownload].  Neither setter calls the driver or needs the
    binding. *)
Theorem buffer_flags_round_trip i e (s : @State D) :
  i < mCH341_MAX_NUMBER -> table_wf (tab s) ->
  (let '(r, s') := CH341SetBufUpload i e s in
   r = true /\ trace s' = trace s /\ drv s' = drv s /\ fp s' = fp s /\
   fst (CH341QueryBufUpload i s') = (if e =? 0 then (-1)%Z else 0%Z) /\
   fst (CH341QueryBufDownload i s') = fst (CH341QueryBufDownload i s)) /\
  (let '(r, s') := CH341SetBufDownload i e s in
   r = true /\ trace s' = trace s /\ drv s' = drv s /\ fp s' = fp s /\
   fst (CH341QueryBufDownload i s') = (if e =? 0 then (-1)%Z else 0%Z) /\
   fst (CH341QueryBufUpload i s') = fst (CH341QueryBufUpload i s)).
Proof.
  intros Hi (_&_&_&_&_&Hu&Hd&_).
  assert (Hn : (N.to_nat i < N.to_nat mCH341_MAX_NUMBER)%nat) by lia.
  apply N.leb_gt in Hi.
  unfold CH341SetBufUpload, CH341SetBufDownload, CH341QueryBufUpload,
    CH341QueryBufDownload, at_index; unfold_m.
  rewrite Hi; cbn. rewrite ?Hi; cbn.
  rewrite !list_lookup_insert_eq by (unfold BOOL in *; lia). cbn.
  destruct (e =? 0); cbn; repeat split; try reflexivity;
    match goal with
    | |- context [negb ?b] => destruct b; reflexivity
    end.
Qed.

(** ** Opening a device *)

(** X9.  When [CH341OpenDevice] returns a handle that is neither
    [INVALID_HANDLE_VALUE] nor null, the index was valid, exactly one
    [CH347OpenDevice] call was made, the handle is recorded in the slot and
    [CH341GetDeviceName] then returns the name ["CH347_"] followed by the
    index in decimal.  When it returns [INVALID_HANDLE_VALUE] or null the
    device table is left as it was. *)
Theorem OpenDevice_records_handle_and_name ld i s h s' :
  table_wf (tab s) ->
  CH341OpenDevice ld i s = (h, s') ->
  if negb (h =? INVALID_HANDLE_VALUE)%Z && negb (h =? NULL)%Z then
    i < mCH341_MAX_NUMBER /\
    trace s' = trace s ++ [CH347OpenDevice i] /\
    g_DeviceHandles (tab s') !! N.to_nat i = Some h /\
    fst (CH341GetDeviceName i s') =
      Some ("CH347_" +:+ NilEmpty.string_of_uint (N.to_uint i))
  else tab s' = tab s.
Proof.
  intros Hwf. unfold CH341OpenDevice; unfold_m.
  destruct (LoadCH347DLL ld s) as [[|] s1] eqn:HL; cbn;
    destruct (LoadCH347DLL_cases _ _ _ _ HL) as (Ht & Hd & Htr & _);
    [|intros [= <- <-]; cbn; exact Ht].
  destruct (mCH341_MAX_NUMBER <=? i) eqn:Hi; cbn;
    [intros [= <- <-]; cbn; exact Ht|].
  destruct (fp_CH347OpenDevice (fp s1)) as [f|]; cbn;
    [|intros [= <- <-]; cbn; exact Ht].
  destruct (f i (drv s1)) as [h0 d]; cbn.
  destruct (negb (h0 =? INVALID_HANDLE_VALUE)%Z && negb (h0 =? NULL)%Z)
    eqn:Hv; cbn; intros [= <- <-]; rewrite Hv; cbn; [|exact Ht].
  apply N.leb_gt in Hi.
  assert (Hn : (N.to_nat i < N.to_nat mCH341_MAX_NUMBER)%nat) by lia.
  destruct Hwf as (Hh & Hnm & _). rewrite <- Ht in Hh, Hnm.
  assert (Hlk : <[N.to_nat i:=h0]> (g_DeviceHandles (tab s1)) !! N.to_nat i
                = Some h0)
    by (apply list_lookup_insert_eq; unfold HANDLE in *; lia).
  split; [exact Hi|]. split; [now rewrite Htr|]. split; [exact Hlk|].
  unfold CH341GetDeviceName, at_index; unfold_m.
  apply N.leb_gt in Hi. rewrite Hi; cbn. rewrite Hlk; cbn.
  apply andb_prop in Hv as [_ Hnull]. apply negb_true_iff in Hnull.
  rewrite Hnull; cbn.
  rewrite list_lookup_insert_eq by lia. reflexivity.
Qed.

(** ** Operations without a binding *)

(** X10.  When the binding cannot be loaded, every operation that needs it
    (open, the version queries, timeout, flush, stream mode and delay, the
    I2C, EEPROM, SPI, GPIO and data transfers, interrupt registration, read
    and abort, notification registration) returns its failure value without
    calling the driver and without changing the device table: nothing is
    recorded, not even a stream mode or a callback. *)
Theorem binding_unavailable_fails_closed ld op s :
  requires_binding op = true -> fst (LoadCH347DLL ld s) = false ->
  let '(r, s') := exec ld op s in
  r = failure_sentinel op /\
  tab s' = tab s /\ trace s' = trace s /\ drv s' = drv s.
Proof.
  intros Hreq Hfail.
  destruct (LoadCH347DLL ld s) as [ok s1] eqn:HL. cbn in Hfail. subst ok.
  destruct (LoadCH347DLL_cases _ _ _ _ HL) as (Ht & Hd & Htr & _).
  destruct op; try discriminate Hreq; cbn [exec failure_sentinel];
    unfold CH341WriteRead; unfold_ops; unfold_m; cbn;
    try (destruct (mCH341_MAX_NUMBER <=? _); cbn; [auto|]);
    rewrite HL; cbn; auto.
Qed.

(** ** The binding resolver *)

Lemma LoadCH347DLL_ready ld s :
  g_bInitialized s = true -> LoadCH347DLL ld s = (true, s).
Proof.
  intros Hr. destruct (LoadCH347DLL ld s) as [ok s'] eqn:HL.
  destruct (LoadCH347DLL_cases _ _ _ _ HL) as (_ & _ & _ & Hok & Hsame & _).
  specialize (Hsame Hr). subst s'. rewrite Hr in Hok. subst ok. reflexivity.
Qed.


(** X12.  Once the binding is ready no exported function changes it: the
    readiness flag stays set and the module handle and all twenty-four
    function pointers keep their values, whatever the operation, its
    arguments and the loader. *)
Theorem binding_frozen_once_ready ld op s :
  g_bInitialized s = true ->
  let s' := snd (exec ld op s) in
  g_bInitialized s' = true /\ fp s' = fp s /\
  g_hCH347DLL s' = g_hCH347DLL s.
Proof.
  intros Hr. cbn zeta.
  set (P := fun s0 : @State D =>
              g_bInitialized s0 = true /\ fp s0 = fp s /\
              g_hCH347DLL s0 = g_hCH347DLL s).
  assert (Hloop : forall f i step n pBuf tot mem s0 r s0',
            read_loop f i step n pBuf tot mem s0 = (r, s0') -> P s0 -> P s0').
  { induction n as [|n IH]; intros pBuf tot mem s0 r s0'; cbn [read_loop];
      unfold_m.
    - intros [= <- <-]. auto.
    - destruct (f i true (Some step) (drv s0)) as [[[ok data] len] d].
      destruct ok; cbn.
      + intros H HP. eapply IH; [exact H|]. exact HP.
      + intros [= <- <-] HP. exact HP. }
  assert (Hbasic : forall op', op' <> OpResetDevice (default 0 (op_index op'))
            -> op' <> OpResetInter (default 0 (op_index op')) ->
            preserves P (exec ld op')).
  { intros op' Hn1 Hn2 s0 (Hr0 & Hf0 & Hh0).
    destruct op'; cbn in Hn1, Hn2; try congruence; cbn [exec];
      unfold CH341WriteRead; unfold_ops; unfold_m; cbn;
      repeat (first [rewrite (LoadCH347DLL_ready _ _ Hr0) | case_step]; cbn);
      try (split; [|split]; assumption).
    all: match goal with
         | H : read_loop _ _ _ _ _ _ _ _ = _ |- _ =>
             eapply Hloop; [exact H|]; split; [|split]; assumption
         end. }
  assert (HP : P s) by (split; [|split]; auto).
  change (P (snd (exec ld op s))).
  destruct op; try (apply Hbasic; [discriminate | discriminate | exact HP]).
  - pose proof (Hbasic (OpCloseDevice iIndex) ltac:(discriminate)
                  ltac:(discriminate) s HP) as H1.
    pose proof (Hbasic (OpOpenDevice iIndex) ltac:(discriminate)
                  ltac:(discriminate) _ H1) as H2.
    cbn [exec] in *. unfold CH341ResetDevice; unfold_m.
    destruct (mCH341_MAX_NUMBER <=? iIndex); cbn; [exact HP|].
    revert H1 H2. unfold_m.
    destruct (CH341CloseDevice iIndex s) as [[] s1]; cbn.
    destruct (CH341OpenDevice ld iIndex s1) as [h s2]; cbn. auto.
  - pose proof (Hbasic (OpAbortInter iIndex) ltac:(discriminate)
                  ltac:(discriminate) s HP) as H1.
    cbn [exec] in *. unfold CH341ResetInter; unfold_m.
    destruct (mCH341_MAX_NUMBER <=? iIndex); cbn; [exact HP|].
    revert H1. unfold_m.
    destruct (CH341AbortInter ld iIndex s) as [b s1]; cbn. intros H1.
    destruct (negb _); cbn; [|exact H1].
    pose proof (Hbasic (OpSetIntRoutine iIndex
                  (at_index (g_IntRoutines (tab s1)) iIndex 0))
                  ltac:(discriminate) ltac:(discriminate) _ H1) as H2.
    cbn [exec] in H2. revert H2. unfold_m.
    destruct (CH341SetIntRoutine _ _ _ _) as [b' s2]. auto.
Qed.

(** ** Slot isolation *)

Ltac tab_back :=
  repeat match goal with
         | H : read_loop _ _ _ _ _ _ _ _ = _ |- _ =>
             apply read_loop_frame in H; cbn in H; destruct H as (_ & _ & H)
         end;
  repeat match goal with
         | H : tab _ = tab _ |- _ => rewrite H; clear H
         end.

(** X13.  An exported function called for one device index never changes
    what the table holds for another: handle, name, stream mode, SPI flag,
    interrupt and notification callbacks and both buffer flags of every
    other slot are as before.  The two functions without an index argument
    change no slot at all. *)
Theorem other_slots_untouched ld op i s :
  op_index op <> Some i ->
  slot_view (tab (snd (exec ld op s))) (N.to_nat i)
  = slot_view (tab s) (N.to_nat i).
Proof.
  intros Hidx.
  set (P := fun s0 : @State D =>
              slot_view (tab s0) (N.to_nat i) = slot_view (tab s) (N.to_nat i)).
  assert (Hbasic : forall op', op' <> OpResetDevice (default 0 (op_index op'))
            -> op' <> OpResetInter (default 0 (op_index op')) ->
            op_index op' <> Some i -> preserves P (exec ld op')).
  { intros op' Hn1 Hn2 Hi' s0 HP. unfold P in *.
    destruct op'; cbn in Hn1, Hn2, Hi'; try congruence; cbn [exec];
      unfold CH341WriteRead; unfold_ops; unfold_m; cbn;
      repeat (first [load_plain | case_step]; cbn);
      tab_back; unfold slot_view in *; cbn;
      rewrite ?list_lookup_insert_ne
        by (intros E; apply N2Nat.inj in E; congruence);
      exact HP. }
  assert (HP : P s) by reflexivity.
  change (P (snd (exec ld op s))).
  destruct op;
    try (apply Hbasic; [discriminate | discriminate | exact Hidx | exact HP]).
  - pose proof (Hbasic (OpCloseDevice iIndex) ltac:(discriminate)
                  ltac:(discriminate) Hidx s HP) as H1.
    pose proof (Hbasic (OpOpenDevice iIndex) ltac:(discriminate)
                  ltac:(discriminate) Hidx _ H1) as H2.
    cbn [exec] in *. unfold CH341ResetDevice; unfold_m.
    destruct (mCH341_MAX_NUMBER <=? iIndex); cbn; [exact HP|].
    revert H1 H2. unfold_m.
    destruct (CH341CloseDevice iIndex s) as [[] s1]; cbn.
    destruct (CH341OpenDevice ld iIndex s1) as [h s2]; cbn. auto.
  - pose proof (Hbasic (OpAbortInter iIndex) ltac:(discriminate)
                  ltac:(discriminate) Hidx s HP) as H1.
    cbn [exec] in *. unfold CH341ResetInter; unfold_m.
    destruct (mCH341_MAX_NUMBER <=? iIndex); cbn; [exact HP|].
    revert H1. unfold_m.
    destruct (CH341AbortInter ld iIndex s) as [b s1]; cbn. intros H1.
    destruct (negb _); cbn; [|exact H1].
    pose proof (Hbasic (OpSetIntRoutine iIndex
                  (at_index (g_IntRoutines (tab s1)) iIndex 0))
                  ltac:(discriminate) ltac:(discriminate) Hidx _ H1) as H2.
    cbn [exec] in H2. revert H2. unfold_m.
    destruct (CH341SetIntRoutine _ _ _ _) as [b' s2]. auto.
Qed.

(** X14.  Only the functions that assign to a per-device array can change
    the device table.  Every other exported function (the version and
    descriptor queries, name and buffer queries, timeout, flush, delay, the
    I2C, EEPROM, GPIO and data transfers, interrupt read and abort, and all
    the unsupported or always-succeeding stubs) leaves the whole table as it
    found it, whatever the driver does. *)
Theorem read_only_operations_keep_table ld op s :
  writes_table op = false -> tab (snd (exec ld op s)) = tab s.
Proof.
  intros Hw.
  destruct op; try discriminate Hw; cbn [exec];
    unfold CH341WriteRead; unfold_ops; unfold_m; cbn;
    repeat (first [load_plain | case_step]; cbn);
    tab_back; reflexivity.
Qed.

(** ** Handles and names *)

Lemma names_inv_same s s' :
  g_DeviceHandles (tab s') = g_DeviceHandles (tab s) ->
  g_DeviceNames (tab s') = g_DeviceNames (tab s) ->
  names_inv s -> names_inv s'.
Proof. unfold names_inv. intros -> ->. auto. Qed.

Lemma names_inv_open s s' i h :
  g_DeviceHandles (tab s') = <[N.to_nat i := h]> (g_DeviceHandles (tab s)) ->
  g_DeviceNames (tab s')
  = <[N.to_nat i := device_name i]> (g_DeviceNames (tab s)) ->
  table_wf (tab s) -> h <> INVALID_HANDLE_VALUE ->
  names_inv s -> names_inv s'.
Proof.
  unfold names_inv. intros -> -> (Hh & Hn & _) Hv Hinv k h' Hk.
  destruct (decide (N.to_nat i = k)) as [<-|Hne].
  - assert (Hlt : (N.to_nat i < length (g_DeviceHandles (tab s)))%nat)
      by (apply lookup_lt_Some in Hk; now rewrite length_insert in Hk).
    rewrite list_lookup_insert_eq in Hk by exact Hlt.
    injection Hk as <-. split; [exact Hv|]. intros _.
    rewrite N2Nat.id. apply list_lookup_insert_eq.
    unfold HANDLE in *. lia.
  - rewrite list_lookup_insert_ne in Hk by exact Hne.
    rewrite list_lookup_insert_ne by exact Hne. auto.
Qed.

Lemma names_inv_close s s' i :
  g_DeviceHandles (tab s') = <[N.to_nat i := NULL]> (g_DeviceHandles (tab s)) ->
  g_DeviceNames (tab s') = g_DeviceNames (tab s) ->
  names_inv s -> names_inv s'.
Proof.
  unfold names_inv. intros -> -> Hinv k h' Hk.
  destruct (decide (N.to_nat i = k)) as [<-|Hne].
  - assert (Hlt : (N.to_nat i < length (g_DeviceHandles (tab s)))%nat)
      by (apply lookup_lt_Some in Hk; now rewrite length_insert in Hk).
    rewrite list_lookup_insert_eq in Hk by exact Hlt.
    injection Hk as <-. split; [discriminate|]. intros H. now destruct H.
  - rewrite list_lookup_insert_ne in Hk by exact Hne. auto.
Qed.

Lemma exec_names_inv ld op :
  preserves (fun s => binding_inv s /\ names_inv s) (exec ld op).
Proof.
  set (P := fun s : @State D => binding_inv s /\ names_inv s).
  assert (Hbasic : forall op', op' <> OpResetDevice (default 0 (op_index op'))
            -> op' <> OpResetInter (default 0 (op_index op')) ->
            preserves P (exec ld op')).
  { intros op' Hn1 Hn2 s0 (Hb & Hn).
    split; [now apply exec_binding_inv|].
    destruct Hb as (Hwf & _).
    destruct op'; cbn in Hn1, Hn2; try congruence; cbn [exec];
      unfold CH341WriteRead; unfold_ops; unfold_m; cbn;
      repeat (first [load_plain | case_step]; cbn);
      tab_back;
      first
        [ exact Hn
        | eapply names_inv_same; [| |exact Hn]; cbn; tab_back; reflexivity
        | eapply names_inv_close; [| |exact Hn]; cbn; tab_back; reflexivity
        | eapply names_inv_open; [| |exact Hwf| |exact Hn];
          [cbn; tab_back; reflexivity | cbn; tab_back; reflexivity |];
          match goal with
          | H : negb (?h =? INVALID_HANDLE_VALUE)%Z && _ = true |- _ =>
              apply andb_prop in H as [H _]; apply negb_true_iff in H;
              apply Z.eqb_neq in H; exact H
          end ]. }
  intros s HP. change (P (snd (exec ld op s))).
  destruct op; try (apply Hbasic; [discriminate | discriminate | exact HP]).
  - pose proof (Hbasic (OpCloseDevice iIndex) ltac:(discriminate)
                  ltac:(discriminate) s HP) as H1.
    pose proof (Hbasic (OpOpenDevice iIndex) ltac:(discriminate)
                  ltac:(discriminate) _ H1) as H2.
    cbn [exec] in *. unfold CH341ResetDevice; unfold_m.
    destruct (mCH341_MAX_NUMBER <=? iIndex); cbn; [exact HP|].
    revert H1 H2. unfold_m.
    destruct (CH341CloseDevice iIndex s) as [[] s1]; cbn.
    destruct (CH341OpenDevice ld iIndex s1) as [h s2]; cbn. auto.
  - pose proof (Hbasic (OpAbortInter iIndex) ltac:(discriminate)
                  ltac:(discriminate) s HP) as H1.
    cbn [exec] in *. unfold CH341ResetInter; unfold_m.
    destruct (mCH341_MAX_NUMBER <=? iIndex); cbn; [exact HP|].
    revert H1. unfold_m.
    destruct (CH341AbortInter ld iIndex s) as [b s1]; cbn. intros H1.
    destruct (negb _); cbn; [|exact H1].
    pose proof (Hbasic (OpSetIntRoutine iIndex
                  (at_index (g_IntRoutines (tab s1)) iIndex 0))
                  ltac:(discriminate) ltac:(discriminate) _ H1) as H2.
    cbn [exec] in H2. revert H2. unfold_m.
    destruct (CH341SetIntRoutine _ _ _ _) as [b' s2]. auto.
Qed.

Lemma reachable_names_inv s : reachable s -> binding_inv s /\ names_inv s.
Proof.
  induction 1 as [d | ld op s _ IH].
  - split; [apply initial_state_binding_inv|].
    intros k h Hk. cbn in Hk. apply lookup_replicate_1 in Hk as [-> _].
    split; [discriminate|]. intros H. now destruct H.
  - now apply exec_names_inv.
Qed.

(** X15.  In every reachable state the handle array never holds
    [INVALID_HANDLE_VALUE], and [CH341GetDeviceName] returns either null or
    the name ["CH347_"] followed by the queried index in decimal; it returns
    null exactly when the index is out of range or the slot's handle is
    null. *)
Theorem GetDeviceName_null_or_generated s i :
  reachable s ->
  (forall k h, g_DeviceHandles (tab s) !! k = Some h ->
               h <> INVALID_HANDLE_VALUE) /\
  snd (CH341GetDeviceName i s) = s /\
  (if (mCH341_MAX_NUMBER <=? i)
      || (at_index (g_DeviceHandles (tab s)) i NULL =? NULL)%Z
   then fst (CH341GetDeviceName i s) = None
   else fst (CH341GetDeviceName i s)
        = Some ("CH347_" +:+ NilEmpty.string_of_uint (N.to_uint i))).
Proof.
  intros Hr. apply reachable_names_inv in Hr as ((Hwf & _) & Hn).
  split; [intros k h Hk; apply (Hn k h Hk)|].
  unfold CH341GetDeviceName; unfold_m.
  destruct (mCH341_MAX_NUMBER <=? i) eqn:Hi; cbn; [auto|].
  destruct (at_index (g_DeviceHandles (tab s)) i NULL =? NULL)%Z eqn:Hz;
    cbn; [auto|].
  split; [reflexivity|].
  unfold at_index in *.
  destruct (g_DeviceHandles (tab s) !! N.to_nat i) as [h|] eqn:Hk;
    cbn in Hz; [|discriminate].
  apply Z.eqb_neq in Hz. destruct (Hn _ _ Hk) as [_ Hname].
  rewrite (Hname Hz). cbn. rewrite N2Nat.id. reflexivity.
Qed.

(** ** Interrupt trampoline and registration *)

Lemma elem_of_IntWrapper iStatus t r v :
  (r, v) ∈ CH347IntWrapper iStatus t <->
  r <> 0 /\
  v = match iStatus with
      | Some bytes => to_uchar (default 0 (head bytes))
      | None => 0
      end /\
  exists k, (k < N.to_nat mCH341_MAX_NUMBER)%nat /\
            g_IntRoutines t !! k = Some r.
Proof.
  unfold CH347IntWrapper. rewrite list_elem_of_omap. split.
  - intros (x & Hx & Hf). apply elem_of_take in Hx as (k & Hk & Hlt).
    destruct (N.eqb_spec x 0) as [->|Hx0]; cbn in Hf; [discriminate|].
    injection Hf as <- <-. eauto.
  - intros (Hr & -> & k & Hlt & Hk). exists r. split.
    + apply elem_of_take. eauto.
    + destruct (N.eqb_spec r 0) as [->|_]; [contradiction|reflexivity].
Qed.

(** X16.  The interrupt trampoline does not tell devices apart: given the
    driver's status bytes it invokes a callback exactly when that callback
    is the non-null entry of some slot, every invocation receiving the same
    status word, the first status byte (0 for a null pointer), which is
    below 256. *)
Theorem IntWrapper_fans_out_to_every_slot iStatus (t : DeviceTable) r v :
  (r, v) ∈ CH347IntWrapper iStatus t <->
  r <> 0 /\
  v = match iStatus with
      | Some bytes => to_uchar (default 0 (head bytes))
      | None => 0
      end /\
  v < 256 /\
  exists j, j < mCH341_MAX_NUMBER /\ g_IntRoutines t !! N.to_nat j = Some r.
Proof.
  rewrite elem_of_IntWrapper. split.
  - intros (Hr & Hv & k & Hlt & Hk). repeat split; auto.
    + subst v. destruct iStatus; [apply to_uchar_lt | reflexivity].
    + exists (N.of_nat k). rewrite Nat2N.id. split; [lia | exact Hk].
  - intros (Hr & Hv & _ & j & Hlt & Hj). repeat split; auto.
    exists (N.to_nat j). split; [lia | exact Hj].
Qed.

(** X17.  With the binding ready and [CH347SetIntRoutine] resolved,
    registering a non-null callback on a valid index and then registering
    the null callback makes exactly two driver calls: the first arms pin 0
    with the trampoline installed, the second disables both interrupt
    sources with no trampoline.  Afterwards the slot holds the null
    callback and the trampoline reaches the callback only through another
    slot that already held it. *)
Theorem SetIntRoutine_then_clear ld i cb s f :
  i < mCH341_MAX_NUMBER -> table_wf (tab s) ->
  g_bInitialized s = true ->
  fp_CH347SetIntRoutine (fp s) = Some f ->
  cb <> 0 ->
  let s1 := snd (CH341SetIntRoutine ld i cb s) in
  let s2 := snd (CH341SetIntRoutine ld i 0 s1) in
  g_IntRoutines (tab s1) !! N.to_nat i = Some cb /\
  calls_since s s2 = [CH347SetIntRoutine i 0 0 255 0 true;
                      CH347SetIntRoutine i 255 0 255 0 false] /\
  g_IntRoutines (tab s2) = <[N.to_nat i := 0]> (g_IntRoutines (tab s)) /\
  (forall iStatus v,
     (cb, v) ∈ CH347IntWrapper iStatus (tab s2) ->
     exists k, k <> N.to_nat i /\ g_IntRoutines (tab s) !! k = Some cb).
Proof.
  intros Hi Hwf Hr Hf Hcb.
  assert (Hlen : (N.to_nat i < length (g_IntRoutines (tab s)))%nat).
  { destruct Hwf as (_&_&_&_&->&_). lia. }
  apply N.leb_gt in Hi. apply N.eqb_neq in Hcb.
  unfold CH341SetIntRoutine; unfold_m.
  rewrite Hi, (LoadCH347DLL_ready _ _ Hr); cbn. rewrite Hf, Hcb; cbn.
  destruct (f i 0 0 255 0 true (drv s)) as [b1 d1]; cbn.
  rewrite ?Hi; cbn.
  rewrite LoadCH347DLL_ready by exact Hr. cbn. rewrite ?Hf; cbn.
  destruct (f i 255 0 255 0 false d1) as [b2 d2]; cbn.
  split; [apply list_lookup_insert_eq, Hlen|].
  split; [apply calls_since_app; cbn; now rewrite <- app_assoc|].
  split; [apply list_insert_insert_eq|].
  intros iStatus v Hin. apply elem_of_IntWrapper in Hin as (_ & _ & k & _ & Hk).
  cbn in Hk. rewrite list_insert_insert_eq in Hk.
  exists k. destruct (decide (N.to_nat i = k)) as [<-|Hne].
  - rewrite list_lookup_insert_eq in Hk by exact Hlen.
    apply N.eqb_neq in Hcb. congruence.
  - rewrite list_lookup_insert_ne in Hk by exact Hne. auto.
Qed.

Lemma set_IntRoutines_same (t : DeviceTable) k :
  (k < length (g_IntRoutines t))%nat ->
  set_IntRoutines <[k := default 0 (g_IntRoutines t !! k)]> t = t.
Proof.
  intros Hk. destruct (lookup_lt_is_Some_2 _ _ Hk) as [x Hx].
  unfold set_IntRoutines, mPCH341_INT_ROUTINE in *.
  rewrite Hx. change (default 0 (Some x)) with x.
  rewrite (list_insert_id _ _ _ Hx). destruct t; reflexivity.
Qed.

(** X18.  [CH341ResetInter] never changes the device table: when it
    re-registers, it stores the callback the slot already holds.  For a
    valid index whose slot holds no callback it returns TRUE whatever the
    abort did, even when the binding cannot be loaded.  With the binding
    ready, both symbols resolved and a callback registered, it makes the
    abort call, ignores its result, then re-arms with the trampoline and
    returns that call's result. *)
Theorem ResetInter_rearms_same_callback ld i s :
  table_wf (tab s) ->
  let routine := at_index (g_IntRoutines (tab s)) i 0 in
  let '(r, s') := CH341ResetInter ld i s in
  tab s' = tab s /\
  (i < mCH341_MAX_NUMBER -> routine = 0 -> r = true) /\
  match fp_CH347AbortInter (fp s), fp_CH347SetIntRoutine (fp s) with
  | Some fa, Some fs =>
      i < mCH341_MAX_NUMBER -> g_bInitialized s = true -> routine <> 0 ->
      calls_since s s' = [CH347AbortInter i;
                          CH347SetIntRoutine i 0 0 255 0 true] /\
      r = fst (fs i 0 0 255 0 true (snd (fa i (drv s))))
  | _, _ => True
  end.
Proof.
  intros Hwf routine.
  assert (Hlen : i < mCH341_MAX_NUMBER ->
                 (N.to_nat i < length (g_IntRoutines (tab s)))%nat).
  { destruct Hwf as (_&_&_&_&->&_). lia. }
  assert (HA : let '(r, s') := CH341ResetInter ld i s in
               tab s' = tab s /\
               (i < mCH341_MAX_NUMBER -> routine = 0 -> r = true)).
  { subst routine.
    unfold CH341ResetInter, CH341AbortInter, CH341SetIntRoutine; unfold_m.
    destruct (mCH341_MAX_NUMBER <=? i) eqn:Hi; cbn;
      [split; [reflexivity | intros H; apply N.leb_le in Hi; lia]|].
    apply N.leb_gt in Hi. specialize (Hlen Hi).
    repeat (first [load_plain | case_step]; cbn);
      unfold at_index in *; cbn in *;
      repeat match goal with
             | H : tab _ = tab _ |- _ => try rewrite H in *; clear H
             end;
      (split;
       [first [reflexivity | apply set_IntRoutines_same; exact Hlen]
       |intros _ Hz;
        first [reflexivity
              | exfalso;
                match goal with
                | H : negb (_ =? 0) = true |- _ =>
                    rewrite Hz in H; discriminate H
                end]]). }
  destruct (CH341ResetInter ld i s) as [r s'] eqn:HR.
  destruct HA as (HA1 & HA2). split; [exact HA1|]. split; [exact HA2|].
  destruct (fp_CH347AbortInter (fp s)) as [fa|] eqn:Hfa; [|exact I].
  destruct (fp_CH347SetIntRoutine (fp s)) as [fs|] eqn:Hfs; [|exact I].
  intros Hi Hr Hnz. apply N.leb_gt in Hi. apply N.eqb_neq in Hnz.
  revert HR. subst routine.
  unfold CH341ResetInter, CH341AbortInter, CH341SetIntRoutine, at_index in *;
    unfold_m.
  rewrite Hi, (LoadCH347DLL_ready _ _ Hr); cbn. rewrite Hfa; cbn.
  destruct (fa i (drv s)) as [b d]; cbn.
  rewrite Hnz; cbn. rewrite ?Hi; cbn.
  rewrite LoadCH347DLL_ready by exact Hr. cbn. rewrite Hfs; cbn.
  rewrite ?Hnz; cbn.
  destruct (fs i 0 0 255 0 true d) as [b' d']; cbn.
  intros [= <- <-]. split; [|reflexivity].
  apply calls_since_app. cbn. now rewrite <- app_assoc.
Qed.

(** ** Notification registration *)

(** X19.  For a valid index, when the binding loads,
    [CH341SetDeviceNotify] stores the routine in the slot before it looks
    for the driver symbol: with [CH347SetDeviceNotify] unresolved it returns
    FALSE without a call, yet the routine is recorded.  With the symbol
    resolved it makes exactly one call, passing the device identifier
    unchanged and installing the notification trampoline exactly when the
    routine is non-null, and returns that call's result.  A non-null routine
    so recorded is then invoked by the trampoline with the event status
    passed through unchanged. *)
Theorem SetDeviceNotify_records_then_forwards ld i iDeviceID routine s s1 :
  i < mCH341_MAX_NUMBER -> table_wf (tab s) ->
  LoadCH347DLL ld s = (true, s1) ->
  let '(r, s') := CH341SetDeviceNotify ld i iDeviceID routine s in
  g_NotifyRoutines (tab s') !! N.to_nat i = Some routine /\
  match fp_CH347SetDeviceNotify (fp s1) with
  | None => r = false /\ trace s' = trace s
  | Some f =>
      let wrapper := negb (routine =? 0) in
      trace s' = trace s ++ [CH347SetDeviceNotify i iDeviceID wrapper] /\
      r = fst (f i iDeviceID wrapper (drv s1))
  end /\
  (routine <> 0 ->
   forall ev, (routine, ev) ∈ CH347NotifyWrapper ev (tab s')).
Proof.
  intros Hi Hwf HL.
  destruct (LoadCH347DLL_cases _ _ _ _ HL) as (Ht & Hd & Htr & _).
  assert (Hn : (N.to_nat i < N.to_nat mCH341_MAX_NUMBER)%nat) by lia.
  assert (Hlen : (N.to_nat i < length (g_NotifyRoutines (tab s1)))%nat).
  { rewrite Ht. destruct Hwf as (_&_&_&_&_&_&_&->). exact Hn. }
  assert (Hlk : <[N.to_nat i:=routine]> (g_NotifyRoutines (tab s1))
                !! N.to_nat i = Some routine)
    by (apply list_lookup_insert_eq, Hlen).
  assert (Hwrap : routine <> 0 -> forall ev t,
            g_NotifyRoutines t !! N.to_nat i = Some routine ->
            (routine, ev) ∈ CH347NotifyWrapper ev t).
  { intros Hnz ev t Hk. unfold CH347NotifyWrapper.
    apply list_elem_of_omap. exists routine. split.
    - apply elem_of_take. eauto.
    - apply N.eqb_neq in Hnz. rewrite Hnz. reflexivity. }
  unfold CH341SetDeviceNotify; unfold_m.
  apply N.leb_gt in Hi. rewrite Hi, HL; cbn.
  destruct (fp_CH347SetDeviceNotify (fp s1)) as [f|]; cbn.
  - destruct (f i iDeviceID (negb (routine =? 0)) (drv s1)) as [b d]; cbn.
    rewrite Htr. repeat split; auto.
  - repeat split; auto.
Qed.

(** ** SPI data entry point *)

(** X20.  With the binding ready and the slot's SPI flag set,
    [CH341StreamSPI4] on a valid index makes a single driver call and
    returns its result: [CH347StreamSPI4] whenever that symbol is resolved,
    otherwise [CH347SPI_WriteRead], each with the caller's chip select,
    length and buffer.  With neither resolved it returns FALSE without a
    call.  The device table is unchanged. *)
Theorem StreamSPI4_prefers_stream_entry_point ld i iChipSelect iLength
    ioBuffer s :
  i < mCH341_MAX_NUMBER -> g_bInitialized s = true ->
  spi_flag s i = Some true ->
  let '((r, out), s') :=
    CH341StreamSPI4 ld i iChipSelect iLength ioBuffer s in
  tab s' = tab s /\
  match fp_CH347StreamSPI4 (fp s), fp_CH347SPI_WriteRead (fp s) with
  | Some f, _ =>
      trace s' = trace s ++ [CH347StreamSPI4 i iChipSelect iLength ioBuffer] /\
      (r, out) = fst (f i iChipSelect iLength ioBuffer (drv s))
  | None, Some f =>
      trace s' =
        trace s ++ [CH347SPI_WriteRead i iChipSelect iLength ioBuffer] /\
      (r, out) = fst (f i iChipSelect iLength ioBuffer (drv s))
  | None, None => r = false /\ trace s' = trace s
  end.
Proof.
  intros Hi Hr Hflag. unfold spi_flag in Hflag.
  unfold CH341StreamSPI4, at_index; unfold_m.
  apply N.leb_gt in Hi. rewrite (LoadCH347DLL_ready _ _ Hr); cbn.
  rewrite Hi, Hflag; cbn.
  destruct (fp_CH347StreamSPI4 (fp s)) as [f|]; cbn.
  - destruct (f i iChipSelect iLength ioBuffer (drv s)) as [[r out] d]; cbn.
    auto.
  - destruct (fp_CH347SPI_WriteRead (fp s)) as [f|]; cbn; auto.
    destruct (f i iChipSelect iLength ioBuffer (drv s)) as [[r out] d]; cbn.
    auto.
Qed.

(** ** Write then read: the early exits *)

(** X21.  [CH341WriteRead] returns FALSE without any driver call when the
    binding cannot be loaded or either of [CH347WriteData] and
    [CH347ReadData] is unresolved, even for a pure write.  When the write
    phase fails it returns FALSE after that one call, reads nothing and
    leaves [*oReadLength] unwritten.  When the write phase is skipped or
    succeeds but a read pointer is null or the step or the count is zero, it
    returns TRUE without reading and again leaves [*oReadLength]
    unwritten. *)
Theorem WriteRead_early_exits ld i iWriteLength iWriteBuffer iReadStep
    iReadTimes oReadLength oReadBuffer s :
  let '(ok, s1) := LoadCH347DLL ld s in
  let '((r, total, mem), s') :=
    CH341WriteRead ld i iWriteLength iWriteBuffer iReadStep iReadTimes
                   oReadLength oReadBuffer s in
  match ok, fp_CH347WriteData (fp s1), fp_CH347ReadData (fp s1) with
  | true, Some fw, Some fr =>
      let write := [CH347WriteData i iWriteBuffer (Some iWriteLength)] in
      let wrote := fst (fst (fw i iWriteBuffer (Some iWriteLength) (drv s1))) in
      if (0 <? iWriteLength) && negb wrote then
        r = false /\ total = None /\ mem = [] /\ trace s' = trace s ++ write
      else if oReadLength && oReadBuffer && (0 <? iReadStep)
              && (0 <? iReadTimes) then
        r = true /\ exists n, total = Some n
      else
        r = true /\ total = None /\ mem = [] /\
        trace s' = trace s ++ (if 0 <? iWriteLength then write else [])
  | _, _, _ =>
      r = false /\ total = None /\ mem = [] /\
      trace s' = trace s /\ drv s' = drv s
  end.
Proof.
  unfold CH341WriteRead; unfold_m.
  destruct (LoadCH347DLL ld s) as [[|] s1] eqn:HL; cbn;
    destruct (LoadCH347DLL_cases _ _ _ _ HL) as (Ht & Hd & Htr & _);
    [|auto].
  destruct (fp_CH347WriteData (fp s1)) as [fw|]; cbn; [|auto].
  destruct (fp_CH347ReadData (fp s1)) as [fr|]; cbn; [|auto].
  unfold PULONG, PVOID_in, PVOID_out, ULONG, UCHAR, BOOL in *.
  destruct (0 <? iWriteLength); cbn.
  - destruct (fw i iWriteBuffer (Some iWriteLength) (drv s1))
      as [[w wl] d]; cbn.
    destruct w; cbn; [|rewrite Htr; auto].
    destruct (oReadLength && oReadBuffer && (0 <? iReadStep)
              && (0 <? iReadTimes)); cbn.
    + destruct (read_loop _ _ _ _ _ _ _ _) as [[n mem] s']; cbn. eauto.
    + rewrite Htr. auto.
  - destruct (oReadLength && oReadBuffer && (0 <? iReadStep)
              && (0 <? iReadTimes)); cbn.
    + destruct (read_loop _ _ _ _ _ _ _ _) as [[n mem] s']; cbn. eauto.
    + rewrite Htr, app_nil_r. auto.
Qed.

(** ** Reset and close *)

Lemma OpenDevice_keeps_other_arrays ld i s :
  let t' := tab (snd (CH341OpenDevice ld i s)) in
  g_SPIInitialized t' = g_SPIInitialized (tab s) /\
  g_StreamMode t' = g_StreamMode (tab s) /\
  g_IntRoutines t' = g_IntRoutines (tab s) /\
  g_NotifyRoutines t' = g_NotifyRoutines (tab s).
Proof.
  unfold CH341OpenDevice; unfold_m; cbn.
  repeat (first [load_plain | case_step]; cbn); tab_back; auto.
Qed.

(** X22.  In every reachable state, [CH341ResetDevice] on a valid index
    leaves the slot's SPI flag clear whether or not the reopen succeeds, so
    SPI is initialised afresh by the next transfer; the stream mode and the
    interrupt and notification callbacks of the slot survive the reset. *)
Theorem ResetDevice_discards_spi_initialisation ld i s :
  reachable s -> i < mCH341_MAX_NUMBER ->
  let s' := snd (CH341ResetDevice ld i s) in
  spi_flag s' i = Some false /\
  g_StreamMode (tab s') = g_StreamMode (tab s) /\
  g_IntRoutines (tab s') = g_IntRoutines (tab s) /\
  g_NotifyRoutines (tab s') = g_NotifyRoutines (tab s).
Proof.
  intros Hr Hi. apply reachable_binding_inv in Hr.
  pose proof (CloseDevice_closes s i Hr Hi) as [_ Hspi].
  cbn zeta. rewrite (ResetDevice_close_then_open ld i s Hi).
  pose proof (OpenDevice_keeps_other_arrays ld i (snd (CH341CloseDevice i s)))
    as (Hs & Hm & Hint & Hnt).
  destruct (CH341OpenDevice ld i (snd (CH341CloseDevice i s))) as [h s2].
  cbn in *. unfold spi_flag. rewrite Hs, Hm, Hint, Hnt.
  split; [exact Hspi|].
  unfold CH341CloseDevice; unfold_m.
  repeat (case_step; cbn); auto.
Qed.

(** X23.  In every reachable state, after [CH341CloseDevice] on any index
    [CH341GetDeviceName] for that index returns null.  Closing clears only
    the handle and the SPI flag: the stream mode, the interrupt and
    notification callbacks, both buffer flags and the stored name of the
    slot stay as they were, and at most one driver call is made, a
    [CH347CloseDevice] for the index. *)
Theorem CloseDevice_clears_only_handle_and_spi s i :
  reachable s ->
  let s' := snd (CH341CloseDevice i s) in
  fst (CH341GetDeviceName i s') = None /\
  g_DeviceNames (tab s') = g_DeviceNames (tab s) /\
  g_StreamMode (tab s') = g_StreamMode (tab s) /\
  g_IntRoutines (tab s') = g_IntRoutines (tab s) /\
  g_NotifyRoutines (tab s') = g_NotifyRoutines (tab s) /\
  g_BufUploadEnabled (tab s') = g_BufUploadEnabled (tab s) /\
  g_BufDownloadEnabled (tab s') = g_BufDownloadEnabled (tab s) /\
  (calls_since s s' = [] \/ calls_since s s' = [CH347CloseDevice i]).
Proof.
  intros Hr. apply reachable_binding_inv in Hr. cbn zeta. split.
  - unfold CH341GetDeviceName, at_index; unfold_m.
    destruct (mCH341_MAX_NUMBER <=? i) eqn:Hi; cbn; [reflexivity|].
    apply N.leb_gt in Hi.
    destruct (CloseDevice_closes s i Hr Hi) as [-> _]. reflexivity.
  - unfold CH341CloseDevice; unfold_m.
    repeat (case_step; cbn); repeat split; auto.
    + left. now apply calls_since_same.
    + right. now apply calls_since_app.
    + left. now apply calls_since_same.
Qed.

(** ** Pointers left behind by a failed load *)

(** X24.  A load that fails for lack of an essential symbol still leaves
    every pointer it resolved in place.  If the primary DLL exports
    [CH347CloseDevice] but not [CH347OpenDevice], [LoadCH347DLL] returns
    FALSE with the module handle cleared and the readiness flag clear, and a
    following [CH341CloseDevice] on a valid index, which consults neither,
    still calls [CH347CloseDevice]. *)
Theorem CloseDevice_calls_after_failed_load ld i s lib f :
  g_bInitialized s = false ->
  ld "CH347DLL.DLL" = Some lib ->
  fp_CH347OpenDevice lib = None -> fp_CH347CloseDevice lib = Some f ->
  i < mCH341_MAX_NUMBER ->
  let '(ok, s1) := LoadCH347DLL ld s in
  let s2 := snd (CH341CloseDevice i s1) in
  ok = false /\ g_hCH347DLL s1 = None /\ g_bInitialized s1 = false /\
  fp s1 = lib /\ calls_since s1 s2 = [CH347CloseDevice i].
Proof.
  intros Hini Hlib Hopen Hclose Hi. apply N.leb_gt in Hi.
  unfold LoadCH347DLL, CH341CloseDevice; unfold_m.
  rewrite Hini; cbn. rewrite Hlib; cbn. rewrite Hopen; cbn.
  rewrite Hi; cbn. rewrite Hclose; cbn. destruct (f i (drv s)) as [b d]; cbn.
  repeat split; auto. rewrite drop_app_length. reflexivity.
Qed.

(** ** What an open slot and a set SPI flag imply *)

Lemma LoadCH347DLL_spi_inv ld s ok s1 :
  LoadCH347DLL ld s = (ok, s1) ->
  binding_inv s -> spi_inv s -> spi_inv s1.
Proof.
  intros HL (_ & _ & Hnot) Hq.
  destruct (LoadCH347DLL_cases _ _ _ _ HL) as (Ht & _ & _ & _ & Hsame & _).
  destruct (g_bInitialized s) eqn:Hr.
  - now rewrite (Hsame eq_refl).
  - intros k Hk. rewrite Ht in Hk. destruct (Hnot eq_refl) as [_ Hs].
    rewrite Hs in Hk. apply lookup_replicate_1 in Hk as [Hk _]. discriminate.
Qed.

Ltac load_spi :=
  match goal with
  | Hb : binding_inv ?s, Hq : spi_inv ?s |- context [LoadCH347DLL ?ld ?s] =>
      let ok := fresh "ok" in let s1 := fresh "s" in let H := fresh "HL" in
      destruct (LoadCH347DLL ld s) as [ok s1] eqn:H;
      pose proof (LoadCH347DLL_spi_inv _ _ _ _ H Hb Hq);
      apply LoadCH347DLL_cases in H; destruct H as (?&?&?&_); destruct ok
  end.

Ltac spi_inv_solve :=
  let k := fresh "k" in let Hk := fresh "Hk" in
  intros k Hk; cbn in Hk |- *;
  repeat match goal with
         | Hfp : fp _ = fp _ |- _ => rewrite Hfp; clear Hfp
         end;
  match goal with
  | Hq : spi_inv ?s |- is_Some (fp_CH347SPI_Init (fp ?s)) =>
      first
        [ apply (Hq k); first [exact Hk | congruence]
        | match type of Hk with
          | <[?j := ?b]> _ !! _ = _ =>
              destruct (decide (j = k)) as [<-|?];
              [ first
                  [ rewrite list_lookup_insert_eq in Hk
                      by (apply lookup_lt_Some in Hk;
                          now rewrite length_insert in Hk);
                    discriminate Hk
                  | match goal with
                    | H : fp_CH347SPI_Init (fp s) = Some _ |- _ =>
                        rewrite H; eexists; reflexivity
                    end ]
              | rewrite list_lookup_insert_ne in Hk by assumption;
                apply (Hq k); first [exact Hk | congruence] ]
          end ]
  end.

Lemma exec_spi_inv ld op :
  preserves (fun s => binding_inv s /\ spi_inv s) (exec ld op).
Proof.
  set (P := fun s : @State D => binding_inv s /\ spi_inv s).
  assert (Hbasic : forall op', op' <> OpResetDevice (default 0 (op_index op'))
            -> op' <> OpResetInter (default 0 (op_index op')) ->
            preserves P (exec ld op')).
  { intros op' Hn1 Hn2 s0 (Hb & Hq).
    split; [now apply exec_binding_inv|].
    destruct op'; cbn in Hn1, Hn2; try congruence; cbn [exec];
      unfold CH341WriteRead; unfold_ops; unfold_m; cbn;
      repeat (first [load_spi | case_step]; cbn);
      repeat match goal with
             | H : read_loop _ _ _ _ _ _ _ _ = _ |- _ =>
                 apply read_loop_frame in H; cbn in H;
                 destruct H as (_ & Hfp & H)
             end;
      first [ assumption | spi_inv_solve ]. }
  intros s HP. change (P (snd (exec ld op s))).
  destruct op; try (apply Hbasic; [discriminate | discriminate | exact HP]).
  - pose proof (Hbasic (OpCloseDevice iIndex) ltac:(discriminate)
                  ltac:(discriminate) s HP) as H1.
    pose proof (Hbasic (OpOpenDevice iIndex) ltac:(discriminate)
                  ltac:(discriminate) _ H1) as H2.
    cbn [exec] in *. unfold CH341ResetDevice; unfold_m.
    destruct (mCH341_MAX_NUMBER <=? iIndex); cbn; [exact HP|].
    revert H1 H2. unfold_m.
    destruct (CH341CloseDevice iIndex s) as [[] s1]; cbn.
    destruct (CH341OpenDevice ld iIndex s1) as [h s2]; cbn. auto.
  - pose proof (Hbasic (OpAbortInter iIndex) ltac:(discriminate)
                  ltac:(discriminate) s HP) as H1.
    cbn [exec] in *. unfold CH341ResetInter; unfold_m.
    destruct (mCH341_MAX_NUMBER <=? iIndex); cbn; [exact HP|].
    revert H1. unfold_m.
    destruct (CH341AbortInter ld iIndex s) as [b s1]; cbn. intros H1.
    destruct (negb _); cbn; [|exact H1].
    pose proof (Hbasic (OpSetIntRoutine iIndex
                  (at_index (g_IntRoutines (tab s1)) iIndex 0))
                  ltac:(discriminate) ltac:(discriminate) _ H1) as H2.
    cbn [exec] in H2. revert H2. unfold_m.
    destruct (CH341SetIntRoutine _ _ _ _) as [b' s2]. auto.
Qed.

Lemma reachable_spi_inv s : reachable s -> binding_inv s /\ spi_inv s.
Proof.
  induction 1 as [d | ld op s _ IH].
  - split; [apply initial_state_binding_inv|].
    intros k Hk. cbn in Hk. apply lookup_replicate_1 in Hk as [Hk _].
    discriminate.
  - now apply exec_spi_inv.
Qed.

(** X25.  In every reachable state a slot holds a non-null handle only if
    the binding is ready with both essential symbols resolved, and a slot's
    SPI flag is set only if the binding is ready and [CH347SPI_Init] is
    resolved. *)
Theorem open_slot_and_spi_flag_imply_ready s i :
  reachable s ->
  (forall h, g_DeviceHandles (tab s) !! N.to_nat i = Some h -> h <> NULL ->
             g_bInitialized s = true /\
             is_Some (fp_CH347OpenDevice (fp s)) /\
             is_Some (fp_CH347CloseDevice (fp s))) /\
  (spi_flag s i = Some true ->
   g_bInitialized s = true /\ is_Some (fp_CH347SPI_Init (fp s))).
Proof.
  intros Hr. apply reachable_spi_inv in Hr as ((_ & Hrdy & Hnot) & Hq).
  split.
  - intros h Hk Hnz. destruct (g_bInitialized s).
    + split; [reflexivity|]. now apply Hrdy.
    + destruct (Hnot eq_refl) as [Hh _]. rewrite Hh in Hk.
      apply lookup_replicate_1 in Hk as [-> _]. now destruct Hnz.
  - unfold spi_flag. intros Hk. split; [|now apply (Hq _ Hk)].
    destruct (g_bInitialized s); [reflexivity|].
    destruct (Hnot eq_refl) as [_ Hs]. rewrite Hs in Hk.
    apply lookup_replicate_1 in Hk as [Hk _]. discriminate.
Qed.

End Properties.

(** C7 (code defect).  Against a driver whose [CH347OpenDevice] returns a
    null handle, [CH341ResetDevice] on index 0 reports success although
    [CH341OpenDevice] recorded nothing: the slot's handle is null and the
    device has no name, that is, the slot is closed. *)
Theorem ResetDevice_true_on_null_handle :
  let '(r, s') := CH341ResetDevice null_open_loader 0 (initial_state 0%nat) in
  r = true /\
  g_DeviceHandles (tab s') !! 0%nat = Some NULL /\
  fst (CH341GetDeviceName 0 s') = None /\
  fst (CH341OpenDevice null_open_loader 0
         (snd (CH341CloseDevice 0 (initial_state 0%nat)))) = NULL.
Proof. vm_compute. repeat split. Qed.

(** ** The properties evaluated on the stub drivers *)

Lemma out_of_range_SPI_transfer_on_stub :
  let s := initial_state 0%nat in
  let '(r, s') := exec stub_loader (OpStreamSPI4 16 0 4 (Some [1; 2; 3; 4])) s in
  r = RetBOOL false /\ tab s' = tab s /\ trace s' = [] /\ drv s' = 0%nat.
Proof.
  exact (out_of_range_index_fails_closed stub_loader
           (OpStreamSPI4 16 0 4 (Some [1; 2; 3; 4])) 16 (initial_state 0%nat)
           eq_refl ltac:(vm_compute; discriminate) eq_refl).
Defined.

(** C1 fails as stated: [CH341SetTimeout] does not compare its index with
    [mCH341_MAX_NUMBER]; with index 16 it calls [CH347SetTimeout] and
    returns that call's result. *)
Lemma SetTimeout_forwards_out_of_range_index :
  ~ (forall (ld : string -> option (@HMODULE nat)) op i s,
       op_index op = Some i -> mCH341_MAX_NUMBER <= i ->
       let '(r, s') := exec ld op s in
       r = failure_sentinel op /\ trace s' = trace s /\ tab s' = tab s).
Proof.
  intros H.
  specialize (H stub_loader (OpSetTimeout 16 1000 1000) 16
                (initial_state 0%nat) eq_refl).
  assert (Hi : mCH341_MAX_NUMBER <= 16) by (vm_compute; discriminate).
  specialize (H Hi). vm_compute in H. destruct H as [H _]. discriminate H.
Qed.


(** A slot opened on the stub driver: the first transfer initialises the SPI
    peripheral and then transfers. *)
Lemma first_transfer_on_stub_initialises_once :
  let s := snd (exec stub_loader (OpOpenDevice 3) (initial_state 0%nat)) in
  let s' := snd (CH341StreamSPI4 stub_loader 3 0 4 (Some [1; 2; 3; 4]) s) in
  spi_flag s 3 = Some false /\
  spi_flag s' 3 = Some true /\
  calls_since s s' =
    [CH347SPI_Init 3 (CH341_SpiCfg 0); CH347StreamSPI4 3 0 4 (Some [1; 2; 3; 4])].
Proof.
  pose proof (StreamSPI4_lazy_initialisation stub_loader 3 0 4
                (Some [1; 2; 3; 4]) _ _
                (reach_step stub_loader (OpOpenDevice 3) _ (reach_init 0%nat))
                ltac:(vm_compute; reflexivity) eq_refl) as [H _].
  vm_compute in H. destruct H as [Hflag (data & Hcalls & _)].
  split; [vm_compute; reflexivity|]. split; [exact Hflag|].
  vm_compute. vm_compute in Hcalls. rewrite Hcalls. reflexivity.
Defined.

(** C2 fails as stated: the SPI flag is tied to the last close, not to the
    open.  A transfer made on slot 3 before it is opened initialises the
    peripheral; the slot is then opened successfully, and the first transfer
    after that open makes no initialisation call. *)
Lemma transfer_before_open_uses_up_initialisation :
  ~ (forall (ld : string -> option (@HMODULE nat)) s i cs len buf h s1 r s2,
       reachable s -> i < mCH341_MAX_NUMBER ->
       CH341OpenDevice ld i s = (h, s1) ->
       h <> INVALID_HANDLE_VALUE -> h <> NULL ->
       CH341StreamSPI4 ld i cs len buf s1 = (r, s2) ->
       length (filter is_SPI_Init (calls_since s1 s2)) = 1%nat).
Proof.
  intros H.
  specialize (H stub_loader
    (snd (exec stub_loader (OpStreamSPI4 3 0 4 (Some [1; 2; 3; 4]))
            (initial_state 0%nat)))
    3 0 4 (Some [5; 6; 7; 8]) _ _ _ _
    (reach_step stub_loader _ _ (reach_init 0%nat))
    ltac:(vm_compute; reflexivity) eq_refl
    ltac:(vm_compute; discriminate) ltac:(vm_compute; discriminate) eq_refl).
  vm_compute in H. discriminate H.
Qed.

(** C3 fails as stated: with no CH347 DLL to load, the version query
    returns 0, not [IC_VER_CH341A]. *)
Lemma GetVerIC_zero_without_binding :
  ~ (forall (ld : string -> option (@HMODULE nat)) i s,
       fst (LoadCH347DLL ld s) = false ->
       fst (CH341GetVerIC ld i s) = IC_VER_CH341A).
Proof.
  intros H. specialize (H no_loader 0 (initial_state 0%nat) eq_refl).
  vm_compute in H. discriminate H.
Qed.

Lemma GetVerIC_on_stub :
  fst (CH341GetVerIC stub_loader 0 (initial_state 0%nat)) = IC_VER_CH341A3 /\
  fst (CH341GetVerIC no_loader 0 (initial_state 0%nat)) = 0.
Proof.
  pose proof (GetVerIC_mapping stub_loader 0 (initial_state 0%nat)) as H1.
  pose proof (GetVerIC_mapping no_loader 0 (initial_state 0%nat)) as H2.
  vm_compute in H1, H2. destruct H1 as (_ & H1 & _).
  split; [exact (H1 (or_introl eq_refl)) | exact H2].
Defined.

Lemma I2C_byte_helpers_on_stub :
  trace (snd (CH341ReadI2C stub_loader 0 0x50 0x10 true (initial_state 0%nat)))
  = [CH347StreamI2C 0 2 (Some [0xA0; 0x10]) 1 true] /\
  trace (snd (CH341WriteI2C stub_loader 0 0x50 0x10 0xAB (initial_state 0%nat)))
  = [CH347StreamI2C 0 3 (Some [0xA0; 0x10; 0xAB]) 0 false].
Proof.
  pose proof (I2C_byte_helpers_one_stream_call stub_loader 0 0x50 0x10 0xAB
                (initial_state 0%nat) _ _ eq_refl eq_refl) as (H1 & H2 & _).
  vm_compute in H1, H2. vm_compute.
  split; [exact (proj1 H1) | exact (proj1 H2)].
Defined.

Lemma SetIntRoutine_records_on_stub :
  g_IntRoutines
    (tab (snd (CH341SetIntRoutine stub_loader 2 0x401000 (initial_state 0%nat))))
    !! 2%nat = Some 0x401000.
Proof.
  pose proof (SetIntRoutine_records_callback stub_loader 2 0x401000
                (initial_state 0%nat) true _
                ltac:(vm_compute; reflexivity)
                ltac:(vm_compute; repeat split) eq_refl) as H.
  vm_compute in H. vm_compute. exact H.
Defined.

(** C5 fails as stated: the callback is stored only after the binding has
    loaded; with no CH347 DLL the call fails and the slot keeps its null
    callback. *)
Lemma SetIntRoutine_not_recorded_without_binding :
  ~ (forall (ld : string -> option (@HMODULE nat)) i cb s,
       i < mCH341_MAX_NUMBER -> table_wf (tab s) ->
       g_IntRoutines (tab (snd (CH341SetIntRoutine ld i cb s))) !! N.to_nat i
       = Some cb).
Proof.
  intros H.
  specialize (H no_loader 0 0x401000 (initial_state 0%nat)
                ltac:(vm_compute; reflexivity)
                ltac:(vm_compute; repeat split)).
  vm_compute in H. discriminate H.
Qed.

(** The stub delivers 4 bytes on each of the first two reads and fails on
    the third: three reads are issued, 8 bytes are reported, the call
    succeeds. *)
Lemma WriteRead_two_of_three_on_stub :
  let '((r, total, mem), s') :=
    CH341WriteRead stub_loader 0 2 (Some [0x9F; 0x00]) 4 3 true true
                   (initial_state 0%nat) in
  r = true /\ total = Some 8 /\
  trace s' = [CH347WriteData 0 (Some [0x9F; 0x00]) (Some 2);
              CH347ReadData 0 true (Some 4); CH347ReadData 0 true (Some 4);
              CH347ReadData 0 true (Some 4)] /\
  mem = [(0, [0xDE; 0xAD; 0xBE; 0xEF]); (4, [0xDE; 0xAD; 0xBE; 0xEF]); (8, [])].
Proof.
  pose proof (WriteRead_partial_total stub_loader 0 2 (Some [0x9F; 0x00]) 4 3
                (initial_state 0%nat) _ _ _ eq_refl eq_refl eq_refl
                ltac:(intros _; reflexivity)
                ltac:(vm_compute; reflexivity)
                ltac:(vm_compute; reflexivity)) as H.
  vm_compute in H. vm_compute. destruct H as (Hr & Ht & Htr & Hmem & _).
  repeat split; assumption.
Defined.

Lemma GetInput_on_stub :
  exists v, snd (fst (CH341GetInput stub_loader 0 true (initial_state 0%nat)))
            = Some v /\ v < 256 /\ N.shiftr v 8 = 0.
Proof.
  destruct (GetInput_status_high_bits_zero stub_loader 0 true
              (initial_state 0%nat) true (Some 0xA5) _ eq_refl eq_refl)
    as (v & Hv & Hlt & Hsh & _).
  exists v. vm_compute. repeat split; assumption.
Defined.

Lemma CloseDevice_twice_on_stub :
  let s := snd (exec stub_loader (OpStreamSPI4 3 0 4 (Some [1; 2; 3; 4]))
             (snd (exec stub_loader (OpOpenDevice 3) (initial_state 0%nat)))) in
  let s1 := snd (CH341CloseDevice 3 s) in
  let s2 := snd (CH341CloseDevice 3 s1) in
  g_DeviceHandles (tab s) !! 3%nat = Some 0x1003%Z /\
  spi_flag s 3 = Some true /\
  tab s2 = tab s1 /\ slot_closed s1 3 /\ slot_closed s2 3.
Proof.
  pose proof (CloseDevice_idempotent _ 3
                (reach_step stub_loader (OpStreamSPI4 3 0 4 (Some [1; 2; 3; 4]))
                   _ (reach_step stub_loader (OpOpenDevice 3) _
                        (reach_init 0%nat)))) as [Htab Hslots].
  destruct (Hslots ltac:(vm_compute; reflexivity)) as [H1 H2].
  repeat split; try assumption; vm_compute; reflexivity.
Defined.

Lemma SetStream_on_degraded_driver :
  let '(r, s') := CH341SetStream degraded_loader 5 0x82 (initial_state 0%nat) in
  r = true /\ g_StreamMode (tab s') !! 5%nat = Some 0x82 /\
  trace s' = [] /\ drv s' = 0%nat.
Proof.
  exact (SetStream_without_I2C_Set degraded_loader 5 0x82
           (initial_state 0%nat) _
           ltac:(vm_compute; reflexivity) ltac:(vm_compute; repeat split)
           eq_refl eq_refl).
Defined.

(** ** The further properties evaluated on the stub drivers *)

Lemma SetOutput_on_stub :
  trace (snd (CH341SetOutput stub_loader 0 0x0C 0x1F0 0x2A5
                (initial_state 0%nat)))
  = [CH347GPIO_Set 0 0xFF 0xF0 0xA5] /\
  trace (snd (CH341SetOutput stub_loader 0 0x04 0x1F0 0x2A5
                (initial_state 0%nat)))
  = [CH347GPIO_Set 0 0xFF 0 0xA5].
Proof.
  pose proof (SetOutput_gates_data_and_direction stub_loader 0 0x0C 0x1F0
                0x2A5 (initial_state 0%nat) _ _ eq_refl eq_refl) as H1.
  pose proof (SetOutput_gates_data_and_direction stub_loader 0 0x04 0x1F0
                0x2A5 (initial_state 0%nat) _ _ eq_refl eq_refl) as H2.
  vm_compute in H1, H2. vm_compute.
  split; [exact (proj1 H1) | exact (proj1 H2)].
Defined.

Lemma Set_D5_D0_on_stub :
  trace (snd (CH341Set_D5_D0 stub_loader 0 0xFF 0xC5 (initial_state 0%nat)))
  = [CH347GPIO_Set 0 0x3F 0x3F 0x05].
Proof.
  pose proof (Set_D5_D0_masks_to_six_pins stub_loader 0 0xFF 0xC5
                (initial_state 0%nat) _ _ eq_refl eq_refl) as H.
  vm_compute in H. vm_compute. exact (proj1 H).
Defined.

Lemma SetStream_on_stub :
  let '(r, s') := CH341SetStream stub_loader 1 0x83 (initial_state 0%nat) in
  r = true /\ trace s' = [CH347I2C_Set 1 3] /\
  g_StreamMode (tab s') !! 1%nat = Some 0x83.
Proof.
  pose proof (SetStream_forwards_two_speed_bits stub_loader 1 0x83
                (initial_state 0%nat) _ _
                ltac:(vm_compute; reflexivity) ltac:(vm_compute; repeat split)
                eq_refl eq_refl) as H.
  vm_compute in H. vm_compute. destruct H as (Ht & Hres & _ & Hm).
  repeat split; assumption.
Defined.

Lemma ReadInter_on_stub :
  exists v, snd (fst (CH341ReadInter stub_loader 0 true (initial_state 0%nat)))
            = Some v /\ v < 256.
Proof.
  destruct (ReadInter_status_is_first_byte stub_loader 0 true
              (initial_state 0%nat) true (Some 1) _ eq_refl eq_refl)
    as (v & s1 & f & Hv & Hlt & _).
  exists v. split; [exact Hv | exact Hlt].
Defined.

Lemma buffer_flags_on_initial_state :
  let s' := snd (CH341SetBufUpload 2 1 (initial_state 0%nat)) in
  fst (CH341QueryBufUpload 2 (initial_state 0%nat)) = (-1)%Z /\
  fst (CH341QueryBufUpload 2 s') = 0%Z /\
  fst (CH341QueryBufDownload 2 s') = (-1)%Z.
Proof.
  pose proof (buffer_flags_round_trip 2 1 (initial_state 0%nat)
                ltac:(vm_compute; reflexivity)
                ltac:(vm_compute; repeat split)) as [H _].
  vm_compute in H. vm_compute.
  destruct H as (_ & _ & _ & _ & Hu & Hd). repeat split; assumption.
Defined.

Lemma OpenDevice_on_stub :
  let '(h, s') := CH341OpenDevice stub_loader 3 (initial_state 0%nat) in
  h = 0x1003%Z /\ g_DeviceHandles (tab s') !! 3%nat = Some 0x1003%Z /\
  fst (CH341GetDeviceName 3 s') = Some "CH347_3".
Proof.
  pose proof (OpenDevice_records_handle_and_name stub_loader 3
                (initial_state 0%nat) 0x1003%Z _
                ltac:(vm_compute; repeat split) eq_refl) as H.
  vm_compute in H. vm_compute. destruct H as (_ & _ & Hh & Hn).
  repeat split; assumption.
Defined.

Lemma SetStream_without_any_dll :
  let s := initial_state 0%nat in
  let '(r, s') := exec no_loader (OpSetStream 0 0x81) s in
  r = RetBOOL false /\ tab s' = tab s /\ trace s' = [] /\ drv s' = 0%nat.
Proof.
  exact (binding_unavailable_fails_closed no_loader (OpSetStream 0 0x81)
           (initial_state 0%nat) eq_refl eq_refl).
Defined.

Lemma binding_survives_missing_dll :
  let s := snd (exec stub_loader (OpOpenDevice 3) (initial_state 0%nat)) in
  let s' := snd (exec no_loader (OpSetStream 3 0x81) s) in
  g_bInitialized s' = true /\ fp s' = fp s /\ g_hCH347DLL s' = g_hCH347DLL s.
Proof.
  exact (binding_frozen_once_ready no_loader (OpSetStream 3 0x81)
           (snd (exec stub_loader (OpOpenDevice 3) (initial_state 0%nat)))
           eq_refl).
Defined.

Lemma open_of_slot_3_leaves_slot_4 :
  slot_view (tab (snd (exec stub_loader (OpOpenDevice 3)
                         (initial_state 0%nat)))) 4
  = slot_view (tab (initial_state 0%nat)) 4.
Proof.
  exact (other_slots_untouched stub_loader (OpOpenDevice 3) 4
           (initial_state 0%nat) ltac:(discriminate)).
Defined.

Lemma GetInput_keeps_table_on_stub :
  tab (snd (exec stub_loader (OpGetInput 0 true) (initial_state 0%nat)))
  = tab (initial_state 0%nat).
Proof.
  exact (read_only_operations_keep_table stub_loader (OpGetInput 0 true)
           (initial_state 0%nat) eq_refl).
Defined.

Lemma GetDeviceName_after_open_on_stub :
  let s := snd (exec stub_loader (OpOpenDevice 3) (initial_state 0%nat)) in
  fst (CH341GetDeviceName 3 s) = Some "CH347_3" /\
  fst (CH341GetDeviceName 4 s) = None.
Proof.
  pose proof (GetDeviceName_null_or_generated _ 3
                (reach_step stub_loader (OpOpenDevice 3) _ (reach_init 0%nat)))
    as (_ & _ & H3).
  pose proof (GetDeviceName_null_or_generated _ 4
                (reach_step stub_loader (OpOpenDevice 3) _ (reach_init 0%nat)))
    as (_ & _ & H4).
  split; [exact H3 | exact H4].
Defined.

Lemma SetIntRoutine_then_clear_on_stub :
  let s := snd (exec stub_loader (OpOpenDevice 2) (initial_state 0%nat)) in
  let s1 := snd (CH341SetIntRoutine stub_loader 2 0x401000 s) in
  let s2 := snd (CH341SetIntRoutine stub_loader 2 0 s1) in
  CH347IntWrapper (Some [0x5A]) (tab s1) = [(0x401000, 0x5A)] /\
  calls_since s s2 = [CH347SetIntRoutine 2 0 0 255 0 true;
                      CH347SetIntRoutine 2 255 0 255 0 false] /\
  CH347IntWrapper (Some [0x5A]) (tab s2) = [].
Proof.
  pose proof (SetIntRoutine_then_clear stub_loader 2 0x401000
                (snd (exec stub_loader (OpOpenDevice 2) (initial_state 0%nat)))
                _ ltac:(vm_compute; reflexivity)
                ltac:(vm_compute; repeat split) eq_refl eq_refl
                ltac:(discriminate)) as (_ & Hcalls & _).
  split; [vm_compute; reflexivity|]. split; [exact Hcalls|].
  vm_compute; reflexivity.
Defined.

Lemma ResetInter_without_callback_or_dll :
  let '(r, s') := CH341ResetInter no_loader 0 (initial_state 0%nat) in
  r = true /\ tab s' = tab (initial_state 0%nat).
Proof.
  pose proof (ResetInter_rearms_same_callback no_loader 0
                (initial_state 0%nat) ltac:(vm_compute; repeat split)) as H.
  cbn zeta in H.
  destruct (CH341ResetInter no_loader 0 (initial_state 0%nat)) as [r s'].
  destruct H as (Ht & Hr & _).
  split; [|exact Ht].
  apply Hr; vm_compute; reflexivity.
Defined.

Lemma SetDeviceNotify_on_stub :
  let '(r, s') :=
    CH341SetDeviceNotify stub_loader 1 None 0x402000 (initial_state 0%nat) in
  r = true /\ trace s' = [CH347SetDeviceNotify 1 None true] /\
  CH347NotifyWrapper 3 (tab s') = [(0x402000, 3)].
Proof.
  pose proof (SetDeviceNotify_records_then_forwards stub_loader 1 None
                0x402000 (initial_state 0%nat) _
                ltac:(vm_compute; reflexivity)
                ltac:(vm_compute; repeat split) eq_refl) as H.
  cbn zeta in H.
  destruct (CH341SetDeviceNotify stub_loader 1 None 0x402000
              (initial_state 0%nat)) as [r s'] eqn:E.
  destruct H as (_ & (Htr & Hres) & _).
  split; [exact Hres|]. split; [exact Htr|].
  apply (f_equal snd) in E. cbn in E. subst s'. vm_compute. reflexivity.
Defined.

Lemma second_transfer_on_stub_uses_stream_entry_point :
  let s := snd (exec stub_loader (OpStreamSPI4 3 0 4 (Some [1; 2; 3; 4]))
             (snd (exec stub_loader (OpOpenDevice 3) (initial_state 0%nat)))) in
  let '((r, out), s') :=
    CH341StreamSPI4 stub_loader 3 0 2 (Some [5; 6]) s in
  r = true /\ out = [5; 6] /\
  calls_since s s' = [CH347StreamSPI4 3 0 2 (Some [5; 6])].
Proof.
  pose proof (StreamSPI4_prefers_stream_entry_point stub_loader 3 0 2
                (Some [5; 6])
                (snd (exec stub_loader (OpStreamSPI4 3 0 4 (Some [1; 2; 3; 4]))
                   (snd (exec stub_loader (OpOpenDevice 3)
                           (initial_state 0%nat)))))
                ltac:(vm_compute; reflexivity) eq_refl eq_refl) as H.
  vm_compute in H. vm_compute. destruct H as (_ & Htr & Hres).
  split; [exact (f_equal fst Hres)|]. split; [exact (f_equal snd Hres)|].
  reflexivity.
Defined.

Lemma ResetDevice_clears_spi_flag_on_stub :
  let s := snd (exec stub_loader (OpStreamSPI4 3 0 4 (Some [1; 2; 3; 4]))
             (snd (exec stub_loader (OpOpenDevice 3) (initial_state 0%nat)))) in
  spi_flag s 3 = Some true /\
  spi_flag (snd (CH341ResetDevice stub_loader 3 s)) 3 = Some false.
Proof.
  pose proof (ResetDevice_discards_spi_initialisation stub_loader 3 _
                (reach_step stub_loader
                   (OpStreamSPI4 3 0 4 (Some [1; 2; 3; 4])) _
                   (reach_step stub_loader (OpOpenDevice 3) _
                      (reach_init 0%nat)))
                ltac:(vm_compute; reflexivity)) as (H & _).
  split; [vm_compute; reflexivity | exact H].
Defined.

Lemma CloseDevice_after_open_on_stub :
  let s := snd (exec stub_loader (OpOpenDevice 3) (initial_state 0%nat)) in
  let s' := snd (CH341CloseDevice 3 s) in
  fst (CH341GetDeviceName 3 s) = Some "CH347_3" /\
  fst (CH341GetDeviceName 3 s') = None /\
  g_DeviceNames (tab s') = g_DeviceNames (tab s).
Proof.
  pose proof (CloseDevice_clears_only_handle_and_spi _ 3
                (reach_step stub_loader (OpOpenDevice 3) _ (reach_init 0%nat)))
    as (Hn & Hnames & _).
  split; [vm_compute; reflexivity|]. split; [exact Hn | exact Hnames].
Defined.

Lemma CloseDevice_after_failed_load_on_stub :
  let '(ok, s1) := LoadCH347DLL no_open_loader (initial_state 0%nat) in
  ok = false /\ g_hCH347DLL s1 = None /\
  trace (snd (CH341CloseDevice 0 s1)) = [CH347CloseDevice 0].
Proof.
  pose proof (CloseDevice_calls_after_failed_load no_open_loader 0
                (initial_state 0%nat) _ _ eq_refl eq_refl eq_refl eq_refl
                ltac:(vm_compute; reflexivity)) as H.
  vm_compute in H. vm_compute. destruct H as (Hok & Hh & _ & _ & Hc).
  repeat split; assumption.
Defined.

Lemma open_slot_implies_ready_on_stub :
  let s := snd (exec stub_loader (OpStreamSPI4 3 0 4 (Some [1; 2; 3; 4]))
             (snd (exec stub_loader (OpOpenDevice 3) (initial_state 0%nat)))) in
  g_DeviceHandles (tab s) !! 3%nat = Some 0x1003%Z /\
  spi_flag s 3 = Some true /\ g_bInitialized s = true.
Proof.
  pose proof (open_slot_and_spi_flag_imply_ready _ 3
                (reach_step stub_loader
                   (OpStreamSPI4 3 0 4 (Some [1; 2; 3; 4])) _
                   (reach_step stub_loader (OpOpenDevice 3) _
                      (reach_init 0%nat)))) as (_ & H).
  split; [vm_compute; reflexivity|]. split; [vm_compute; reflexivity|].
  exact (proj1 (H eq_refl)).
Defined.
